(** * mcp-clickhouse: the connection, the pool, the retrying client and the
      query tool, embedded from [app/core/client/connection.py],
      [app/core/client/pool.py], [app/core/client/formats.py] and
      [app/api/tools/query.py].

    Conventions of the embedding.
    - Python objects that are shared by reference (the [ClickHouseConnection]
      instances a pool stores and callers hold) live in a heap and are named by
      their address; a method mutating [self] rewrites the heap cell.
    - What the outside world decides (whether the liveness probe of [connect]
      succeeds, what the driver answers, what [time.time()] reads) is passed in
      as an argument of the operation that asks for it.
    - Timestamps are [time.time()] readings; the model counts them in whole
      clock units of [Z], the comparisons are the ones of the source.
    - Text is a [string] of bytes, the UTF-8 encoding of the Python [str].
      The code upper-cases a query only to look for the word [FORMAT] in it,
      and lower-cases a format name only to compare it with the names of the
      enumeration, so the case mappings are modelled as far as ASCII goes:
      [Text.upper] capitalises the ASCII letters and replaces each of the
      characters outside ASCII whose upper-casing contains ASCII characters
      by that upper-casing; every other character outside ASCII, which Python
      maps to characters outside ASCII, is kept as it is.  [Text.lower] acts on
      the ASCII letters; the two characters outside ASCII that Python
      lower-cases to ASCII letters (U+0130 and U+212A) give [i] and [k], which
      occur in no name a lower-cased text is compared with. *)

From Stdlib Require Import ZArith NArith String Ascii Bool Lia DecimalString.
From stdpp Require Import base list.

Local Open Scope Z_scope.

(* ===================================================================== *)
(** ** Text helpers: [str.upper], [str.lower], [in], [str.count], [join] *)
(* ===================================================================== *)

Module Text.

Definition is_lower_letter (c : ascii) : bool :=
  let n := nat_of_ascii c in (97 <=? n)%nat && (n <=? 122)%nat.

Definition is_upper_letter (c : ascii) : bool :=
  let n := nat_of_ascii c in (65 <=? n)%nat && (n <=? 90)%nat.

Definition upper_ascii (c : ascii) : ascii :=
  if is_lower_letter c then ascii_of_nat (nat_of_ascii c - 32) else c.

Definition lower_ascii (c : ascii) : ascii :=
  if is_upper_letter c then ascii_of_nat (nat_of_ascii c + 32) else c.

Fixpoint map_string (f : ascii -> ascii) (s : string) : string :=
  match s with
  | EmptyString => EmptyString
  | String c s' => String (f c) (map_string f s')
  end.

(** [s.lower()], on the ASCII letters. *)
Definition lower : string -> string := map_string lower_ascii.

(** [s.startswith(p)] *)
Fixpoint starts_with (p s : string) : bool :=
  match p, s with
  | EmptyString, _ => true
  | String _ _, EmptyString => false
  | String a p', String b s' => Ascii.eqb a b && starts_with p' s'
  end.




(** The UTF-8 bytes of a code point. *)
Definition utf8 (cp : N) : string :=
  let byte (n : N) := ascii_of_N n in
  (if cp <? 128 then String (byte cp) EmptyString
   else if cp <? 2048 then
     String (byte (192 + cp / 64))
       (String (byte (128 + cp mod 64)) EmptyString)
   else if cp <? 65536 then
     String (byte (224 + cp / 4096))
       (String (byte (128 + (cp / 64) mod 64))
          (String (byte (128 + cp mod 64)) EmptyString))
   else
     String (byte (240 + cp / 262144))
       (String (byte (128 + (cp / 4096) mod 64))
          (String (byte (128 + (cp / 64) mod 64))
             (String (byte (128 + cp mod 64)) EmptyString))))%N.

(** The characters outside ASCII whose upper-casing by [str.upper]
    contains ASCII characters, each with its upper-casing (code points):
    the sharp s, the dotless i, the long s, five letters that upper-case to a
    capital and a combining mark, and the ligatures U+FB00 to U+FB06. *)
Definition special_upper : list (N * list N) :=
  [ (0xDF, [0x53; 0x53]);
    (0x131, [0x49]);
    (0x149, [0x2BC; 0x4E]);
    (0x17F, [0x53]);
    (0x1F0, [0x4A; 0x30C]);
    (0x1E96, [0x48; 0x331]);
    (0x1E97, [0x54; 0x308]);
    (0x1E98, [0x57; 0x30A]);
    (0x1E99, [0x59; 0x30A]);
    (0x1E9A, [0x41; 0x2BE]);
    (0xFB00, [0x46; 0x46]);
    (0xFB01, [0x46; 0x49]);
    (0xFB02, [0x46; 0x4C]);
    (0xFB03, [0x46; 0x46; 0x49]);
    (0xFB04, [0x46; 0x46; 0x4C]);
    (0xFB05, [0x53; 0x54]);
    (0xFB06, [0x53; 0x54]) ]%N.

(** The same table in UTF-8. *)
Definition encoded : list (string * string) :=
  map (fun e => (utf8 (fst e), String.concat EmptyString (map utf8 (snd e))))
      special_upper.

(** The entry of [table] whose character begins the text [s]. *)
Fixpoint lookup (table : list (string * string)) (s : string)
    : option (string * string) :=
  match table with
  | [] => None
  | e :: table' => if starts_with (fst e) s then Some e else lookup table' s
  end.

(** Upper-casing from left to right; [skip] counts the bytes still to pass
    of a character that has been replaced. *)
Fixpoint upper_from (skip : nat) (s : string) : string :=
  match s with
  | EmptyString => EmptyString
  | String c s' =>
      match skip with
      | S k => upper_from k s'
      | O =>
          match lookup encoded s with
          | Some e =>
              append (snd e) (upper_from (String.length (fst e) - 1) s')
          | None => String (upper_ascii c) (upper_from 0 s')
          end
      end
  end.

(** [s.upper()], as far as ASCII goes. *)
Definition upper (s : string) : string := upper_from 0 s.

(** [p in s] for strings: [p] occurs at some position of [s]. *)
Fixpoint contains (p s : string) : bool :=
  starts_with p s ||
  match s with
  | EmptyString => false
  | String _ s' => contains p s'
  end.

(** The number of positions of [s] at which [p] occurs. *)
Fixpoint occurrences (p s : string) : nat :=
  ((if starts_with p s then 1 else 0) +
   match s with
   | EmptyString => 0
   | String _ s' => occurrences p s'
   end)%nat.

(** [sep.join(parts)] *)
Fixpoint join (sep : string) (parts : list string) : string :=
  match parts with
  | [] => EmptyString
  | [x] => x
  | x :: rest => append x (append sep (join sep rest))
  end.


End Text.

(* ===================================================================== *)
(** ** [formats.py]: the [ResultFormat] enumeration                        *)
(* ===================================================================== *)

Inductive ResultFormat : Type :=
  | JSON | JSON_COMPACT | PRETTY | CSV | TSV | PARQUET | ARROW | NATIVE | NULL.

Module Format.

(** [member.value] *)
Definition value (f : ResultFormat) : string :=
  match f with
  | JSON => "json"
  | JSON_COMPACT => "JSONCompact"
  | PRETTY => "Pretty"
  | CSV => "CSV"
  | TSV => "TSV"
  | PARQUET => "Parquet"
  | ARROW => "Arrow"
  | NATIVE => "Native"
  | NULL => "Null"
  end%string.

Definition members : list ResultFormat :=
  [JSON; JSON_COMPACT; PRETTY; CSV; TSV; PARQUET; ARROW; NATIVE; NULL].

Definition eqb (f g : ResultFormat) : bool :=
  match f, g with
  | JSON, JSON | JSON_COMPACT, JSON_COMPACT | PRETTY, PRETTY | CSV, CSV
  | TSV, TSV | PARQUET, PARQUET | ARROW, ARROW | NATIVE, NATIVE
  | NULL, NULL => true
  | _, _ => false
  end.

(** [ResultFormat(s)]: the enum's lookup by value; [None] is the
    [ValueError] of a string that is no member's value. *)
Definition of_value (s : string) : option ResultFormat :=
  List.find (fun f => String.eqb (value f) s) members.

End Format.

(* ===================================================================== *)
(** ** Values, exceptions and outcomes                                     *)
(* ===================================================================== *)

(** The Python values that travel in rows, parameters and settings. *)
Inductive pyval : Type :=
  | PNone
  | PInt (n : Z)
  | PStr (s : string).

(** A [dict] with string keys: its items in insertion order. *)
Definition pydict : Type := list (string * pyval).

Module Dict.

(** [d.get(k)]: the value under [k], [None] when the key is missing. *)
Fixpoint get (d : pydict) (k : string) : pyval :=
  match d with
  | [] => PNone
  | (k', v) :: d' => if String.eqb k' k then v else get d' k
  end.

(** [k in d] *)
Fixpoint mem (k : string) (d : pydict) : bool :=
  match d with
  | [] => false
  | (k', _) :: d' => String.eqb k' k || mem k d'
  end.

(** [list(d.keys())] *)
Definition keys (d : pydict) : list string := map fst d.

(** [d[k] = v]: an existing key keeps its place, a new one goes last. *)
Fixpoint set (k : string) (v : pyval) (d : pydict) : pydict :=
  match d with
  | [] => [(k, v)]
  | (k', v') :: d' =>
      if String.eqb k' k then (k', v) :: d' else (k', v') :: set k v d'
  end.

(** [dict(pairs)]: the pairs are written one after the other. *)
Definition of_pairs (pairs : list (string * pyval)) : pydict :=
  fold_left (fun d kv => set (fst kv) (snd kv) d) pairs [].

End Dict.

(** The exception classes that occur.  [ClickHouseError] is the name under
    which [pool.py] imports [clickhouse_driver.errors.Error], the base class
    of every error the driver raises; [ServerException] (what the server
    answers to a query it rejects, a malformed one included), [NetworkError]
    and [SocketTimeoutError] are subclasses of it in the driver.
    [RetryError] is tenacity's. *)
Inductive exn_class : Type :=
  | ClickHouseError
  | ServerException
  | NetworkError
  | SocketTimeoutError
  | RetryError
  | TypeError
  | ValueError
  | IndexError
  | KeyError.

Inductive exn : Type :=
  | Exn (cls : exn_class) (msg : string)
  | RetryErr (last_attempt : exn).    (* tenacity.RetryError(last_attempt) *)

Definition class_of (e : exn) : exn_class :=
  match e with
  | Exn cls _ => cls
  | RetryErr _ => RetryError
  end.

(** [issubclass(cls, ClickHouseError)] *)
Definition subclass_of_ClickHouseError (cls : exn_class) : bool :=
  match cls with
  | ClickHouseError | ServerException | NetworkError | SocketTimeoutError => true
  | RetryError | TypeError | ValueError | IndexError | KeyError => false
  end.

(** [isinstance(e, ClickHouseError)] *)
Definition is_ClickHouseError (e : exn) : bool :=
  subclass_of_ClickHouseError (class_of e).

(** [type(e).__name__] *)
Definition class_name (cls : exn_class) : string :=
  match cls with
  | ClickHouseError => "Error"
  | ServerException => "ServerException"
  | NetworkError => "NetworkError"
  | SocketTimeoutError => "SocketTimeoutError"
  | RetryError => "RetryError"
  | TypeError => "TypeError"
  | ValueError => "ValueError"
  | IndexError => "IndexError"
  | KeyError => "KeyError"
  end.

(** [str(e)].  [ClickHouseError] is the driver's base class [Error], which
    the client raises itself with a message: the driver prints an error as
    its code, [None] for the base class, and the message after it.  The
    instances of the other classes are made by the driver and the
    interpreter, and [msg] is the text [str] gives for them (for the driver's
    own, code included).  A [RetryError] prints the future of its last
    attempt, which names the class of what the attempt raised and not its
    message; the address of the future, which Python prints after [Future], is
    left out. *)
Definition str_exn (e : exn) : string :=
  match e with
  | Exn ClickHouseError msg => append "Code: None. " msg
  | Exn _ msg => msg
  | RetryErr last =>
      append "RetryError[<Future state=finished raised "
             (append (class_name (class_of last)) ">]")
  end.

(** How a call that comes back ends: with a value or with an exception. *)
Inductive result (A : Type) : Type :=
  | Ok (a : A)
  | Raise (e : exn).
Arguments Ok {A} a.
Arguments Raise {A} e.

(** How far a call that may wait has come: it is done, or it is still
    waiting (for the pool's lock, or polling for an idle connection). *)
Inductive progress (A : Type) : Type :=
  | Done (r : result A)
  | Waiting.
Arguments Done {A} r.
Arguments Waiting {A}.

(* ===================================================================== *)
(** ** The driver, as the connection sees it                               *)
(* ===================================================================== *)

Definition row : Type := list pyval.

(** The [params] argument: absent, a mapping, or the rows of a bulk insert. *)
Inductive params : Type :=
  | NoParams
  | DictParams (d : pydict)
  | RowParams (rows : list row).

(** One call of [SyncClient.execute] / [SyncClient.execute_iter]. *)
Record Call : Type := mkCall {
  call_query : string;
  call_params : params;
  call_with_column_types : bool;
  call_query_id : option string;
  call_settings : option pydict
}.

(** What the driver hands back: rows, rows with column metadata, or text. *)
Inductive reply : Type :=
  | Rows (rows : list row)
  | RowsWithTypes (rows : list row) (columns : list (string * string))
  | Text (s : string).

(** The driver's answer to a call is the environment's choice. *)
Definition driver : Type := Call -> result reply.

(** The [SELECT 1] that [connect] sends to test the link. *)
Definition probe_call : Call :=
  mkCall "SELECT 1" NoParams false None None.

(* ===================================================================== *)
(** ** [connection.py]: [ClickHouseConnection]                             *)
(* ===================================================================== *)

(** The driver's client object; the connection only tests it for presence. *)
Inductive SyncClient : Type := TheSyncClient.

(** The mutable state of a [ClickHouseConnection]. *)
Record Connection : Type := mkConnection {
  _client : option SyncClient;
  _in_use : bool;
  _last_used : Z
}.

Module Conn.

(** State after [__init__]. *)
Definition init : Connection := mkConnection None false 0.

Definition set_client (o : option SyncClient) (c : Connection) : Connection :=
  mkConnection o (_in_use c) (_last_used c).
Definition set_in_use (b : bool) (c : Connection) : Connection :=
  mkConnection (_client c) b (_last_used c).
Definition set_last_used (t : Z) (c : Connection) : Connection :=
  mkConnection (_client c) (_in_use c) t.

(** The properties. *)
Definition is_connected (c : Connection) : bool :=
  match _client c with Some _ => true | None => false end.
Definition is_in_use (c : Connection) : bool := _in_use c.
Definition last_used (c : Connection) : Z := _last_used c.

(** What a method leaves behind: the connection's new state, the calls it
    sent to the driver, and how it ended. *)
Definition effect (A : Type) : Type := Connection * list Call * result A.

Definition state_of {A : Type} (x : effect A) : Connection := fst (fst x).
Definition sent_of {A : Type} (x : effect A) : list Call := snd (fst x).
Definition outcome_of {A : Type} (x : effect A) : result A := snd x.

(** [connect()]: build the client, probe it; a failed probe drops the
    client again and the error goes up.  [probe] is what the probe
    raised, if anything. *)
Definition connect (probe : option exn) (c : Connection) : effect unit :=
  let c1 := set_client (Some TheSyncClient) c in
  match probe with
  | None => (c1, [probe_call], Ok tt)
  | Some e => (set_client None c1, [probe_call], Raise e)
  end.

(** [disconnect()] *)
Definition disconnect (c : Connection) : Connection :=
  match _client c with
  | Some _ => set_client None c
  | None => c
  end.

(** The body shared by [execute] and [execute_with_format] from [try:]
    on: set the flag, call the driver, stamp [_last_used] when it
    returned, let an exception through, clear the flag in [finally]. *)
Definition guarded_call (drv : driver) (now : Z) (call : Call)
    (c : Connection) : effect reply :=
  let c1 := set_in_use true c in
  match drv call with
  | Ok r =>
      let c2 := set_last_used now c1 in
      (set_in_use false c2, [call], Ok r)
  | Raise e =>
      (set_in_use false c1, [call], Raise e)
  end.

(** [execute(query, params, with_column_types, query_id, settings)].
    [now] is what [time.time()] reads once the driver has returned. *)
Definition execute (probe : option exn) (drv : driver) (now : Z)
    (query : string) (ps : params) (with_column_types : bool)
    (query_id : option string) (settings : option pydict)
    (c : Connection) : effect reply :=
  let '(c0, sent, connected) :=
    if is_connected c then (c, [], Ok tt) else connect probe c in
  match connected with
  | Raise e => (c0, sent, Raise e)
  | Ok _ =>
      let call := mkCall query ps with_column_types query_id settings in
      let '(c1, sent1, r) := guarded_call drv now call c0 in
      (c1, sent ++ sent1, r)
  end.

(** The query text [execute_with_format] sends: the [FORMAT] clause is
    added unless the upper-cased query contains the word already. *)
Definition with_format_clause (query : string) (format_name : ResultFormat)
    : string :=
  if Text.contains "FORMAT" (Text.upper query) then query
  else append query (append " FORMAT " (Format.value format_name)).

(** [execute_with_format(query, format_name, params, query_id, settings)] *)
Definition execute_with_format (probe : option exn) (drv : driver) (now : Z)
    (query : string) (format_name : ResultFormat) (ps : params)
    (query_id : option string) (settings : option pydict)
    (c : Connection) : effect reply :=
  let '(c0, sent, connected) :=
    if is_connected c then (c, [], Ok tt) else connect probe c in
  match connected with
  | Raise e => (c0, sent, Raise e)
  | Ok _ =>
      let query' := with_format_clause query format_name in
      let call := mkCall query' ps false query_id settings in
      let '(c1, sent1, r) := guarded_call drv now call c0 in
      (c1, sent ++ sent1, r)
  end.

(** [execute_iter] is a generator.  The driver's stream is the rows it
    delivers and, after them, the exception it raises, if any; the
    consumer either iterates to the end or closes the generator when it
    has taken [n] rows. *)
Definition stream : Type := list row * option exn.

Inductive consumer : Type :=
  | Exhaust
  | CloseAfter (n : nat).

Inductive iter_end : Type :=
  | Exhausted               (* StopIteration after the last row *)
  | Closed                  (* the consumer closed the generator *)
  | Failed (e : exn).       (* an exception came out of the generator *)

(** A generator closed before its first [next()] never runs its body.
    Otherwise: connect when there is no client, set the flag, yield the
    rows; [GeneratorExit] at a [yield] is no [Exception], so a close only
    runs [finally]; the end of the stream stamps [_last_used]; an
    exception of the driver goes through [except] and [finally]. *)
Definition execute_iter (probe : option exn) (src : stream) (now : Z)
    (query : string) (ps : params) (query_id : option string)
    (settings : option pydict) (who : consumer) (c : Connection)
    : Connection * list Call * list row * iter_end :=
  match who with
  | CloseAfter O => (c, [], [], Closed)
  | _ =>
    let '(c0, sent, connected) :=
      if is_connected c then (c, [], Ok tt) else connect probe c in
    match connected with
    | Raise e => (c0, sent, [], Failed e)
    | Ok _ =>
        let call := mkCall query ps false query_id settings in
        let c1 := set_in_use true c0 in
        let stops_early :=
          match who with
          | CloseAfter n => (n <=? length (fst src))%nat
          | Exhaust => false
          end in
        if stops_early then
          let n := match who with CloseAfter n => n | Exhaust => O end in
          (set_in_use false c1, sent ++ [call], take n (fst src), Closed)
        else
          match snd src with
          | None =>
              let c2 := set_last_used now c1 in
              (set_in_use false c2, sent ++ [call], fst src, Exhausted)
          | Some e =>
              (set_in_use false c1, sent ++ [call], fst src, Failed e)
          end
    end
  end.

Definition iter_state (x : Connection * list Call * list row * iter_end)
    : Connection := fst (fst (fst x)).
Definition iter_end_of (x : Connection * list Call * list row * iter_end)
    : iter_end := snd x.

End Conn.

(* ===================================================================== *)
(** ** [pool.py]: [ClickHouseConnectionPool]                               *)
(* ===================================================================== *)

(** The pool together with the objects it shares with its callers.
    [heap] holds the connections by address; [_pool] is the member list (a
    list of references); [_lock] is true while a coroutine sits in the wait
    loop of [get_connection], which it runs inside [async with self._lock];
    [wire] is every call the driver has received, oldest first. *)
Record World : Type := mkWorld {
  heap : list Connection;
  pool_size : Z;
  pool_recycle : Z;
  _pool : list nat;
  _lock : bool;
  wire : list Call
}.

(** What the environment decides during one pass through the pool: the
    clock reading of the staleness test, the outcome of a [connect] (if one
    is made), the driver's answers, the clock reading after the driver
    returned. *)
Record Env : Type := mkEnv {
  clock_scan : Z;
  probe : option exn;
  answer : driver;
  clock_done : Z
}.

Module Pool.

(** A pool after [__init__]. *)
Definition init (size recycle : Z) : World :=
  mkWorld [] size recycle [] false [].

Definition set_heap (h : list Connection) (w : World) : World :=
  mkWorld h (pool_size w) (pool_recycle w) (_pool w) (_lock w) (wire w).
Definition set_members (ms : list nat) (w : World) : World :=
  mkWorld (heap w) (pool_size w) (pool_recycle w) ms (_lock w) (wire w).
Definition set_lock (b : bool) (w : World) : World :=
  mkWorld (heap w) (pool_size w) (pool_recycle w) (_pool w) b (wire w).
Definition send (calls : list Call) (w : World) : World :=
  mkWorld (heap w) (pool_size w) (pool_recycle w) (_pool w) (_lock w)
          (wire w ++ calls).

(** A method mutating the connection at address [a]. *)
Definition update (a : nat) (f : Connection -> Connection) (w : World)
    : World :=
  set_heap (alter f a (heap w)) w.

(** [for conn in self._pool: if not conn.is_in_use: ...]: the first
    member that is not in use. *)
Fixpoint first_idle (h : list Connection) (ms : list nat)
    : option (nat * Connection) :=
  match ms with
  | [] => None
  | a :: ms' =>
      match h !! a with
      | Some c => if Conn.is_in_use c then first_idle h ms' else Some (a, c)
      | None => first_idle h ms'
      end
  end.

(** [list.remove(x)]: drops the first occurrence. *)
Fixpoint remove_first (a : nat) (ms : list nat) : list nat :=
  match ms with
  | [] => []
  | b :: ms' => if Nat.eqb b a then ms' else b :: remove_first a ms'
  end.

(** One round of the wait loop: claim the first idle member, if any. *)
Definition poll (w : World) : option (nat * World) :=
  match first_idle (heap w) (_pool w) with
  | Some (a, _) => Some (a, update a (Conn.set_in_use true) w)
  | None => None
  end.

(** [while True: ...; await asyncio.sleep(0.1)], watched for [fuel] sleeps
    during which no other caller does anything: what the loop finds is then
    decided at its first scan, and a loop that finds nothing is left waiting,
    the lock held.  The loop among callers that act while it sleeps is
    [Run.get_connection]. *)
Fixpoint wait_loop (fuel : nat) (w : World) : World * progress nat :=
  match poll w with
  | Some (a, w') => (set_lock false w', Done (Ok a))
  | None =>
      match fuel with
      | O => (set_lock true w, Waiting)
      | S fuel' => wait_loop fuel' w
      end
  end.

(** The part of [get_connection] after the scan: create a connection when
    there is room ([_create_connection] connects eagerly), otherwise wait. *)
Definition grow_or_wait (fuel : nat) (probe : option exn) (w : World)
    : World * progress nat :=
  if Z.of_nat (length (_pool w)) <? pool_size w then
    let '(c, sent, r) := Conn.connect probe Conn.init in
    match r with
    | Ok _ =>
        let a := length (heap w) in
        let w1 := set_heap (heap w ++ [Conn.set_in_use true c]) (send sent w) in
        (set_members (_pool w1 ++ [a]) w1, Done (Ok a))
    | Raise e => (send sent w, Done (Raise e))
    end
  else wait_loop fuel w.

(** [get_connection()].  A caller that finds the lock taken waits for it.
    The scan stops at the first idle member: a stale one is disconnected
    and removed and the scan is left with [break]; a fresh one is marked
    and returned. *)
Definition get_connection (fuel : nat) (now : Z) (probe : option exn)
    (w : World) : World * progress nat :=
  if _lock w then (w, Waiting)
  else
    match first_idle (heap w) (_pool w) with
    | Some (a, c) =>
        if now - Conn.last_used c >? pool_recycle w then
          let w1 := update a Conn.disconnect w in
          let w2 := set_members (remove_first a (_pool w1)) w1 in
          grow_or_wait fuel probe w2
        else
          (update a (Conn.set_in_use true) w, Done (Ok a))
    | None => grow_or_wait fuel probe w
    end.

(** The exit of the [connection()] context manager:
    [finally: conn._in_use = False]. *)
Definition release (a : nat) (w : World) : World :=
  update a (Conn.set_in_use false) w.

(** A method of the connection at [a], run on the shared object.  The
    addresses the pool hands out are allocated; the last branch is for an
    address that names nothing. *)
Definition on_connection {A : Type} (a : nat)
    (m : Connection -> Conn.effect A) (w : World) : World * result A :=
  match heap w !! a with
  | Some c =>
      let '(c', sent, r) := m c in
      (send sent (update a (fun _ => c') w), r)
  | None => (w, Raise (Exn TypeError "no such object"))
  end.

(** [async with self.connection() as conn: return conn.<method>(...)] *)
Definition with_connection {A : Type} (fuel : nat) (E : Env)
    (m : Connection -> Conn.effect A) (w : World) : World * progress A :=
  match get_connection fuel (clock_scan E) (probe E) w with
  | (w1, Done (Ok a)) =>
      let '(w2, r) := on_connection a m w1 in
      (release a w2, Done r)
  | (w1, Done (Raise e)) => (w1, Done (Raise e))
  | (w1, Waiting) => (w1, Waiting)
  end.

(** [execute(query, params, with_column_types, query_id, settings)] *)
Definition execute (fuel : nat) (E : Env) (query : string) (ps : params)
    (with_column_types : bool) (query_id : option string)
    (settings : option pydict) (w : World) : World * progress reply :=
  with_connection fuel E
    (Conn.execute (probe E) (answer E) (clock_done E) query ps
                  with_column_types query_id settings) w.

(** [execute_with_format(query, format_name, params, query_id, settings)] *)
Definition execute_with_format (fuel : nat) (E : Env) (query : string)
    (format_name : ResultFormat) (ps : params) (query_id : option string)
    (settings : option pydict) (w : World) : World * progress reply :=
  with_connection fuel E
    (Conn.execute_with_format (probe E) (answer E) (clock_done E) query
                              format_name ps query_id settings) w.

(** [close()]: under the lock, disconnect every member, empty the list. *)
Definition close (w : World) : World * progress unit :=
  if _lock w then (w, Waiting)
  else
    (set_members []
       (fold_left (fun w' a => update a Conn.disconnect w') (_pool w) w),
     Done (Ok tt)).

End Pool.

(* ===================================================================== *)
(** ** The [@retry] decorator of [pool.py], as tenacity runs it            *)
(* ===================================================================== *)

Module Retry.

(** tenacity's [statistics]: the attempts made, and the sleeps between
    them (in seconds). *)
Record statistics : Type := mkStatistics {
  attempt_number : nat;
  sleeps : list Z
}.

(** [retry_if_exception_type(ClickHouseError)] *)
Definition retry_if_exception_type (e : exn) : bool := is_ClickHouseError e.

(** [stop_after_attempt(3)] *)
Definition max_attempt_number : nat := 3.
Definition stop_after_attempt (n : nat) : bool :=
  (max_attempt_number <=? n)%nat.

(** [wait_exponential(multiplier, min, max)] after attempt [n]:
    [max(max(0, min), min(multiplier * 2 ** (n - 1), max))]. *)
Definition wait_exponential (multiplier lo hi : Z) (n : nat) : Z :=
  Z.max (Z.max 0 lo) (Z.min (multiplier * 2 ^ (Z.of_nat n - 1)) hi).

(** The wait of the decorator: [wait_exponential(multiplier=1, min=1, max=10)]. *)
Definition wait (n : nat) : Z := wait_exponential 1 1 10 n.

(** The retry loop from attempt [n] on.  [body n] is the decorated
    function run as attempt [n].  A result is returned; an exception the
    predicate does not accept is raised as it is; one it accepts ends the
    loop with [RetryError] when [stop] says so (the decorator sets no
    [reraise]) and otherwise is followed by a sleep and the next attempt.
    [left] bounds the recursion; [stop] ends the loop before it is used up. *)
Fixpoint attempts {A : Type} (left : nat) (n : nat) (slept : list Z)
    (body : nat -> World -> World * progress A) (w : World)
    : World * progress A * statistics :=
  match left with
  | O => (w, Waiting, mkStatistics (n - 1) slept)
  | S left' =>
      match body n w with
      | (w1, Waiting) => (w1, Waiting, mkStatistics n slept)
      | (w1, Done (Ok v)) => (w1, Done (Ok v), mkStatistics n slept)
      | (w1, Done (Raise e)) =>
          if negb (retry_if_exception_type e) then
            (w1, Done (Raise e), mkStatistics n slept)
          else if stop_after_attempt n then
            (w1, Done (Raise (RetryErr e)), mkStatistics n slept)
          else
            attempts left' (S n) (slept ++ [wait n]) body w1
      end
  end.

(** A call of the decorated function. *)
Definition call {A : Type} (body : nat -> World -> World * progress A)
    (w : World) : World * progress A * statistics :=
  attempts max_attempt_number 1 [] body w.

End Retry.

(* ===================================================================== *)
(** ** [pool.py]: [ClickHouseClient]                                       *)
(* ===================================================================== *)

(** The client's own attributes that the operations read. *)
Record ClickHouseClient : Type := mkClient {
  database : string;
  query_timeout : Z
}.

(** The object [self._pool.connection()] returns, an
    [_AsyncGeneratorContextManager]: entering it runs [get_connection],
    leaving it releases the connection. *)
Inductive ContextManager : Type := PoolConnection.

Record InsertResult : Type := mkInsertResult {
  ins_database : string;
  ins_table : string;
  rows_inserted : nat
}.

Record ColumnInfo : Type := mkColumnInfo {
  col_name : pyval;
  col_type : pyval;
  col_default_type : pyval;
  col_default_expression : pyval;
  col_comment : pyval;
  col_codec_expression : pyval;
  col_ttl_expression : pyval
}.

Record TableSchema : Type := mkTableSchema {
  sch_database : string;
  sch_table : string;
  sch_engine : pyval;
  sch_create_table_query : pyval;
  sch_total_rows : pyval;
  sch_total_bytes : pyval;
  sch_comment : pyval;
  sch_columns : list ColumnInfo
}.

Module Client.

(** [database or self.database] *)
Definition database_or_default (cl : ClickHouseClient)
    (db : option string) : string :=
  match db with
  | Some d => if String.eqb d "" then database cl else d
  | None => database cl
  end.

(** [if settings is None: settings = {}] and then
    [if "max_execution_time" not in settings: settings[...] = self.query_timeout] *)
Definition with_timeout (cl : ClickHouseClient) (settings : option pydict)
    : pydict :=
  let st := match settings with Some st => st | None => [] end in
  if Dict.mem "max_execution_time" st then st
  else Dict.set "max_execution_time" (PInt (query_timeout cl)) st.

(** The [connection] attribute.  It is declared with [@property], so
    reading it already yields the context manager. *)
Definition connection (cl : ClickHouseClient) : ContextManager :=
  PoolConnection.

(** The call operator on a context manager.  The class gets [__call__]
    from [AsyncContextDecorator], where it takes the function to decorate;
    without that argument the call is a [TypeError]. *)
Definition call_context_manager (cm : ContextManager)
    (func : option ContextManager) : result ContextManager :=
  match func with
  | Some decorated => Ok decorated
  | None =>
      Raise (Exn TypeError
        "AsyncContextDecorator.__call__() missing 1 required positional argument: 'func'")
  end.

(** [execute], decorated with [@retry]; [envs n] is the environment of
    attempt [n]. *)
Definition execute (fuel : nat) (cl : ClickHouseClient) (envs : nat -> Env)
    (query : string) (ps : params) (with_column_types : bool)
    (query_id : option string) (settings : option pydict) (w : World)
    : World * progress reply * Retry.statistics :=
  Retry.call
    (fun n w' =>
       let settings' := with_timeout cl settings in
       Pool.execute fuel (envs n) query ps with_column_types query_id
                    (Some settings') w')
    w.

(** [execute_with_format], decorated with [@retry]. *)
Definition execute_with_format (fuel : nat) (cl : ClickHouseClient)
    (envs : nat -> Env) (query : string) (format_name : ResultFormat)
    (ps : params) (query_id : option string) (settings : option pydict)
    (w : World) : World * progress reply * Retry.statistics :=
  Retry.call
    (fun n w' =>
       let settings' := with_timeout cl settings in
       Pool.execute_with_format fuel (envs n) query format_name ps query_id
                                (Some settings') w')
    w.

Definition describe_query (db table : string) : string :=
  append "DESCRIBE TABLE " (append db (append "." table)).

(** The line break of the query texts. *)
Definition nl : string := String (ascii_of_nat 10) EmptyString.

Local Open Scope string_scope.

Definition catalog_query (db table : string) : string :=
  String.concat ""
    [ nl;
      "            SELECT"; nl;
      "                engine,"; nl;
      "                create_table_query,"; nl;
      "                total_rows,"; nl;
      "                total_bytes,"; nl;
      "                comment"; nl;
      "            FROM system.tables"; nl;
      "            WHERE database = '"; db; "' AND name = '"; table; "'"; nl;
      "            " ].

Local Close Scope string_scope.

(** [not x] on what a query returned. *)
Definition falsy (r : reply) : bool :=
  match r with
  | Rows [] => true
  | Text EmptyString => true
  | _ => false
  end.

(** [row[i]] *)
Definition item (r : row) (i : nat) : result pyval :=
  match r !! i with
  | Some v => Ok v
  | None => Raise (Exn IndexError "tuple index out of range")
  end.

(** The dictionary built from one row of [DESCRIBE TABLE]. *)
Definition column_info (r : row) : result ColumnInfo :=
  match item r 0, item r 1, item r 2, item r 3, item r 4, item r 5, item r 6 with
  | Ok a, Ok b, Ok c, Ok d, Ok e, Ok f, Ok g =>
      Ok (mkColumnInfo a b c d e f g)
  | _, _, _, _, _, _, _ => Raise (Exn IndexError "tuple index out of range")
  end.

(** [for row in columns_result[0]: columns.append({...})] *)
Fixpoint column_infos (rows : list row) : result (list ColumnInfo) :=
  match rows with
  | [] => Ok []
  | r :: rows' =>
      match column_info r with
      | Ok ci =>
          match column_infos rows' with
          | Ok cis => Ok (ci :: cis)
          | Raise e => Raise e
          end
      | Raise e => Raise e
      end
  end.

(** The assembly of the schema from the two results, after the emptiness
    test.  The driver answers a call with column types by a pair and one
    without by rows; another shape is a [TypeError] here. *)
Definition assemble (db table : string) (columns_result table_result : reply)
    : result TableSchema :=
  match columns_result, table_result with
  | RowsWithTypes described _, Rows (info :: _) =>
      match column_infos described with
      | Raise e => Raise e
      | Ok columns =>
          match info with
          | [engine; create_table_query; total_rows; total_bytes; comment] =>
              Ok (mkTableSchema db table engine create_table_query total_rows
                                total_bytes comment columns)
          | _ => Raise (Exn ValueError "wrong number of values to unpack")
          end
      end
  | _, _ => Raise (Exn TypeError "unexpected result shape")
  end.

(** [get_table_schema(table, database)]; [envs1] and [envs2] are the
    environments of the attempts of the first and of the second query. *)
Definition get_table_schema (fuel : nat) (cl : ClickHouseClient)
    (envs1 envs2 : nat -> Env) (table : string) (db_arg : option string)
    (w : World) : World * progress TableSchema :=
  let db := database_or_default cl db_arg in
  match execute fuel cl envs1 (describe_query db table) NoParams true None
                None w with
  | (w1, Done (Ok columns_result), _) =>
      match execute fuel cl envs2 (catalog_query db table) NoParams false
                    None None w1 with
      | (w2, Done (Ok table_result), _) =>
          if falsy table_result then
            (w2, Done (Raise (Exn ClickHouseError
               (append "Table " (append db (append "." (append table
                  " does not exist")))))))
          else (w2, Done (assemble db table columns_result table_result))
      | (w2, Done (Raise e), _) => (w2, Done (Raise e))
      | (w2, Waiting, _) => (w2, Waiting)
      end
  | (w1, Done (Raise e), _) => (w1, Done (Raise e))
  | (w1, Waiting, _) => (w1, Waiting)
  end.

(** The column list and the value rows [insert_data] builds. *)
Definition insert_columns (first : pydict) : list string := Dict.keys first.

Definition insert_values (columns : list string) (data : list pydict)
    : list row :=
  map (fun r => map (Dict.get r) columns) data.

Definition insert_query (db table : string) (columns : list string)
    : string :=
  append "INSERT INTO " (append db (append "." (append table (append " ("
    (append (Text.join ", " columns) ") VALUES"))))).

(** [insert_data(table, data, database, settings)].  With rows to insert
    the method evaluates [self.connection()]: the attribute read gives the
    context manager, and the call operator is applied to that. *)
Definition insert_data (fuel : nat) (cl : ClickHouseClient) (E : Env)
    (table : string) (data : list pydict) (db_arg : option string)
    (settings : option pydict) (w : World) : World * progress InsertResult :=
  match data with
  | [] =>
      (w, Done (Ok (mkInsertResult (database_or_default cl db_arg) table 0)))
  | first :: _ =>
      let db := database_or_default cl db_arg in
      let columns := insert_columns first in
      let values := insert_values columns data in
      let settings' := with_timeout cl settings in
      match call_context_manager (connection cl) None with
      | Raise e => (w, Done (Raise e))
      | Ok PoolConnection =>
          match Pool.with_connection fuel E
                  (Conn.execute (probe E) (answer E) (clock_done E)
                     (insert_query db table columns) (RowParams values)
                     false None (Some settings')) w with
          | (w1, Done (Ok _)) =>
              (w1, Done (Ok (mkInsertResult db table (length data))))
          | (w1, Done (Raise e)) => (w1, Done (Raise e))
          | (w1, Waiting) => (w1, Waiting)
          end
      end
  end.

(** [[row[0] for row in result]] on the rows of a query without column
    types; another shape of result is a [TypeError] here, as in [assemble]. *)
Fixpoint first_fields (rows : list row) : result (list pyval) :=
  match rows with
  | [] => Ok []
  | r :: rows' =>
      match item r 0 with
      | Ok v =>
          match first_fields rows' with
          | Ok vs => Ok (v :: vs)
          | Raise e => Raise e
          end
      | Raise e => Raise e
      end
  end.

Definition first_column (r : reply) : result (list pyval) :=
  match r with
  | Rows rows => first_fields rows
  | _ => Raise (Exn TypeError "unexpected result shape")
  end.

(** [get_databases()] *)
Definition get_databases (fuel : nat) (cl : ClickHouseClient)
    (envs : nat -> Env) (w : World) : World * progress (list pyval) :=
  match execute fuel cl envs "SHOW DATABASES" NoParams false None None w with
  | (w1, Done (Ok result), _) => (w1, Done (first_column result))
  | (w1, Done (Raise e), _) => (w1, Done (Raise e))
  | (w1, Waiting, _) => (w1, Waiting)
  end.

Definition tables_query (db : string) : string :=
  append "SHOW TABLES FROM " db.

(** [get_tables(database)] *)
Definition get_tables (fuel : nat) (cl : ClickHouseClient)
    (envs : nat -> Env) (db_arg : option string) (w : World)
    : World * progress (list pyval) :=
  let db := database_or_default cl db_arg in
  match execute fuel cl envs (tables_query db) NoParams false None None w with
  | (w1, Done (Ok result), _) => (w1, Done (first_column result))
  | (w1, Done (Raise e), _) => (w1, Done (Raise e))
  | (w1, Waiting, _) => (w1, Waiting)
  end.

(** [close()] *)
Definition close (w : World) : World * progress unit := Pool.close w.

End Client.

(* ===================================================================== *)
(** ** [api/tools/query.py]: the [query] tool                              *)
(* ===================================================================== *)

(** The ["result"] entry of the tool's answer. *)
Inductive result_data : Type :=
  | Formatted (r : reply)          (* what [execute_with_format] returned *)
  | Raw (r : reply)                (* what [execute] returned, untouched *)
  | Mappings (rows : list pydict). (* one name-to-value mapping per row *)

(** The tool's answer; the measured duration is left out. *)
Record QueryAnswer : Type := mkQueryAnswer {
  qa_result : result_data;
  qa_rows : nat;
  qa_query : string;
  qa_format : string
}.

Module QueryTool.

(** [try: ResultFormat(format.lower()) except ValueError: ResultFormat.JSON] *)
Definition result_format (format : string) : ResultFormat :=
  match Format.of_value (Text.lower format) with
  | Some f => f
  | None => JSON
  end.

Definition tool_params (ps : option pydict) : params :=
  match ps with
  | Some d => DictParams d
  | None => NoParams
  end.

(** [result_str.count("\n")] *)
Definition count_newlines (r : reply) : nat :=
  match r with
  | Text s => Text.occurrences (String (ascii_of_nat 10) EmptyString) s
  | _ => O
  end.

(** [dict(zip(columns, row))] for every row *)
Definition reshape (rows : list row) (columns : list (string * string))
    : list pydict :=
  map (fun r => Dict.of_pairs (zip (map fst columns) r)) rows.

(** [except Exception as e: raise ValueError(...)] *)
Definition failure (e : exn) : exn :=
  Exn ValueError (append "Query execution failed: " (str_exn e)).

(** The [query] tool. *)
Definition query (fuel : nat) (cl : ClickHouseClient) (envs : nat -> Env)
    (sql format : string) (ps : option pydict) (w : World)
    : World * progress QueryAnswer :=
  let fmt := result_format format in
  if Format.eqb fmt PRETTY then
    match Client.execute_with_format fuel cl envs sql fmt (tool_params ps)
                                     None None w with
    | (w1, Done (Ok result_str), _) =>
        (w1, Done (Ok (mkQueryAnswer (Formatted result_str)
                         (count_newlines result_str) sql format)))
    | (w1, Done (Raise e), _) => (w1, Done (Raise (failure e)))
    | (w1, Waiting, _) => (w1, Waiting)
    end
  else
    match Client.execute fuel cl envs sql (tool_params ps) true None None w with
    | (w1, Done (Ok (RowsWithTypes rows columns)), _) =>
        let data :=
          if Format.eqb fmt JSON then Mappings (reshape rows columns)
          else Raw (RowsWithTypes rows columns) in
        (w1, Done (Ok (mkQueryAnswer data (length rows) sql format)))
    | (w1, Done (Ok _), _) =>
        (w1, Done (Raise (failure (Exn TypeError "unexpected result shape"))))
    | (w1, Done (Raise e), _) => (w1, Done (Raise (failure e)))
    | (w1, Waiting, _) => (w1, Waiting)
    end.

(** The [insert] tool: the emptiness test, then [client.insert_data]; any
    exception, the tool's own included, is raised again as a [ValueError]. *)
Definition insert_failure (e : exn) : exn :=
  Exn ValueError (append "Data insertion failed: " (str_exn e)).

Definition insert (fuel : nat) (cl : ClickHouseClient) (E : Env)
    (table : string) (data : list pydict) (db_arg : option string) (w : World)
    : World * progress InsertResult :=
  match data with
  | [] =>
      (w, Done (Raise (insert_failure (Exn ValueError "Data cannot be empty"))))
  | _ :: _ =>
      match Client.insert_data fuel cl E table data db_arg None w with
      | (w1, Done (Ok result)) => (w1, Done (Ok result))
      | (w1, Done (Raise e)) => (w1, Done (Raise (insert_failure e)))
      | (w1, Waiting) => (w1, Waiting)
      end
  end.

End QueryTool.

(** The answer of the [get_tables] tool; the measured duration is left out. *)
Record TablesAnswer : Type := mkTablesAnswer {
  ta_database : string;
  ta_tables : list pyval;
  ta_count : nat
}.

Module TablesTool.

Definition failure (e : exn) : exn :=
  Exn ValueError (append "Get tables failed: " (str_exn e)).

(** The [get_tables] tool of [api/tools/query.py]. *)
Definition get_tables (fuel : nat) (cl : ClickHouseClient) (envs : nat -> Env)
    (database : string) (w : World) : World * progress TablesAnswer :=
  match Client.get_tables fuel cl envs (Some database) w with
  | (w1, Done (Ok tables)) =>
      (w1, Done (Ok (mkTablesAnswer database tables (length tables))))
  | (w1, Done (Raise e)) => (w1, Done (Raise (failure e)))
  | (w1, Waiting) => (w1, Waiting)
  end.

End TablesTool.

(* ===================================================================== *)
(** ** Concrete environments used in the examples                          *)
(* ===================================================================== *)

Module Sample.

Local Open Scope string_scope.

Definition client : ClickHouseClient := mkClient "default" 30.

(** A backend that answers every query with one row [(1,)] of a column [x]. *)
Definition one_row : driver :=
  fun call =>
    if call_with_column_types call
    then Ok (RowsWithTypes [[PInt 1]] [("x", "UInt8")])
    else Ok (Rows [[PInt 1]]).

(** A backend that rejects every query as malformed. *)
Definition syntax_error : exn := Exn ServerException "Code: 62. Syntax error".
Definition rejecting : driver := fun _ => Raise syntax_error.

(** A driver call that fails outside the driver's own error classes. *)
Definition bad_parameters : exn := Exn KeyError "missing substitution parameter".
Definition mistyped : driver := fun _ => Raise bad_parameters.

(** A backend that knows no table: [DESCRIBE] (asked with column types)
    answers with no rows, and so does the catalog. *)
Definition no_table : driver :=
  fun call =>
    if call_with_column_types call
    then Ok (RowsWithTypes [] [("name", "String"); ("type", "String")])
    else Ok (Rows []).

Definition refused : exn := Exn NetworkError "Connection refused".

(** The link is up, the clock reads [t] at the scan and [t + 1] after the
    driver returned. *)
Definition env (drv : driver) (t : Z) : Env := mkEnv t None drv (t + 1).

(** The same environment at every attempt, a second apart. *)
Definition envs (drv : driver) (n : nat) : Env := env drv (100 + Z.of_nat n).

(** A query run at clock [t] on the connection at [a], by its holder. *)
Definition query_at (t : Z) (a : nat) (w : World) : World :=
  fst (Pool.on_connection a
         (Conn.execute None one_row t "SELECT 1" NoParams false None None) w).

(** A pool of size 2 whose two members were checked out together, used at
    clock 10 and at clock 5000, and released. *)
Definition two_idle : World :=
  let w1 := fst (Pool.get_connection 0 1 None (Pool.init 2 3600)) in
  let w2 := fst (Pool.get_connection 0 1 None w1) in
  let w3 := Pool.release 0 (query_at 10 0 w2) in
  Pool.release 1 (query_at 5000 1 w3).

(** A pool of size 1 whose member is held by the caller it was created
    for. *)
Definition one_held : World :=
  fst (Pool.get_connection 0 1 None (Pool.init 1 3600)).

(** A pool of size 1 whose member is held by the caller it was created
    for, while a second caller sits in the wait loop. *)
Definition one_held_one_waiting : World :=
  let w1 := fst (Pool.get_connection 0 1 None (Pool.init 1 3600)) in
  fst (Pool.get_connection 3 20 None w1).

End Sample.

(* ===================================================================== *)
(** ** Predicates on the pool's state, and runs of several callers         *)
(* ===================================================================== *)

Module State.

(** Every object of [h] is still there in [h'] with the same
    [last_used]. *)
Definition keeps_last_used (h h' : list Connection) : Prop :=
  forall a c, h !! a = Some c ->
    exists c', h' !! a = Some c' /\ Conn.last_used c' = Conn.last_used c.

(** The member list refers to allocated objects only. *)
Definition members_allocated (w : World) : Prop :=
  forall a, a ∈ _pool w -> (a < length (heap w))%nat.

(** Every member is checked out. *)
Definition all_in_use (w : World) : Prop :=
  forall a, a ∈ _pool w ->
    exists c, heap w !! a = Some c /\ Conn.is_in_use c = true.

(** The capacity bound. *)
Definition within_capacity (w : World) : Prop :=
  Z.of_nat (length (_pool w)) <= Z.max 0 (pool_size w).

(** A pool from which [get_connection] comes back at once: nobody holds
    the lock, and a member is idle or there is room for one more. *)
Definition ready (w : World) : Prop :=
  _lock w = false /\
  members_allocated w /\
  Z.of_nat (length (_pool w)) <= pool_size w /\
  (Pool.first_idle (heap w) (_pool w) <> None \/
   Z.of_nat (length (_pool w)) < pool_size w).

(** One caller's [get_connection]: how long it is watched, the clock at
    its scan, the outcome of the [connect] it may make. *)
Definition acquisition : Type := nat * Z * option exn.

(** Callers that acquire one after the other, none of them releasing. *)
Fixpoint acquire_all (calls : list acquisition) (w : World)
    : World * list (progress nat) :=
  match calls with
  | [] => (w, [])
  | (fuel, now, pr) :: rest =>
      let '(w1, r) := Pool.get_connection fuel now pr w in
      let '(w2, rs) := acquire_all rest w1 in
      (w2, r :: rs)
  end.

(** Whether an acquisition came back with a connection. *)
Definition returned (r : progress nat) : bool :=
  match r with
  | Done (Ok _) => true
  | _ => false
  end.

(** The staleness test of the pool, for a connection seen at [now]. *)
Definition stale (w : World) (now : Z) (c : Connection) : Prop :=
  now - Conn.last_used c > pool_recycle w.

(** What a failing environment raises: the exceptions of its probe and of
    its driver all satisfy [P], and its driver raises on every call. *)
Definition fails_with (P : exn -> bool) (E : Env) : Prop :=
  (forall e, probe E = Some e -> P e = true) /\
  (forall call, exists e, answer E call = Raise e /\ P e = true).

End State.

(* ===================================================================== *)
(** ** Runs of the pool under several callers                              *)
(* ===================================================================== *)

Module Run.

(** What a caller can do to the pool and to a connection it holds: ask for
    a connection, leave the [connection()] block of the connection at [a],
    run [execute] or [execute_with_format] on the connection at [a], or
    close the pool. *)
Inductive op : Type :=
  | Acquire (fuel : nat) (now : Z) (pr : option exn)
  | Release (a : nat)
  | Execute (a : nat) (pr : option exn) (drv : driver) (now : Z)
            (query : string) (ps : params) (with_column_types : bool)
            (query_id : option string) (settings : option pydict)
  | ExecuteWithFormat (a : nat) (pr : option exn) (drv : driver) (now : Z)
            (query : string) (format_name : ResultFormat) (ps : params)
            (query_id : option string) (settings : option pydict)
  | Close.

Definition step (o : op) (w : World) : World :=
  match o with
  | Acquire fuel now pr => fst (Pool.get_connection fuel now pr w)
  | Release a => Pool.release a w
  | Execute a pr drv now q ps wct qid st =>
      fst (Pool.on_connection a (Conn.execute pr drv now q ps wct qid st) w)
  | ExecuteWithFormat a pr drv now q f ps qid st =>
      fst (Pool.on_connection a
             (Conn.execute_with_format pr drv now q f ps qid st) w)
  | Close => fst (Pool.close w)
  end.

(** The operations of [ops], one after the other. *)
Definition run (ops : list op) (w : World) : World :=
  fold_left (fun w' o => step o w') ops w.

(** The wait loop of [get_connection] among other callers.  The caller
    that sleeps in the loop holds the pool's lock, so the [get_connection] and
    the [close] of others make no progress meanwhile; the holders of
    connections go on, and [sleeps] lists what is done during each sleep.
    After a sleep the loop scans the members as they then are.  [slept] is the
    pool at the scan that ends the wait, or at the last scan watched. *)
Fixpoint slept (sleeps : list (list op)) (w : World) : World :=
  match Pool.poll w with
  | Some _ => w
  | None =>
      match sleeps with
      | [] => w
      | during :: rest => slept rest (run during (Pool.set_lock true w))
      end
  end.

Definition await (sleeps : list (list op)) (w : World) : World * progress nat :=
  Pool.wait_loop 0 (slept sleeps w).

(** One call of [get_connection] from its start to its return: the call of
    a caller that finds the lock free and has to wait goes on in the wait
    loop among the other callers. *)
Definition get_connection (sleeps : list (list op)) (now : Z)
    (pr : option exn) (w : World) : World * progress nat :=
  match Pool.get_connection 0 now pr w with
  | (w1, Waiting) => if _lock w then (w1, Waiting) else await sleeps w1
  | (w1, Done r) => (w1, Done r)
  end.

(** The pool's bookkeeping is sound: members are allocated objects, no
    object is listed twice, there are at most [pool_size] of them, and each
    has a session. *)
Definition sound (w : World) : Prop :=
  State.members_allocated w /\
  NoDup (_pool w) /\
  State.within_capacity w /\
  (forall a, a ∈ _pool w ->
     exists c, heap w !! a = Some c /\ Conn.is_connected c = true).

End Run.

(* ===================================================================== *)
(** ** More environments for the examples                                  *)
(* ===================================================================== *)

Module Fixture.

(** A backend that rejects the query at the first [k] attempts and answers
    from then on. *)
Definition flaky (k : nat) (n : nat) : Env :=
  Sample.env (if (n <=? k)%nat then Sample.rejecting else Sample.one_row)
             (100 + Z.of_nat n).

(** The sum of the sleeps of a call. *)
Definition total (sleeps : list Z) : Z := fold_right Z.add 0 sleeps.

End Fixture.

(* ===================================================================== *)
(** ** Python's [str], truth and [==] on the values of the model           *)
(* ===================================================================== *)

Module Py.

(** [str(v)], which is also what an f-string puts in for [{v}]. *)
Definition str (v : pyval) : string :=
  match v with
  | PNone => "None"
  | PInt n => NilZero.string_of_int (Z.to_int n)
  | PStr s => s
  end.

(** [bool(v)]: what [if v:] tests. *)
Definition truthy (v : pyval) : bool :=
  match v with
  | PNone => false
  | PInt n => negb (n =? 0)
  | PStr s => negb (String.eqb s "")
  end.

(** [bool(s)] for an optional string argument. *)
Definition given (o : option string) : bool :=
  match o with
  | Some s => negb (String.eqb s "")
  | None => false
  end.

(** The text of an optional string argument that is given. *)
Definition text (o : option string) : string :=
  match o with
  | Some s => s
  | None => "None"
  end.

(** [v1 == v2] *)
Definition eqb (v1 v2 : pyval) : bool :=
  match v1, v2 with
  | PNone, PNone => true
  | PInt n, PInt m => n =? m
  | PStr s, PStr t => String.eqb s t
  | _, _ => false
  end.

(** [v in vs] for a list *)
Definition mem (v : pyval) (vs : list pyval) : bool := existsb (eqb v) vs.

(** [d[k]]: a missing key raises [KeyError(k)], whose text is the key in
    quotes. *)
Definition getitem (d : pydict) (k : string) : result pyval :=
  if Dict.mem k d then Ok (Dict.get d k)
  else Raise (Exn KeyError (append "'" (append k "'"))).

End Py.

(* ===================================================================== *)
(** ** [api/tools/schema.py]: the [create_database] and [create_table] tools *)
(* ===================================================================== *)

(** The tools' answers; the measured duration is left out. *)
Record DatabaseCreated : Type := mkDatabaseCreated {
  dc_name : string;
  dc_created : bool
}.

Record TableCreated : Type := mkTableCreated {
  tc_database : string;
  tc_name : string;
  tc_created : bool;
  tc_columns_count : nat;
  tc_engine : string
}.

Module SchemaTool.

Local Open Scope string_scope.

Definition nl : string := String (ascii_of_nat 10) EmptyString.

(** [{'' if not if_not_exists else 'IF NOT EXISTS '}] *)
Definition guard (if_not_exists : bool) : string :=
  if negb if_not_exists then "" else "IF NOT EXISTS ".

Definition database_sql (name : string) (if_not_exists : bool) : string :=
  String.concat "" ["CREATE DATABASE "; guard if_not_exists; name].

Definition database_failure (e : exn) : exn :=
  Exn ValueError (append "Database creation failed: " (str_exn e)).

(** The [create_database] tool. *)
Definition create_database (fuel : nat) (cl : ClickHouseClient)
    (envs : nat -> Env) (name : string) (if_not_exists : bool) (w : World)
    : World * progress DatabaseCreated :=
  match Client.execute fuel cl envs (database_sql name if_not_exists) NoParams
                       false None None w with
  | (w1, Done (Ok _), _) => (w1, Done (Ok (mkDatabaseCreated name true)))
  | (w1, Done (Raise e), _) => (w1, Done (Raise (database_failure e)))
  | (w1, Waiting, _) => (w1, Waiting)
  end.

(** The definition of one column: [col["name"]] and [col["type"]] must be
    there; a default expression and a comment are added when they are true. *)
Definition column_def (col : pydict) : result string :=
  match Py.getitem col "name" with
  | Raise e => Raise e
  | Ok col_name =>
      match Py.getitem col "type" with
      | Raise e => Raise e
      | Ok col_type =>
          let col_default := Dict.get col "default_expression" in
          let col_comment := Dict.get col "comment" in
          let d0 := String.concat "" ["`"; Py.str col_name; "` "; Py.str col_type] in
          let d1 := if Py.truthy col_default
                    then String.concat "" [d0; " DEFAULT "; Py.str col_default]
                    else d0 in
          let d2 := if Py.truthy col_comment
                    then String.concat "" [d1; " COMMENT '"; Py.str col_comment; "'"]
                    else d1 in
          Ok d2
      end
  end.

(** [for col in columns: ... column_defs.append(col_def)] *)
Fixpoint column_defs (columns : list pydict) : result (list string) :=
  match columns with
  | [] => Ok []
  | col :: rest =>
      match column_def col with
      | Raise e => Raise e
      | Ok d =>
          match column_defs rest with
          | Raise e => Raise e
          | Ok ds => Ok (d :: ds)
          end
      end
  end.

(** One entry of the [SETTINGS] clause: a string value is quoted. *)
Definition setting (kv : string * pyval) : string :=
  match snd kv with
  | PStr s => String.concat "" [fst kv; " = '"; s; "'"]
  | v => String.concat "" [fst kv; " = "; Py.str v]
  end.

(** [if o: sql += f"\n<keyword> {o}"] *)
Definition clause (keyword : string) (o : option string) : string :=
  if Py.given o then String.concat "" [nl; keyword; " "; Py.text o] else "".

Definition settings_clause (settings : option pydict) : string :=
  match settings with
  | Some (kv :: kvs) =>
      String.concat "" [nl; "SETTINGS "; Text.join ", " (map setting (kv :: kvs))]
  | _ => ""
  end.

(** The statement [create_table] builds from the column definitions. *)
Definition table_sql (if_not_exists : bool) (db name : string)
    (defs : list string) (engine order_by : string)
    (partition_by primary_key sample_by ttl : option string)
    (settings : option pydict) : string :=
  String.concat ""
    [ "CREATE TABLE "; guard if_not_exists; db; ".`"; name; "` ("; nl;
      Text.join (append "," nl) (map (fun d => append "    " d) defs);
      nl; ") ENGINE = "; engine;
      clause "PARTITION BY" partition_by;
      nl; "ORDER BY "; order_by;
      (if Py.given primary_key
          && negb (String.eqb (Py.text primary_key) order_by)
       then String.concat "" [nl; "PRIMARY KEY "; Py.text primary_key] else "");
      clause "SAMPLE BY" sample_by;
      clause "TTL" ttl;
      settings_clause settings ].

Definition table_failure (e : exn) : exn :=
  Exn ValueError (append "Table creation failed: " (str_exn e)).

(** The [create_table] tool. *)
Definition create_table (fuel : nat) (cl : ClickHouseClient) (envs : nat -> Env)
    (name : string) (columns : list pydict) (engine order_by : string)
    (db_arg partition_by primary_key sample_by ttl : option string)
    (settings : option pydict) (if_not_exists : bool) (w : World)
    : World * progress TableCreated :=
  let db := Client.database_or_default cl db_arg in
  match columns with
  | [] =>
      (w, Done (Raise (table_failure (Exn ValueError "Columns cannot be empty"))))
  | _ :: _ =>
      match column_defs columns with
      | Raise e => (w, Done (Raise (table_failure e)))
      | Ok defs =>
          let sql := table_sql if_not_exists db name defs engine order_by
                               partition_by primary_key sample_by ttl settings in
          match Client.execute fuel cl envs sql NoParams false None None w with
          | (w1, Done (Ok _), _) =>
              (w1, Done (Ok (mkTableCreated db name true (length columns) engine)))
          | (w1, Done (Raise e), _) => (w1, Done (Raise (table_failure e)))
          | (w1, Waiting, _) => (w1, Waiting)
          end
      end
  end.

End SchemaTool.

(* ===================================================================== *)
(** ** [api/resources/data.py]: the sample and the count of a table        *)
(* ===================================================================== *)

Module DataResource.

Local Open Scope string_scope.

Definition nl : string := String (ascii_of_nat 10) EmptyString.

(** [str(limit)] *)
Definition digits (n : Z) : string := NilZero.string_of_int (Z.to_int n).

(** The text of the [AttributeError] of [client.get_columns]:
    [ClickHouseClient] has no attribute of that name, so the call the
    resources make when no time column is given raises it. *)
Definition no_get_columns : string :=
  "'ClickHouseClient' object has no attribute 'get_columns'".

(** [where_clauses], joined: the bounds apply when a time column is given. *)
Definition where_sql (time_column start_time end_time : option string)
    : string :=
  let clauses :=
    if Py.given time_column then
      List.app
        (if Py.given start_time
         then [String.concat "" [Py.text time_column; " >= '"; Py.text start_time; "'"]]
         else [])
        (if Py.given end_time
         then [String.concat "" [Py.text time_column; " <= '"; Py.text end_time; "'"]]
         else [])
    else [] in
  match clauses with
  | [] => ""
  | _ :: _ => append "WHERE " (Text.join " AND " clauses)
  end.

Definition sample_sql (database table : string)
    (time_column start_time end_time : option string) (limit : Z) : string :=
  String.concat ""
    ["SELECT * FROM "; database; "."; table; " ";
     where_sql time_column start_time end_time; " LIMIT "; digits limit].

Definition count_sql (database table : string)
    (time_column start_time end_time : option string) : string :=
  String.concat ""
    ["SELECT count() FROM "; database; "."; table; " ";
     where_sql time_column start_time end_time].

(** The lines that name the time filter. *)
Definition filter_note (time_column start_time end_time : option string)
    : string :=
  if Py.given time_column && (Py.given start_time || Py.given end_time) then
    String.concat ""
      ["**Time filter column**: `"; Py.text time_column; "`";
       (if Py.given start_time
        then String.concat "" [", **Start time**: `"; Py.text start_time; "`"]
        else "");
       (if Py.given end_time
        then String.concat "" [", **End time**: `"; Py.text end_time; "`"]
        else "");
       nl; nl]
  else "".

(** One line of the table: [| a | b |]. *)
Definition table_line (cells : list string) : string :=
  String.concat "" ["| "; Text.join " | " cells; " |"; nl].

Definition sample_content (database table : string)
    (time_column start_time end_time : option string)
    (rows : list row) (column_types : list (string * string)) : string :=
  let columns := map fst column_types in
  String.concat ""
    [ "# Sample data from "; database; "."; table; nl; nl;
      filter_note time_column start_time end_time;
      table_line columns;
      table_line (map (fun _ => "---") columns);
      String.concat "" (map (fun r => table_line (map Py.str r)) rows) ].

Definition not_found_database (database : string) : string :=
  String.concat "" ["Database '"; database; "' not found"].

Definition not_found_table (database table : string) : string :=
  String.concat "" ["Table '"; database; "."; table; "' not found"].

Definition invalid_limit (limit : Z) : string :=
  String.concat ""
    ["Invalid sample limit: "; digits limit; ". Must be between 1 and 1000."].

Definition sample_error (database table msg : string) : string :=
  String.concat ""
    ["Error getting sample data for "; database; "."; table; ": "; msg].

Definition count_error (database table msg : string) : string :=
  String.concat ""
    ["Error getting row count for "; database; "."; table; ": "; msg].

(** The checks both resources begin with: the database is listed, the table
    is listed.  [envs 1] and [envs 2] are the environments of the two
    catalog queries.  The result is the text to return at once, an exception
    for the handler, or nothing when both checks pass. *)
Definition check_exists (fuel : nat) (cl : ClickHouseClient)
    (envs : nat -> nat -> Env) (database table : string) (w : World)
    : World * progress (option string) :=
  match Client.get_databases fuel cl (envs 1%nat) w with
  | (w1, Done (Ok databases)) =>
      if negb (Py.mem (PStr database) databases)
      then (w1, Done (Ok (Some (not_found_database database))))
      else
        match Client.get_tables fuel cl (envs 2%nat) (Some database) w1 with
        | (w2, Done (Ok tables)) =>
            if negb (Py.mem (PStr table) tables)
            then (w2, Done (Ok (Some (not_found_table database table))))
            else (w2, Done (Ok None))
        | (w2, Done (Raise e)) => (w2, Done (Raise e))
        | (w2, Waiting) => (w2, Waiting)
        end
  | (w1, Done (Raise e)) => (w1, Done (Raise e))
  | (w1, Waiting) => (w1, Waiting)
  end.

(** [table_sample(database, table, limit, start_time, end_time,
    time_column)]; [envs 3] is the environment of the [SELECT].  Every
    exception ends as the text of the error. *)
Definition table_sample (fuel : nat) (cl : ClickHouseClient)
    (envs : nat -> nat -> Env) (database table : string) (limit : Z)
    (start_time end_time time_column : option string) (w : World)
    : World * progress string :=
  match check_exists fuel cl envs database table w with
  | (w2, Done (Ok (Some text))) => (w2, Done (Ok text))
  | (w2, Done (Raise e)) =>
      (w2, Done (Ok (sample_error database table (str_exn e))))
  | (w2, Waiting) => (w2, Waiting)
  | (w2, Done (Ok None)) =>
      if ((limit <? 1) || (limit >? 1000))%Z
      then (w2, Done (Ok (invalid_limit limit)))
      else
        match time_column with
        | None =>
            (w2, Done (Ok (sample_error database table no_get_columns)))
        | Some _ =>
            match Client.execute fuel cl (envs 3%nat)
                    (sample_sql database table time_column start_time end_time
                                limit)
                    NoParams true None None w2 with
            | (w3, Done (Ok (RowsWithTypes rows column_types)), _) =>
                (w3, Done (Ok (sample_content database table time_column
                                 start_time end_time rows column_types)))
            | (w3, Done (Ok _), _) =>
                (w3, Done (Ok (sample_error database table
                                 "unexpected result shape")))
            | (w3, Done (Raise e), _) =>
                (w3, Done (Ok (sample_error database table (str_exn e))))
            | (w3, Waiting, _) => (w3, Waiting)
            end
        end
  end.

Definition count_content (database table : string)
    (time_column start_time end_time : option string) (count : pyval)
    : string :=
  String.concat ""
    [ "# Row count for "; database; "."; table; nl; nl;
      filter_note time_column start_time end_time;
      "Total rows: **"; Py.str count; "**"; nl ].

(** [table_count(database, table, start_time, end_time, time_column)] *)
Definition table_count (fuel : nat) (cl : ClickHouseClient)
    (envs : nat -> nat -> Env) (database table : string)
    (start_time end_time time_column : option string) (w : World)
    : World * progress string :=
  match check_exists fuel cl envs database table w with
  | (w2, Done (Ok (Some text))) => (w2, Done (Ok text))
  | (w2, Done (Raise e)) =>
      (w2, Done (Ok (count_error database table (str_exn e))))
  | (w2, Waiting) => (w2, Waiting)
  | (w2, Done (Ok None)) =>
      match time_column with
      | None => (w2, Done (Ok (count_error database table no_get_columns)))
      | Some _ =>
          match Client.execute fuel cl (envs 3%nat)
                  (count_sql database table time_column start_time end_time)
                  NoParams false None None w2 with
          | (w3, Done (Ok (Rows ((count :: _) :: _))), _) =>
              (w3, Done (Ok (count_content database table time_column
                               start_time end_time count)))
          | (w3, Done (Ok (Rows ([] :: _))), _) =>
              (w3, Done (Ok (count_error database table
                               "tuple index out of range")))
          | (w3, Done (Ok (Rows [])), _) =>
              (w3, Done (Ok (count_error database table
                               "list index out of range")))
          | (w3, Done (Ok _), _) =>
              (w3, Done (Ok (count_error database table
                               "unexpected result shape")))
          | (w3, Done (Raise e), _) =>
              (w3, Done (Ok (count_error database table (str_exn e))))
          | (w3, Waiting, _) => (w3, Waiting)
          end
      end
  end.

End DataResource.
(* ===================================================================== *)
(** ** Catalog listings: what is read off them, and a sample catalog       *)
(* ===================================================================== *)

Module Listing.

Local Open Scope string_scope.

(** [row[0]] of a row that has a field. *)
Definition first_field (r : row) : pyval :=
  match r with
  | v :: _ => v
  | [] => PNone
  end.

(** The call the client sends for a query given without parameters, query
    id or settings. *)
Definition sent (cl : ClickHouseClient) (q : string) (with_types : bool)
    : Call :=
  mkCall q NoParams with_types None (Some (Client.with_timeout cl None)).

(** A backend with the databases [default] and [logs] and the one table
    [logs.events], which holds one row. *)
Definition catalog : driver :=
  fun call =>
    if String.eqb (call_query call) "SHOW DATABASES"
    then Ok (Rows [[PStr "default"]; [PStr "logs"]])
    else if Text.starts_with "SHOW TABLES FROM " (call_query call)
    then Ok (Rows [[PStr "events"]])
    else Sample.one_row call.

(** The same catalog at every query and every attempt. *)
Definition envs (k n : nat) : Env := Sample.envs catalog n.

(** Two columns, the second without a type. *)
Definition columns : list pydict :=
  [ [("name", PStr "id"); ("type", PStr "UInt32")];
    [("name", PStr "label")] ].

End Listing.

(* ===================================================================== *)
(** ** The specification's words for the format check                       *)
(* ===================================================================== *)

Module Spec.

Local Open Scope string_scope.






End Spec.



(* ===================================================================== *)
(** * Properties                                                           *)
(* ===================================================================== *)

(** ** Text *)

Section TextFacts.

Local Open Scope string_scope.























Lemma lower_ascii_not_upper (c : ascii) :
  Text.is_upper_letter (Text.lower_ascii c) = false.
Proof.
  destruct c as [[] [] [] [] [] [] [] []]; vm_compute; reflexivity.
Qed.

(** A lower-cased text equals no text that starts with a capital letter. *)
Lemma lower_not_capitalised (c : ascii) (rest s : string) :
  Text.is_upper_letter c = true ->
  String.eqb (String c rest) (Text.lower s) = false.
Proof.
  intros Hc. destruct s as [|d s]; [reflexivity|].
  unfold Text.lower. simpl.
  destruct (Ascii.eqb_spec c (Text.lower_ascii d)) as [->|_]; [|reflexivity].
  rewrite lower_ascii_not_upper in Hc. discriminate.
Qed.

End TextFacts.

(** ** The format clause of [execute_with_format] *)

Section FormatClause.

Local Open Scope string_scope.






(** The text a call of [execute_with_format] puts on the wire: every call
    it sends (the probe of a lazy connect apart) carries the query with the
    clause. *)
Lemma execute_with_format_sends (pr : option exn) (drv : driver) (now : Z)
    (q : string) (f : ResultFormat) (ps : params) (qid : option string)
    (st : option pydict) (c : Connection) :
  Forall (fun call => call = probe_call \/
                      call = mkCall (Conn.with_format_clause q f) ps false qid st)
         (snd (fst (Conn.execute_with_format pr drv now q f ps qid st c))).
Proof.
  unfold Conn.execute_with_format, Conn.guarded_call, Conn.connect.
  destruct (Conn.is_connected c); [|destruct pr as [e|]];
    try destruct (drv (mkCall (Conn.with_format_clause q f) ps false qid st));
    simpl; repeat (apply Forall_cons; split); try apply Forall_nil; auto.
Qed.

End FormatClause.

(** ** The check for the keyword, in the words of the specification *)

Section AnyCase.

Local Open Scope string_scope.






End AnyCase.




(** ** The [query] tool's choice of format *)

Lemma result_format_is_json (format : string) :
  QueryTool.result_format format = JSON.
Proof.
  unfold QueryTool.result_format, Format.of_value, Format.members.
  cbn [List.find Format.value].
  destruct (String.eqb "json" (Text.lower format)); [reflexivity|].
  rewrite !lower_not_capitalised by reflexivity. reflexivity.
Qed.

(** C8.  The tool lower-cases the requested name before it looks it up among
    the enumeration's values, and of those only ["json"] is lower-case: the
    format it works with is [JSON] whatever was asked for, so every answer it
    gives is the reshaped one.  For ["pretty"] the backend's formatted text is
    not what comes back. *)
Theorem query_tool_reshapes_every_format :
  (forall format, QueryTool.result_format format = JSON)
  /\ (forall fuel cl envs sql format ps w answer,
        snd (QueryTool.query fuel cl envs sql format ps w) = Done (Ok answer) ->
        exists rows, qa_result answer = Mappings rows)
  /\ snd (QueryTool.query 0 Sample.client (Sample.envs Sample.one_row)
            "SELECT 1" "pretty" None (Pool.init 1 3600))
     = Done (Ok (mkQueryAnswer (Mappings [[("x"%string, PInt 1)]]) 1
                               "SELECT 1" "pretty")).
Proof.
  split; [exact result_format_is_json|]. split; [|vm_compute; reflexivity].
  intros fuel cl envs sql format ps w answer.
  unfold QueryTool.query. rewrite result_format_is_json.
  cbn [Format.eqb].
  destruct (Client.execute fuel cl envs sql (QueryTool.tool_params ps) true
              None None w) as [[w1 [[[rows|rows columns|t]|e]|]] stats];
    cbn [snd]; intros H; try discriminate.
  injection H as <-. eexists. reflexivity.
Qed.

(** ** [insert_data] *)

(** C6.  With no rows [insert_data] answers with a count of zero and touches
    neither the pool nor the wire.  With rows it never gets to the insert:
    [self.connection] is a property, the call applied to its value raises
    [TypeError], and the pool and the wire are as they were. *)
Theorem insert_data_stops_at_connection_call (fuel : nat)
    (cl : ClickHouseClient) (E : Env) (table : string) (db : option string)
    (st : option pydict) (w : World) :
  Client.insert_data fuel cl E table [] db st w
    = (w, Done (Ok (mkInsertResult (Client.database_or_default cl db) table 0)))
  /\ (forall first rest,
        exists msg,
          Client.insert_data fuel cl E table (first :: rest) db st w
          = (w, Done (Raise (Exn TypeError msg))))
  /\ Client.insert_values (Client.insert_columns [("a"%string, PInt 1); ("b"%string, PInt 2)])
       [[("a"%string, PInt 1); ("b"%string, PInt 2)]; [("a"%string, PInt 3)]]
     = [[PInt 1; PInt 2]; [PInt 3; PNone]].
Proof.
  split; [reflexivity|]. split; [|reflexivity].
  intros first rest. eexists. reflexivity.
Qed.

(** ** [get_table_schema] *)

(** ** The [in_use] flag and the [last_used] stamp of one connection *)

Section ConnectionFlags.

Variables (drv : driver) (now : Z).
Variables (q : string) (ps : params) (wct : bool).
Variables (qid : option string) (st : option pydict).
Variables (f : ResultFormat) (src : Conn.stream).

Let run_execute (pr : option exn) (c : Connection) :=
  Conn.execute pr drv now q ps wct qid st c.
Let run_format (pr : option exn) (c : Connection) :=
  Conn.execute_with_format pr drv now q f ps qid st c.
Let run_iter (pr : option exn) (who : Conn.consumer) (c : Connection) :=
  Conn.execute_iter pr src now q ps qid st who c.

Lemma guarded_call_clears (call : Call) (c : Connection) :
  Conn.is_in_use (Conn.state_of (Conn.guarded_call drv now call c)) = false.
Proof. unfold Conn.guarded_call. now destruct (drv call). Qed.

Lemma guarded_call_stamp (call : Call) (c : Connection) :
  Conn.last_used (Conn.state_of (Conn.guarded_call drv now call c))
  = match Conn.outcome_of (Conn.guarded_call drv now call c) with
    | Ok _ => now
    | Raise _ => Conn.last_used c
    end.
Proof. unfold Conn.guarded_call. now destruct (drv call). Qed.

Lemma execute_reaches_driver (pr : option exn) (c : Connection) :
  Conn.is_connected c = true \/ pr = None ->
  exists c0,
    Conn.last_used c0 = Conn.last_used c /\
    Conn.state_of (run_execute pr c)
      = Conn.state_of (Conn.guarded_call drv now (mkCall q ps wct qid st) c0) /\
    Conn.outcome_of (run_execute pr c)
      = Conn.outcome_of (Conn.guarded_call drv now (mkCall q ps wct qid st) c0).
Proof.
  unfold run_execute, Conn.execute, Conn.connect. intros Hc.
  destruct (Conn.is_connected c).
  - exists c.
    destruct (Conn.guarded_call drv now (mkCall q ps wct qid st) c)
      as [[c1 s1] r1]. repeat split.
  - destruct Hc as [Hc | ->]; [discriminate|].
    exists (Conn.set_client (Some TheSyncClient) c).
    destruct (Conn.guarded_call drv now (mkCall q ps wct qid st)
                (Conn.set_client (Some TheSyncClient) c)) as [[c1 s1] r1].
    repeat split.
Qed.

Lemma format_reaches_driver (pr : option exn) (c : Connection) :
  Conn.is_connected c = true \/ pr = None ->
  exists c0 call,
    Conn.last_used c0 = Conn.last_used c /\
    Conn.state_of (run_format pr c)
      = Conn.state_of (Conn.guarded_call drv now call c0) /\
    Conn.outcome_of (run_format pr c)
      = Conn.outcome_of (Conn.guarded_call drv now call c0).
Proof.
  unfold run_format, Conn.execute_with_format, Conn.connect. intros Hc.
  set (call := mkCall (Conn.with_format_clause q f) ps false qid st).
  destruct (Conn.is_connected c).
  - exists c, call.
    destruct (Conn.guarded_call drv now call c) as [[c1 s1] r1].
    repeat split.
  - destruct Hc as [Hc | ->]; [discriminate|].
    exists (Conn.set_client (Some TheSyncClient) c), call.
    destruct (Conn.guarded_call drv now call
                (Conn.set_client (Some TheSyncClient) c)) as [[c1 s1] r1].
    repeat split.
Qed.

Lemma execute_connect_fails (pr : option exn) (c : Connection) (e : exn) :
  Conn.is_connected c = false -> pr = Some e ->
  Conn.outcome_of (run_execute pr c) = Raise e /\
  Conn.is_in_use (Conn.state_of (run_execute pr c)) = Conn.is_in_use c /\
  Conn.last_used (Conn.state_of (run_execute pr c)) = Conn.last_used c.
Proof.
  unfold run_execute, Conn.execute, Conn.connect. intros -> ->. auto.
Qed.

Lemma format_connect_fails (pr : option exn) (c : Connection) (e : exn) :
  Conn.is_connected c = false -> pr = Some e ->
  Conn.outcome_of (run_format pr c) = Raise e /\
  Conn.is_in_use (Conn.state_of (run_format pr c)) = Conn.is_in_use c /\
  Conn.last_used (Conn.state_of (run_format pr c)) = Conn.last_used c.
Proof.
  unfold run_format, Conn.execute_with_format, Conn.connect. intros -> ->. auto.
Qed.

Lemma iter_cleared (pr : option exn) (who : Conn.consumer) (c : Connection) :
  Conn.is_connected c = true \/ pr = None ->
  who <> Conn.CloseAfter 0 ->
  Conn.is_in_use (Conn.iter_state (run_iter pr who c)) = false.
Proof.
  unfold run_iter, Conn.execute_iter, Conn.connect. intros Hc Hwho.
  destruct who as [|[|n]]; [|congruence|];
    (destruct (Conn.is_connected c);
     [|destruct Hc as [Hc | ->]; [discriminate|]]);
    cbv zeta; cbn [fst snd];
    try destruct (S n <=? length (fst src))%nat;
    try destruct (snd src); reflexivity.
Qed.

Lemma iter_connect_fails (pr : option exn) (who : Conn.consumer) (c : Connection) (e : exn) :
  Conn.is_connected c = false -> pr = Some e ->
  who <> Conn.CloseAfter 0 ->
  Conn.iter_end_of (run_iter pr who c) = Conn.Failed e /\
  Conn.is_in_use (Conn.iter_state (run_iter pr who c)) = Conn.is_in_use c /\
  Conn.last_used (Conn.iter_state (run_iter pr who c)) = Conn.last_used c.
Proof.
  unfold run_iter, Conn.execute_iter, Conn.connect. intros -> -> Hwho.
  destruct who as [|[|n]]; [|congruence|]; auto.
Qed.

Lemma iter_stamp (pr : option exn) (who : Conn.consumer) (c : Connection) :
  Conn.last_used (Conn.iter_state (run_iter pr who c))
  = match Conn.iter_end_of (run_iter pr who c) with
    | Conn.Exhausted => now
    | _ => Conn.last_used c
    end.
Proof.
  unfold run_iter, Conn.execute_iter, Conn.connect.
  destruct who as [|[|n]]; [|reflexivity|];
    destruct (Conn.is_connected c); try destruct pr;
    cbv zeta; cbn [fst snd];
    try destruct (S n <=? length (fst src))%nat;
    try destruct (snd src); reflexivity.
Qed.

Lemma execute_stamp (pr : option exn) (c : Connection) :
  Conn.last_used (Conn.state_of (run_execute pr c))
  = match Conn.outcome_of (run_execute pr c) with
    | Ok _ => now
    | Raise _ => Conn.last_used c
    end.
Proof.
  unfold run_execute, Conn.execute, Conn.connect, Conn.guarded_call.
  destruct (Conn.is_connected c); try destruct pr;
    try destruct (drv (mkCall q ps wct qid st)); reflexivity.
Qed.

Lemma format_stamp (pr : option exn) (c : Connection) :
  Conn.last_used (Conn.state_of (run_format pr c))
  = match Conn.outcome_of (run_format pr c) with
    | Ok _ => now
    | Raise _ => Conn.last_used c
    end.
Proof.
  unfold run_format, Conn.execute_with_format, Conn.connect, Conn.guarded_call.
  destruct (Conn.is_connected c); try destruct pr;
    try destruct (drv (mkCall (Conn.with_format_clause q f) ps false qid st));
    reflexivity.
Qed.

End ConnectionFlags.

(** ** The heap under the pool's operations *)

Section HeapFacts.

Implicit Types (h : list Connection) (w : World) (a : nat).

Lemma keeps_last_used_refl h : State.keeps_last_used h h.
Proof. intros a c Hc. eauto. Qed.

Lemma keeps_last_used_trans h1 h2 h3 :
  State.keeps_last_used h1 h2 -> State.keeps_last_used h2 h3 ->
  State.keeps_last_used h1 h3.
Proof.
  intros H12 H23 a c Hc.
  destruct (H12 a c Hc) as (c2 & Hc2 & E2).
  destruct (H23 a c2 Hc2) as (c3 & Hc3 & E3).
  exists c3. split; [exact Hc3 | congruence].
Qed.

Lemma keeps_last_used_alter h a (g : Connection -> Connection) :
  (forall c, Conn.last_used (g c) = Conn.last_used c) ->
  State.keeps_last_used h (alter g a h).
Proof.
  intros Hg b c Hc. destruct (decide (a = b)) as [->|Hne].
  - exists (g c). rewrite list_lookup_alter_eq, Hc. split; [reflexivity | apply Hg].
  - exists c. rewrite list_lookup_alter_ne by exact Hne. split; [exact Hc | reflexivity].
Qed.

Lemma keeps_last_used_app h l : State.keeps_last_used h (h ++ l).
Proof.
  intros a c Hc. exists c. split; [|reflexivity].
  rewrite lookup_app_l; [exact Hc | now apply lookup_lt_Some in Hc].
Qed.

Lemma disconnect_last_used (c : Connection) :
  Conn.last_used (Conn.disconnect c) = Conn.last_used c.
Proof. unfold Conn.disconnect. now destruct (_client c). Qed.

Lemma disconnect_in_use (c : Connection) :
  Conn.is_in_use (Conn.disconnect c) = Conn.is_in_use c.
Proof. unfold Conn.disconnect. now destruct (_client c). Qed.

Lemma connect_last_used (pr : option exn) (c : Connection) :
  Conn.last_used (Conn.state_of (Conn.connect pr c)) = Conn.last_used c.
Proof. now destruct pr. Qed.

Lemma wait_loop_keeps_last_used (fuel : nat) w :
  State.keeps_last_used (heap w) (heap (fst (Pool.wait_loop fuel w))).
Proof.
  induction fuel as [|fuel IH]; simpl; unfold Pool.poll;
    destruct (Pool.first_idle (heap w) (_pool w)) as [[a c]|]; simpl;
    try (apply keeps_last_used_alter; reflexivity);
    [apply keeps_last_used_refl | exact IH].
Qed.

Lemma grow_or_wait_keeps_last_used (fuel : nat) (pr : option exn) w :
  State.keeps_last_used (heap w) (heap (fst (Pool.grow_or_wait fuel pr w))).
Proof.
  unfold Pool.grow_or_wait.
  destruct (Z.of_nat (length (_pool w)) <? pool_size w).
  - destruct pr; simpl; [apply keeps_last_used_refl | apply keeps_last_used_app].
  - apply wait_loop_keeps_last_used.
Qed.

Lemma get_connection_keeps_last_used (fuel : nat) (now : Z)
    (pr : option exn) w :
  State.keeps_last_used (heap w)
                        (heap (fst (Pool.get_connection fuel now pr w))).
Proof.
  unfold Pool.get_connection.
  destruct (_lock w); [apply keeps_last_used_refl|].
  destruct (Pool.first_idle (heap w) (_pool w)) as [[a c]|];
    [|apply grow_or_wait_keeps_last_used].
  destruct (now - Conn.last_used c >? pool_recycle w).
  - eapply keeps_last_used_trans; [|apply grow_or_wait_keeps_last_used].
    simpl. apply keeps_last_used_alter, disconnect_last_used.
  - simpl. apply keeps_last_used_alter. reflexivity.
Qed.

Lemma close_keeps_last_used w :
  State.keeps_last_used (heap w) (heap (fst (Pool.close w))).
Proof.
  unfold Pool.close. destruct (_lock w); [apply keeps_last_used_refl|].
  cbn [fst]. change (heap (Pool.set_members [] ?x)) with (heap x).
  generalize (_pool w) as ms. intros ms. revert w.
  induction ms as [|a ms IH]; intros w; simpl; [apply keeps_last_used_refl|].
  eapply keeps_last_used_trans; [|apply IH].
  simpl. apply keeps_last_used_alter, disconnect_last_used.
Qed.

Lemma release_twice a w : Pool.release a (Pool.release a w) = Pool.release a w.
Proof.
  unfold Pool.release, Pool.update, Pool.set_heap. simpl.
  rewrite list_alter_alter_eq. reflexivity.
Qed.

End HeapFacts.

(** C5, as the code has it.  Once the session is there (the connection is
    connected, or the lazy [connect] succeeds) every exit of [execute] and of
    [execute_with_format], return and exception alike, leaves [in_use] false,
    and so does every end of an [execute_iter] iteration that was started
    (exhaustion, close, exception).  When the lazy [connect] fails its error
    goes up before the flag is touched: [in_use] is what it was.  Clearing
    the flag twice is clearing it once, for the connection and for the
    pool's release. *)
Theorem in_use_cleared_once_connected (pr : option exn) (drv : driver)
    (now : Z) (q : string) (ps : params) (wct : bool) (qid : option string)
    (st : option pydict) (f : ResultFormat) (src : Conn.stream)
    (who : Conn.consumer) (c : Connection) :
  (Conn.is_connected c = true \/ pr = None ->
     Conn.is_in_use (Conn.state_of
        (Conn.execute pr drv now q ps wct qid st c)) = false
     /\ Conn.is_in_use (Conn.state_of
        (Conn.execute_with_format pr drv now q f ps qid st c)) = false
     /\ (who <> Conn.CloseAfter 0 ->
         Conn.is_in_use (Conn.iter_state
           (Conn.execute_iter pr src now q ps qid st who c)) = false))
  /\ (forall e, Conn.is_connected c = false -> pr = Some e ->
        Conn.outcome_of (Conn.execute pr drv now q ps wct qid st c) = Raise e
        /\ Conn.is_in_use (Conn.state_of
             (Conn.execute pr drv now q ps wct qid st c)) = Conn.is_in_use c
        /\ Conn.is_in_use (Conn.state_of
             (Conn.execute_with_format pr drv now q f ps qid st c))
           = Conn.is_in_use c
        /\ (who <> Conn.CloseAfter 0 ->
            Conn.is_in_use (Conn.iter_state
              (Conn.execute_iter pr src now q ps qid st who c))
            = Conn.is_in_use c))
  /\ Conn.set_in_use false (Conn.set_in_use false c) = Conn.set_in_use false c
  /\ (forall a w, Pool.release a (Pool.release a w) = Pool.release a w).
Proof.
  split; [|split; [|split]].
  - intros Hc. split; [|split].
    + destruct (execute_reaches_driver drv now q ps wct qid st pr c Hc)
        as (c0 & _ & -> & _). apply guarded_call_clears.
    + destruct (format_reaches_driver drv now q ps qid st f pr c Hc)
        as (c0 & call & _ & -> & _). apply guarded_call_clears.
    + intros Hwho. now apply iter_cleared.
  - intros e Hc Hpr. split; [|split; [|split]].
    + now apply execute_connect_fails.
    + now apply (execute_connect_fails drv now q ps wct qid st pr c e).
    + now apply (format_connect_fails drv now q ps qid st f pr c e).
    + intros Hwho. now apply (iter_connect_fails now q ps qid st src pr who c e).
  - reflexivity.
  - intros a w. apply release_twice.
Qed.

Lemma in_use_cleared_once_connected_witness :
  (Conn.is_connected Conn.init = true \/ @None exn = None)
  /\ Conn.is_in_use (Conn.state_of
        (Conn.execute None Sample.rejecting 7 "SELECT 1" NoParams false None
                      None Conn.init)) = false.
Proof.
  split; [right; reflexivity|].
  exact (proj1 (proj1 (in_use_cleared_once_connected None Sample.rejecting 7
                         "SELECT 1" NoParams false None None JSON ([], None)
                         Conn.Exhaust Conn.init)
                      (or_intror eq_refl))).
Defined.

(** A connection that was checked out of the pool and lost its session when
    the pool was closed: the lazy [connect] of [execute] fails, the call ends
    with that exception, and [in_use] is still true. *)
Lemma in_use_survives_failed_connect :
  exists w1 w2 c,
    Pool.get_connection 0 100 None (Pool.init 1 3600) = (w1, Done (Ok 0%nat))
    /\ Pool.close w1 = (w2, Done (Ok tt))
    /\ heap w2 !! 0%nat = Some c
    /\ Conn.is_in_use c = true
    /\ Conn.outcome_of (Conn.execute (Some Sample.refused) Sample.one_row 101
                          "SELECT 1" NoParams false None None c)
       = Raise Sample.refused
    /\ Conn.is_in_use (Conn.state_of
          (Conn.execute (Some Sample.refused) Sample.one_row 101
                        "SELECT 1" NoParams false None None c)) = true.
Proof. do 3 eexists. repeat split; vm_compute; reflexivity. Qed.

(** C10, as the code has it.  [last_used] is set to the clock reading when
    the driver's call returned: by [execute] and [execute_with_format] when
    they return a result, by [execute_iter] when the stream is exhausted.  An
    attempt that ends with an exception, or an iteration that is closed,
    leaves it as it was, and so do [connect], [disconnect], and the pool's
    [get_connection], release and [close], for every connection there is. *)
Theorem last_used_stamped_on_success_only (pr : option exn) (drv : driver)
    (now : Z) (q : string) (ps : params) (wct : bool) (qid : option string)
    (st : option pydict) (f : ResultFormat) (src : Conn.stream)
    (who : Conn.consumer) (c : Connection) :
  Conn.last_used (Conn.state_of (Conn.execute pr drv now q ps wct qid st c))
    = match Conn.outcome_of (Conn.execute pr drv now q ps wct qid st c) with
      | Ok _ => now
      | Raise _ => Conn.last_used c
      end
  /\ Conn.last_used (Conn.state_of
        (Conn.execute_with_format pr drv now q f ps qid st c))
    = match Conn.outcome_of
              (Conn.execute_with_format pr drv now q f ps qid st c) with
      | Ok _ => now
      | Raise _ => Conn.last_used c
      end
  /\ Conn.last_used (Conn.iter_state
        (Conn.execute_iter pr src now q ps qid st who c))
    = match Conn.iter_end_of
              (Conn.execute_iter pr src now q ps qid st who c) with
      | Conn.Exhausted => now
      | _ => Conn.last_used c
      end
  /\ Conn.last_used (Conn.state_of (Conn.connect pr c)) = Conn.last_used c
  /\ Conn.last_used (Conn.disconnect c) = Conn.last_used c
  /\ (forall fuel t w,
        State.keeps_last_used (heap w)
          (heap (fst (Pool.get_connection fuel t pr w))))
  /\ (forall a w, State.keeps_last_used (heap w) (heap (Pool.release a w)))
  /\ (forall w, State.keeps_last_used (heap w) (heap (fst (Pool.close w)))).
Proof.
  repeat split.
  - apply execute_stamp.
  - apply format_stamp.
  - apply iter_stamp.
  - apply connect_last_used.
  - apply disconnect_last_used.
  - intros fuel t w. apply get_connection_keeps_last_used.
  - intros a w. apply keeps_last_used_alter. reflexivity.
  - intros w. apply close_keeps_last_used.
Qed.

(** An attempt that fails does not stamp the connection: the driver rejects
    the query at clock 99 and [last_used] is still 5. *)
Lemma failed_attempt_leaves_last_used :
  let c := mkConnection (Some TheSyncClient) false 5 in
  Conn.outcome_of (Conn.execute None Sample.rejecting 99 "SELEC 1" NoParams
                                false None None c)
    = Raise Sample.syntax_error
  /\ Conn.last_used (Conn.state_of
        (Conn.execute None Sample.rejecting 99 "SELEC 1" NoParams false None
                      None c)) = 5
  /\ Conn.last_used (Conn.state_of
        (Conn.execute None Sample.rejecting 99 "SELEC 1" NoParams false None
                      None c)) <> 99.
Proof. repeat split; vm_compute; congruence. Qed.

(** ** The scan of the member list *)

Section ScanFacts.

Implicit Types (h : list Connection) (ms : list nat) (w : World) (a : nat).

Lemma first_idle_found h ms a c :
  Pool.first_idle h ms = Some (a, c) ->
  a ∈ ms /\ h !! a = Some c /\ Conn.is_in_use c = false.
Proof.
  induction ms as [|b ms IH]; simpl; [discriminate|].
  destruct (h !! b) as [cb|] eqn:Hb.
  - destruct (Conn.is_in_use cb) eqn:Hu.
    + intros H. destruct (IH H) as (? & ? & ?). repeat split; auto.
      now apply list_elem_of_further.
    + intros [= <- <-]. repeat split; auto. apply list_elem_of_here.
  - intros H. destruct (IH H) as (? & ? & ?). repeat split; auto.
    now apply list_elem_of_further.
Qed.

Lemma first_idle_none h ms :
  (forall a, a ∈ ms -> exists c, h !! a = Some c /\ Conn.is_in_use c = true) ->
  Pool.first_idle h ms = None.
Proof.
  induction ms as [|b ms IH]; intros Hall; simpl; [reflexivity|].
  destruct (Hall b) as (cb & -> & ->); [apply list_elem_of_here|].
  apply IH. intros a Ha. apply Hall. now apply list_elem_of_further.
Qed.

Lemma first_idle_exists h ms a c :
  a ∈ ms -> h !! a = Some c -> Conn.is_in_use c = false ->
  Pool.first_idle h ms <> None.
Proof.
  induction ms as [|b ms IH]; intros Ha Hc Hu; [now apply elem_of_nil in Ha|].
  simpl. destruct (h !! b) as [cb|] eqn:Hb.
  - destruct (Conn.is_in_use cb) eqn:Hub; [|discriminate].
    apply elem_of_cons in Ha as [->|Ha]; [congruence | now apply IH].
  - apply elem_of_cons in Ha as [->|Ha]; [congruence | now apply IH].
Qed.

(** After a release among members that are all checked out, the scan finds
    the released one. *)
Lemma first_idle_released h ms a :
  (forall b, b ∈ ms -> exists c, h !! b = Some c /\ Conn.is_in_use c = true) ->
  a ∈ ms ->
  exists c, Pool.first_idle (alter (Conn.set_in_use false) a h) ms = Some (a, c).
Proof.
  induction ms as [|b ms IH]; intros Hall Ha; [now apply elem_of_nil in Ha|].
  simpl. destruct (Hall b) as (cb & Hb & Hub); [apply list_elem_of_here|].
  destruct (decide (a = b)) as [->|Hne].
  - rewrite list_lookup_alter_eq, Hb. simpl. eauto.
  - rewrite list_lookup_alter_ne, Hb, Hub by exact Hne.
    apply IH.
    + intros b' Hb'. apply Hall. now apply list_elem_of_further.
    + apply elem_of_cons in Ha as [->|Ha]; [congruence | exact Ha].
Qed.

Lemma remove_first_subset a b ms :
  b ∈ Pool.remove_first a ms -> b ∈ ms.
Proof.
  induction ms as [|x ms IH]; simpl; [auto|].
  destruct (Nat.eqb x a).
  - intros H. now apply list_elem_of_further.
  - intros H. apply elem_of_cons in H as [->|H].
    + apply list_elem_of_here.
    + apply list_elem_of_further. now apply IH.
Qed.

Lemma remove_first_length a ms :
  a ∈ ms -> S (length (Pool.remove_first a ms)) = length ms.
Proof.
  induction ms as [|x ms IH]; intros Ha; [now apply elem_of_nil in Ha|].
  simpl. destruct (Nat.eqb_spec x a) as [->|Hne]; [reflexivity|].
  simpl. f_equal. apply IH.
  apply elem_of_cons in Ha as [->|Ha]; [congruence | exact Ha].
Qed.

Lemma wait_loop_all_busy (fuel : nat) w :
  Pool.first_idle (heap w) (_pool w) = None ->
  Pool.wait_loop fuel w = (Pool.set_lock true w, Waiting).
Proof.
  intros Hnone. induction fuel as [|fuel IH]; simpl; unfold Pool.poll;
    rewrite Hnone; [reflexivity | exact IH].
Qed.

Lemma wait_loop_claims (fuel : nat) w a c :
  Pool.first_idle (heap w) (_pool w) = Some (a, c) ->
  Pool.wait_loop fuel w
  = (Pool.set_lock false (Pool.update a (Conn.set_in_use true) w), Done (Ok a)).
Proof.
  intros Hsome. destruct fuel; simpl; unfold Pool.poll; now rewrite Hsome.
Qed.

End ScanFacts.

(** C1.  Caller A checks a connection out of a pool of size 1 and runs one
    query on it inside its [async with] block.  [Connection.execute] clears
    [in_use] in its [finally], so while A still holds the connection the flag
    is already false, and caller B's [get_connection] returns the same
    object. *)
Theorem held_connection_handed_out_again :
  exists w1 w2 w3 rows,
    Pool.get_connection 0 100 None (Pool.init 1 3600) = (w1, Done (Ok 0%nat))
    /\ (exists c, heap w1 !! 0%nat = Some c /\ Conn.is_in_use c = true)
    /\ Pool.on_connection 0
         (Conn.execute None Sample.one_row 101 "SELECT 1" NoParams false None
                       None) w1
       = (w2, Ok rows)
    /\ (exists c, heap w2 !! 0%nat = Some c /\ Conn.is_in_use c = false)
    /\ Pool.get_connection 0 102 None w2 = (w3, Done (Ok 0%nat)).
Proof.
  do 4 eexists.
  split; [vm_compute; reflexivity|].
  split; [eexists; split; vm_compute; reflexivity|].
  split; [vm_compute; reflexivity|].
  split; [eexists; split; vm_compute; reflexivity|].
  vm_compute; reflexivity.
Qed.

(** ** Acquisitions without release *)

Section Capacity.

Implicit Types (w : World) (a : nat).

(** What one acquisition does to a pool whose members are all checked
    out: it adds a member and returns it when there is room and the link
    comes up; otherwise members and objects are as they were, and when
    the pool is full the caller waits. *)
Lemma get_connection_all_in_use (fuel : nat) (now : Z) (pr : option exn) w :
  State.all_in_use w -> State.within_capacity w ->
  let w' := fst (Pool.get_connection fuel now pr w) in
  let r := snd (Pool.get_connection fuel now pr w) in
  State.all_in_use w' /\ State.within_capacity w' /\
  pool_size w' = pool_size w /\
  length (_pool w') = ((if State.returned r then 1 else 0) + length (_pool w))%nat /\
  (pool_size w <= Z.of_nat (length (_pool w)) ->
   r = Waiting /\ _pool w' = _pool w /\ heap w' = heap w).
Proof.
  intros Hall Hcap. unfold Pool.get_connection.
  destruct (_lock w); [cbn [fst snd State.returned]; repeat split; auto|].
  rewrite (first_idle_none _ _ Hall). unfold Pool.grow_or_wait.
  destruct (Z.ltb_spec (Z.of_nat (length (_pool w))) (pool_size w)) as [Hroom|Hfull].
  - destruct pr as [e|]; cbn [Conn.connect fst snd State.returned].
    + repeat split; auto. lia.
    + unfold State.all_in_use, State.within_capacity in *.
      cbn [Pool.set_members Pool.set_heap Pool.send heap _pool pool_size].
      rewrite length_app. cbn [length].
      repeat split; try lia.
      intros a Ha. apply elem_of_app in Ha as [Ha|Ha].
      * destruct (Hall a Ha) as (c & Hc & Hu). exists c. split; [|exact Hu].
        rewrite lookup_app_l; [exact Hc | now apply lookup_lt_Some in Hc].
      * apply list_elem_of_singleton in Ha as ->.
        eexists. split; [apply list_lookup_middle; reflexivity | reflexivity].
  - rewrite (wait_loop_all_busy fuel w (first_idle_none _ _ Hall)).
    cbn [fst snd State.returned]. repeat split; auto.
Qed.

Lemma acquire_all_invariant (calls : list State.acquisition) w :
  State.all_in_use w -> State.within_capacity w ->
  let w' := fst (State.acquire_all calls w) in
  let rs := snd (State.acquire_all calls w) in
  State.all_in_use w' /\ State.within_capacity w' /\
  pool_size w' = pool_size w /\
  length (_pool w') = (length (filter (fun r => State.returned r = true) rs)
                       + length (_pool w))%nat /\
  (pool_size w <= Z.of_nat (length (_pool w)) ->
   Forall (fun r => r = Waiting) rs /\ _pool w' = _pool w /\ heap w' = heap w).
Proof.
  revert w. induction calls as [|[[fuel now] pr] calls IH]; intros w Hall Hcap.
  - cbn. repeat split; auto.
  - cbn [State.acquire_all].
    pose proof (get_connection_all_in_use fuel now pr w Hall Hcap) as Hstep.
    destruct (Pool.get_connection fuel now pr w) as [w1 r]. cbn [fst snd] in Hstep.
    destruct Hstep as (Hall1 & Hcap1 & Hsize1 & Hlen1 & Hfull1).
    specialize (IH w1 Hall1 Hcap1).
    destruct (State.acquire_all calls w1) as [w2 rs]. cbn [fst snd] in IH |- *.
    destruct IH as (Hall2 & Hcap2 & Hsize2 & Hlen2 & Hfull2).
    split; [exact Hall2|]. split; [exact Hcap2|]. split; [congruence|]. split.
    + rewrite Hlen2, Hlen1. rewrite filter_cons.
      destruct (State.returned r); [rewrite decide_True by reflexivity
                                   |rewrite decide_False by discriminate];
        cbn [length]; lia.
    + intros Hfull. destruct (Hfull1 Hfull) as (-> & Hp1 & Hh1).
      destruct Hfull2 as (HW & Hp2 & Hh2); [rewrite Hsize1, Hp1; exact Hfull|].
      split; [constructor; [reflexivity | exact HW]|]. split; congruence.
Qed.

Lemma init_all_in_use (size recycle : Z) : State.all_in_use (Pool.init size recycle).
Proof. intros a Ha. now apply elem_of_nil in Ha. Qed.

Lemma init_within_capacity (size recycle : Z) :
  State.within_capacity (Pool.init size recycle).
Proof. unfold State.within_capacity. cbn. lia. Qed.

End Capacity.

(** C2.  Callers acquire one after the other from a new pool and nobody
    releases.  The member list never has more than [pool_size] entries (none
    at all when [pool_size] is not positive); at most that many acquisitions
    come back with a connection; and once that many have, every further
    acquisition is still waiting however long it is watched, the pool staying
    as it is, until a member is released, which the wait loop then claims. *)
Theorem pool_never_exceeds_capacity (size recycle : Z)
    (calls later : list State.acquisition) :
  let w := fst (State.acquire_all calls (Pool.init size recycle)) in
  let rs := snd (State.acquire_all calls (Pool.init size recycle)) in
  let held := length (filter (fun r => State.returned r = true) rs) in
  Z.of_nat (length (_pool w)) <= Z.max 0 size
  /\ Z.of_nat held <= Z.max 0 size
  /\ (Z.of_nat held = Z.max 0 size ->
      let w' := fst (State.acquire_all later w) in
      Forall (fun r => r = Waiting) (snd (State.acquire_all later w))
      /\ _pool w' = _pool w
      /\ forall a fuel, a ∈ _pool w' ->
           snd (Pool.wait_loop fuel (Pool.release a w')) = Done (Ok a)).
Proof.
  intros w rs held.
  destruct (acquire_all_invariant calls (Pool.init size recycle)
              (init_all_in_use size recycle) (init_within_capacity size recycle))
    as (Hall & Hcap & Hsize & Hlen & _).
  fold w in Hall, Hcap, Hsize, Hlen. fold rs in Hlen. fold held in Hlen.
  cbn [Pool.init pool_size _pool length] in Hlen, Hsize. rewrite Nat.add_0_r in Hlen.
  assert (Hbound : Z.of_nat (length (_pool w)) <= Z.max 0 size).
  { unfold State.within_capacity in Hcap. now rewrite Hsize in Hcap. }
  split; [exact Hbound|]. split; [lia|].
  intros Hheld w'.
  destruct (acquire_all_invariant later w Hall Hcap)
    as (Hall' & _ & _ & _ & Hfull').
  fold w' in Hall', Hfull'.
  destruct Hfull' as (Hwait & Hpool & Hheap); [rewrite Hsize; lia|].
  split; [exact Hwait|]. split; [exact Hpool|].
  intros a fuel Ha.
  destruct (first_idle_released (heap w') (_pool w') a Hall' Ha) as (c & Hc).
  rewrite (wait_loop_claims fuel (Pool.release a w') a c Hc). reflexivity.
Qed.

Lemma pool_never_exceeds_capacity_witness :
  let calls := [(0%nat, 100, None); (0%nat, 100, None)] in
  let later := [(7%nat, 100, None)] in
  let w := fst (State.acquire_all calls (Pool.init 2 3600)) in
  let rs := snd (State.acquire_all calls (Pool.init 2 3600)) in
  Z.of_nat (length (filter (fun r => State.returned r = true) rs)) = Z.max 0 2
  /\ Forall (fun r => r = Waiting) (snd (State.acquire_all later w)).
Proof.
  intros calls later w rs.
  assert (Hheld : Z.of_nat (length (filter (fun r => State.returned r = true) rs))
                  = Z.max 0 2) by (vm_compute; reflexivity).
  split; [exact Hheld|].
  exact (proj1 (proj2 (proj2 (pool_never_exceeds_capacity 2 3600 calls later))
                  Hheld)).
Defined.

(** ** Recycling *)

(** The scan of [get_connection], as the code has it.  When it meets its
    first idle member, it tests that member only.  A member that is not stale
    is marked and returned.  A stale one is disconnected and taken off the
    member list, and the scan ends there: the call goes on to create a
    connection (there is room now), so it returns a new object, or raises
    what [connect] raised; the stale member is not what comes back. *)
Lemma scan_recycles_stale_member (fuel : nat) (now : Z) (pr : option exn)
    (w : World) (a : nat) (c : Connection) :
  _lock w = false ->
  Pool.first_idle (heap w) (_pool w) = Some (a, c) ->
  Z.of_nat (length (_pool w)) <= pool_size w ->
  let w' := fst (Pool.get_connection fuel now pr w) in
  let r := snd (Pool.get_connection fuel now pr w) in
  (now - Conn.last_used c <= pool_recycle w ->
     r = Done (Ok a) /\ w' = Pool.update a (Conn.set_in_use true) w)
  /\ (State.stale w now c ->
      heap w' !! a = Some (Conn.disconnect c)
      /\ Conn.is_connected (Conn.disconnect c) = false
      /\ r <> Done (Ok a)
      /\ match pr with
         | None =>
             r = Done (Ok (length (heap w)))
             /\ _pool w' = Pool.remove_first a (_pool w) ++ [length (heap w)]
         | Some e =>
             r = Done (Raise e)
             /\ _pool w' = Pool.remove_first a (_pool w)
         end).
Proof.
  intros Hlock Hfirst Hcap w' r. subst w' r.
  destruct (first_idle_found _ _ _ _ Hfirst) as (Ha & Hc & Hidle).
  pose proof (lookup_lt_Some _ _ _ Hc) as Hlt.
  pose proof (remove_first_length a (_pool w) Ha) as Hrm.
  unfold Pool.get_connection, State.stale. rewrite Hlock, Hfirst.
  destruct (Z.gtb_spec (now - Conn.last_used c) (pool_recycle w)) as [Hstale|Hfresh].
  - split; [lia|]. intros _.
    unfold Pool.grow_or_wait.
    cbn [Pool.set_members Pool.update Pool.set_heap heap _pool pool_size].
    destruct (Z.ltb_spec (Z.of_nat (length (Pool.remove_first a (_pool w))))
                         (pool_size w)) as [_|Hfull]; [|lia].
    assert (Hdisc : Conn.is_connected (Conn.disconnect c) = false).
    { clear. destruct c as [[cl|] u t]; reflexivity. }
    destruct pr as [e|]; cbn [Conn.connect fst snd Pool.set_members Pool.send
                              Pool.update Pool.set_heap heap _pool].
    + rewrite list_lookup_alter_eq, Hc. repeat split; auto.
    + rewrite lookup_app_l by (rewrite length_alter; exact Hlt).
      rewrite list_lookup_alter_eq, Hc, length_alter.
      repeat split; auto. intros [= Heq]. lia.
  - split; [intros _; split; reflexivity | lia].
Qed.

(** ** A pass through the pool that fails *)

Section FailingPass.

Variable P : exn -> bool.

Lemma conn_execute_fails (E : Env) (now : Z) (q : string) (ps : params)
    (wct : bool) (qid : option string) (st : option pydict) (c : Connection) :
  State.fails_with P E ->
  exists e,
    Conn.outcome_of (Conn.execute (probe E) (answer E) now q ps wct qid st c)
    = Raise e /\ P e = true.
Proof.
  intros [Hprobe Hdrv]. unfold Conn.execute, Conn.connect, Conn.guarded_call.
  destruct (Hdrv (mkCall q ps wct qid st)) as (e & He & HP).
  destruct (Conn.is_connected c).
  - rewrite He. eauto.
  - destruct (probe E) as [e'|] eqn:Hpr.
    + exists e'. split; [reflexivity | now apply Hprobe].
    + rewrite He. eauto.
Qed.

Lemma conn_execute_with_format_fails (E : Env) (now : Z) (q : string)
    (f : ResultFormat) (ps : params) (qid : option string)
    (st : option pydict) (c : Connection) :
  State.fails_with P E ->
  exists e,
    Conn.outcome_of
      (Conn.execute_with_format (probe E) (answer E) now q f ps qid st c)
    = Raise e /\ P e = true.
Proof.
  intros [Hprobe Hdrv].
  unfold Conn.execute_with_format, Conn.connect, Conn.guarded_call.
  destruct (Hdrv (mkCall (Conn.with_format_clause q f) ps false qid st))
    as (e & He & HP).
  destruct (Conn.is_connected c).
  - rewrite He. eauto.
  - destruct (probe E) as [e'|] eqn:Hpr.
    + exists e'. split; [reflexivity | now apply Hprobe].
    + rewrite He. eauto.
Qed.

(** Using a member and releasing it leaves a pool that is ready. *)
Lemma use_and_release_ready {A : Type} (m : Connection -> Conn.effect A)
    (a : nat) (c1 : Connection) (w1 : World) :
  _lock w1 = false ->
  State.members_allocated w1 ->
  Z.of_nat (length (_pool w1)) <= pool_size w1 ->
  a ∈ _pool w1 ->
  heap w1 !! a = Some c1 ->
  State.ready (Pool.release a (fst (Pool.on_connection a m w1)))
  /\ snd (Pool.on_connection a m w1) = Conn.outcome_of (m c1).
Proof.
  intros Hlock Halloc Hcap Ha Hc1. unfold Pool.on_connection. rewrite Hc1.
  destruct (m c1) as [[c' sent] r]. split; [|reflexivity].
  unfold State.ready, State.members_allocated.
  cbn [fst Pool.release Pool.update Pool.send Pool.set_heap heap _pool _lock
       pool_size].
  rewrite !length_alter. repeat split; auto.
  left. apply (first_idle_exists _ _ a (Conn.set_in_use false c')); auto.
  rewrite !list_lookup_alter_eq, Hc1. reflexivity.
Qed.

Lemma with_connection_fails {A : Type} (fuel : nat) (E : Env)
    (m : Connection -> Conn.effect A) (w : World) :
  State.ready w ->
  (forall e, probe E = Some e -> P e = true) ->
  (forall c, exists e, Conn.outcome_of (m c) = Raise e /\ P e = true) ->
  exists w' e,
    Pool.with_connection fuel E m w = (w', Done (Raise e))
    /\ P e = true /\ State.ready w'.
Proof.
  intros (Hlock & Halloc & Hcap & Hfree) Hprobe Hm.
  assert (Hgrow : forall w0,
    _lock w0 = false -> State.members_allocated w0 ->
    Z.of_nat (length (_pool w0)) < pool_size w0 ->
    exists w' e,
      match Pool.grow_or_wait fuel (probe E) w0 with
      | (w1, Done (Ok a)) =>
          let '(w2, r) := Pool.on_connection a m w1 in
          (Pool.release a w2, Done r)
      | (w1, Done (Raise e0)) => (w1, Done (Raise e0))
      | (w1, Waiting) => (w1, Waiting)
      end = (w', Done (Raise e)) /\ P e = true /\ State.ready w').
  { intros w0 Hl0 Ha0 Hroom. unfold Pool.grow_or_wait.
    destruct (Z.ltb_spec (Z.of_nat (length (_pool w0))) (pool_size w0)); [|lia].
    destruct (probe E) as [e|] eqn:Hpr; cbn [Conn.connect].
    - exists (Pool.send [probe_call] w0), e.
      split; [reflexivity|]. split; [now apply Hprobe|].
      repeat split; auto. cbn. lia.
    - set (c0 := Conn.set_in_use true (Conn.set_client (Some TheSyncClient) Conn.init)).
      set (w1 := Pool.set_members _ _).
      destruct (use_and_release_ready m (length (heap w0)) c0 w1) as [Hready Hout].
      + exact Hl0.
      + intros b Hb. subst w1. cbn in Hb |- *. rewrite length_app. cbn.
        apply elem_of_app in Hb as [Hb|Hb].
        * specialize (Ha0 b Hb). lia.
        * apply list_elem_of_singleton in Hb. lia.
      + subst w1. cbn. rewrite length_app. cbn. lia.
      + subst w1. cbn. apply elem_of_app. right. apply list_elem_of_here.
      + subst w1. cbn. apply list_lookup_middle. reflexivity.
      + destruct (Hm c0) as (e & He & HP).
        destruct (Pool.on_connection (length (heap w0)) m w1) as [w2 r].
        cbn [fst snd] in Hready, Hout.
        exists (Pool.release (length (heap w0)) w2), e.
        split; [congruence|]. split; assumption. }
  unfold Pool.with_connection, Pool.get_connection. rewrite Hlock.
  destruct (Pool.first_idle (heap w) (_pool w)) as [[a c]|] eqn:Hfirst.
  - destruct (first_idle_found _ _ _ _ Hfirst) as (Ha & Hc & Hidle).
    destruct (clock_scan E - Conn.last_used c >? pool_recycle w).
    + apply Hgrow.
      * exact Hlock.
      * intros b Hb. cbn in Hb |- *. rewrite length_alter.
        apply Halloc. eapply remove_first_subset, Hb.
      * cbn. pose proof (remove_first_length a (_pool w) Ha). lia.
    + set (w1 := Pool.update a (Conn.set_in_use true) w).
      destruct (use_and_release_ready m a (Conn.set_in_use true c) w1)
        as [Hready Hout]; try assumption.
      * intros b Hb. subst w1. cbn in Hb |- *. rewrite length_alter. now apply Halloc.
      * subst w1. cbn. now rewrite list_lookup_alter_eq, Hc.
      * destruct (Hm (Conn.set_in_use true c)) as (e & He & HP).
        destruct (Pool.on_connection a m w1) as [w2 r].
        cbn [fst snd] in Hready, Hout.
        exists (Pool.release a w2), e.
        split; [congruence|]. split; assumption.
  - apply Hgrow; auto. destruct Hfree as [Hfree|Hfree]; [congruence | exact Hfree].
Qed.

End FailingPass.

(** ** The retry loop *)

Section RetryFacts.

Context {A : Type}.
Variable body : nat -> World -> World * progress A.

(** Three failures that the predicate accepts: three attempts, two
    sleeps, and tenacity's [RetryError] around the last failure. *)
Lemma call_all_attempts_fail (I : World -> Prop) (w : World) :
  (forall n w0, I w0 ->
     exists w1 e, body n w0 = (w1, Done (Raise e))
                  /\ is_ClickHouseError e = true /\ I w1) ->
  I w ->
  exists w' e,
    Retry.call body w
    = (w', Done (Raise (RetryErr e)),
       Retry.mkStatistics 3 [Retry.wait 1; Retry.wait 2])
    /\ is_ClickHouseError e = true /\ I w'.
Proof.
  intros Hbody HI. unfold Retry.call, Retry.max_attempt_number.
  destruct (Hbody 1%nat w HI) as (w1 & e1 & H1 & HP1 & HI1).
  destruct (Hbody 2%nat w1 HI1) as (w2 & e2 & H2 & HP2 & HI2).
  destruct (Hbody 3%nat w2 HI2) as (w3 & e3 & H3 & HP3 & HI3).
  exists w3, e3. split; [|split; assumption].
  cbn [Retry.attempts]. unfold Retry.retry_if_exception_type.
  rewrite H1, HP1. cbn [negb Retry.stop_after_attempt Retry.max_attempt_number
                        Nat.leb app].
  rewrite H2, HP2. cbn [negb Retry.stop_after_attempt Retry.max_attempt_number
                        Nat.leb app].
  rewrite H3, HP3. reflexivity.
Qed.

(** A first failure that the predicate does not accept: one attempt, no
    sleep, and the exception as it was raised. *)
Lemma call_first_failure_passes (w w1 : World) (e : exn) :
  body 1%nat w = (w1, Done (Raise e)) ->
  is_ClickHouseError e = false ->
  Retry.call body w = (w1, Done (Raise e), Retry.mkStatistics 1 []).
Proof.
  intros H1 HP. unfold Retry.call, Retry.max_attempt_number.
  cbn [Retry.attempts]. unfold Retry.retry_if_exception_type.
  rewrite H1, HP. reflexivity.
Qed.

End RetryFacts.

Lemma wait_within_bounds (n : nat) : 1 <= Retry.wait n <= 10.
Proof. unfold Retry.wait, Retry.wait_exponential. lia. Qed.

(** C4, as the code has it.  On a pool that is ready, [Client.execute] and
    [Client.execute_with_format] retry every failure that is an instance of
    [ClickHouseError], the driver's base class, which the server's rejection
    of a malformed query is too.  If every attempt fails with such an error,
    exactly three attempts are made, with two sleeps between them, each of at
    least 1 and at most 10 seconds, and the call then ends with an exception.
    If the first attempt fails with an exception of another class, that is the
    only attempt and this exception goes up as it is. *)
Theorem client_retries_driver_errors (fuel : nat) (cl : ClickHouseClient)
    (envs : nat -> Env) (q : string) (ps : params) (wct : bool)
    (qid : option string) (st : option pydict) (f : ResultFormat) (w : World) :
  State.ready w ->
  ((forall n, State.fails_with is_ClickHouseError (envs n)) ->
     (exists w' e,
        Client.execute fuel cl envs q ps wct qid st w
        = (w', Done (Raise e), Retry.mkStatistics 3 [Retry.wait 1; Retry.wait 2]))
     /\ (exists w' e,
        Client.execute_with_format fuel cl envs q f ps qid st w
        = (w', Done (Raise e), Retry.mkStatistics 3 [Retry.wait 1; Retry.wait 2])))
  /\ (State.fails_with (fun e => negb (is_ClickHouseError e)) (envs 1%nat) ->
      (exists w' e,
         Pool.execute fuel (envs 1%nat) q ps wct qid
                      (Some (Client.with_timeout cl st)) w
         = (w', Done (Raise e))
         /\ is_ClickHouseError e = false
         /\ Client.execute fuel cl envs q ps wct qid st w
            = (w', Done (Raise e), Retry.mkStatistics 1 []))
      /\ (exists w' e,
         Pool.execute_with_format fuel (envs 1%nat) q f ps qid
                                  (Some (Client.with_timeout cl st)) w
         = (w', Done (Raise e))
         /\ is_ClickHouseError e = false
         /\ Client.execute_with_format fuel cl envs q f ps qid st w
            = (w', Done (Raise e), Retry.mkStatistics 1 [])))
  /\ (forall n, 1 <= Retry.wait n <= 10).
Proof.
  intros Hready. split; [|split; [|exact wait_within_bounds]].
  - intros Hfail. split.
    + destruct (call_all_attempts_fail
                  (fun n w' => Pool.execute fuel (envs n) q ps wct qid
                                 (Some (Client.with_timeout cl st)) w')
                  State.ready w) as (w' & e & Hcall & _); [|exact Hready|].
      * intros n w0 H0. apply with_connection_fails; [exact H0| |].
        -- apply (Hfail n).
        -- intros c. now apply conn_execute_fails.
      * exists w', (RetryErr e). exact Hcall.
    + destruct (call_all_attempts_fail
                  (fun n w' => Pool.execute_with_format fuel (envs n) q f ps qid
                                 (Some (Client.with_timeout cl st)) w')
                  State.ready w) as (w' & e & Hcall & _); [|exact Hready|].
      * intros n w0 H0. apply with_connection_fails; [exact H0| |].
        -- apply (Hfail n).
        -- intros c. now apply conn_execute_with_format_fails.
      * exists w', (RetryErr e). exact Hcall.
  - intros Hfail. split.
    + destruct (with_connection_fails (fun e => negb (is_ClickHouseError e))
                  fuel (envs 1%nat)
                  (Conn.execute (probe (envs 1%nat)) (answer (envs 1%nat))
                     (clock_done (envs 1%nat)) q ps wct qid
                     (Some (Client.with_timeout cl st))) w Hready)
        as (w' & e & Hpass & HP & _).
      * apply Hfail.
      * intros c. now apply conn_execute_fails.
      * apply negb_true_iff in HP. exists w', e.
        split; [exact Hpass|]. split; [exact HP|].
        now apply call_first_failure_passes.
    + destruct (with_connection_fails (fun e => negb (is_ClickHouseError e))
                  fuel (envs 1%nat)
                  (Conn.execute_with_format (probe (envs 1%nat))
                     (answer (envs 1%nat)) (clock_done (envs 1%nat)) q f ps qid
                     (Some (Client.with_timeout cl st))) w Hready)
        as (w' & e & Hpass & HP & _).
      * apply Hfail.
      * intros c. now apply conn_execute_with_format_fails.
      * apply negb_true_iff in HP. exists w', e.
        split; [exact Hpass|]. split; [exact HP|].
        now apply call_first_failure_passes.
Qed.

Lemma new_pool_ready (size recycle : Z) : 0 < size -> State.ready (Pool.init size recycle).
Proof.
  intros Hsize. repeat split; cbn; try lia.
  intros a Ha. now apply elem_of_nil in Ha.
Qed.

Lemma client_retries_driver_errors_witness :
  State.ready (Pool.init 1 3600)
  /\ State.fails_with (fun e => negb (is_ClickHouseError e))
       (Sample.envs Sample.mistyped 1%nat)
  /\ exists w' e,
       is_ClickHouseError e = false
       /\ Client.execute 0 Sample.client (Sample.envs Sample.mistyped)
            "SELECT %(x)s" NoParams false None None (Pool.init 1 3600)
          = (w', Done (Raise e), Retry.mkStatistics 1 []).
Proof.
  assert (Hready : State.ready (Pool.init 1 3600)) by (apply new_pool_ready; lia).
  assert (Hfail : State.fails_with (fun e => negb (is_ClickHouseError e))
                    (Sample.envs Sample.mistyped 1%nat)).
  { split; [discriminate|]. intros call. exists Sample.bad_parameters.
    split; reflexivity. }
  split; [exact Hready|]. split; [exact Hfail|].
  destruct (proj1 (proj1 (proj2 (client_retries_driver_errors 0 Sample.client
                     (Sample.envs Sample.mistyped) "SELECT %(x)s" NoParams false
                     None None JSON (Pool.init 1 3600) Hready)) Hfail))
    as (w' & e & _ & HP & Hcall).
  exists w', e. split; assumption.
Defined.

(** What the code does where C4 says otherwise.  The server rejects a
    malformed query with a [ServerException]; that is a [ClickHouseError], so
    the query is sent three times, not once; and what the caller gets in the
    end is tenacity's [RetryError], not the server's error. *)
Lemma malformed_query_is_retried :
  is_ClickHouseError Sample.syntax_error = true
  /\ exists w',
       Client.execute 0 Sample.client (Sample.envs Sample.rejecting) "SELEC 1"
                      NoParams false None None (Pool.init 1 3600)
       = (w', Done (Raise (RetryErr Sample.syntax_error)),
          Retry.mkStatistics 3 [1; 2])
       /\ length (List.filter
                    (fun call => String.eqb (call_query call) "SELEC 1")
                    (wire w'))
          = 3%nat.
Proof.
  split; [reflexivity|]. eexists. split; vm_compute; reflexivity.
Qed.

Lemma query_tool_reshapes_every_format_witness :
  let run := QueryTool.query 0 Sample.client (Sample.envs Sample.one_row)
               "SELECT 1" "CSV" None (Pool.init 1 3600) in
  let answer := mkQueryAnswer (Mappings [[("x"%string, PInt 1)]]) 1
                              "SELECT 1" "CSV" in
  snd run = Done (Ok answer)
  /\ exists rows, qa_result answer = Mappings rows.
Proof.
  intros run answer.
  assert (Hrun : snd run = Done (Ok answer)) by (vm_compute; reflexivity).
  split; [exact Hrun|].
  exact (proj1 (proj2 query_tool_reshapes_every_format) 0%nat Sample.client
           (Sample.envs Sample.one_row) "SELECT 1"%string "CSV"%string None
           (Pool.init 1 3600) answer Hrun).
Defined.

(** ** The pool's bookkeeping along arbitrary runs *)

Section Soundness.

Implicit Types (w : World) (a : nat).

Lemma remove_first_NoDup a (ms : list nat) :
  NoDup ms -> NoDup (Pool.remove_first a ms) /\ a ∉ Pool.remove_first a ms.
Proof.
  induction ms as [|b ms IH]; intros Hnd; simpl.
  - split; [constructor | apply not_elem_of_nil].
  - apply NoDup_cons in Hnd as [Hb Hnd].
    destruct (Nat.eqb_spec b a) as [->|Hne]; [split; assumption|].
    destruct (IH Hnd) as [IH1 IH2]. split.
    + apply NoDup_cons. split; [|exact IH1].
      intros Hin. apply Hb. eapply remove_first_subset, Hin.
    + intros Hin. apply elem_of_cons in Hin as [Heq|Hin]; [congruence | auto].
Qed.

Lemma sound_same w w' :
  heap w' = heap w -> _pool w' = _pool w -> pool_size w' = pool_size w ->
  Run.sound w -> Run.sound w'.
Proof.
  unfold Run.sound, State.members_allocated, State.within_capacity.
  intros -> -> ->. auto.
Qed.

(** Rewriting one object in a way that keeps its session keeps the
    bookkeeping sound. *)
Lemma sound_update w a (g : Connection -> Connection) :
  (forall c, Conn.is_connected c = true -> Conn.is_connected (g c) = true) ->
  Run.sound w -> Run.sound (Pool.update a g w).
Proof.
  intros Hg (Halloc & Hnd & Hcap & Hconn).
  unfold Run.sound, State.members_allocated, State.within_capacity.
  cbn [Pool.update Pool.set_heap heap _pool pool_size].
  rewrite length_alter. repeat split; auto.
  intros b Hb. destruct (Hconn b Hb) as (c & Hc & Hcc).
  destruct (decide (a = b)) as [->|Hne].
  - exists (g c). rewrite list_lookup_alter_eq, Hc. split; [reflexivity | auto].
  - exists c. rewrite list_lookup_alter_ne by exact Hne. auto.
Qed.

Lemma sound_wait_loop (fuel : nat) w :
  Run.sound w -> Run.sound (fst (Pool.wait_loop fuel w)).
Proof.
  intros Hs. induction fuel as [|fuel IH]; simpl; unfold Pool.poll;
    destruct (Pool.first_idle (heap w) (_pool w)) as [[a c]|]; cbn [fst];
    try exact IH.
  - eapply sound_same; [| | |apply (sound_update w a (Conn.set_in_use true))];
      auto.
  - eapply sound_same; [| | |exact Hs]; reflexivity.
  - eapply sound_same; [| | |apply (sound_update w a (Conn.set_in_use true))];
      auto.
Qed.

Lemma sound_grow_or_wait (fuel : nat) (pr : option exn) w :
  Run.sound w -> Run.sound (fst (Pool.grow_or_wait fuel pr w)).
Proof.
  intros Hs. unfold Pool.grow_or_wait.
  destruct (Z.ltb_spec (Z.of_nat (length (_pool w))) (pool_size w)) as [Hroom|_];
    [|now apply sound_wait_loop].
  destruct pr as [e|]; cbn [Conn.connect fst].
  - eapply sound_same; [| | |exact Hs]; reflexivity.
  - destruct Hs as (Halloc & Hnd & Hcap & Hconn).
    unfold Run.sound, State.members_allocated, State.within_capacity in *.
    cbn [Pool.set_members Pool.set_heap Pool.send heap _pool pool_size].
    rewrite !length_app. cbn [length]. repeat split.
    + intros b Hb. apply elem_of_app in Hb as [Hb|Hb].
      * specialize (Halloc b Hb). lia.
      * apply list_elem_of_singleton in Hb. lia.
    + apply NoDup_app. repeat split; [exact Hnd | | apply NoDup_singleton].
      intros b Hb Hb'. apply list_elem_of_singleton in Hb'.
      specialize (Halloc b Hb). lia.
    + lia.
    + intros b Hb. apply elem_of_app in Hb as [Hb|Hb].
      * destruct (Hconn b Hb) as (c & Hc & Hcc). exists c. split; [|exact Hcc].
        rewrite lookup_app_l; [exact Hc | now apply lookup_lt_Some in Hc].
      * apply list_elem_of_singleton in Hb as ->.
        eexists. split; [apply list_lookup_middle; reflexivity | reflexivity].
Qed.

Lemma sound_get_connection (fuel : nat) (now : Z) (pr : option exn) w :
  Run.sound w -> Run.sound (fst (Pool.get_connection fuel now pr w)).
Proof.
  intros Hs. unfold Pool.get_connection.
  destruct (_lock w); [exact Hs|].
  destruct (Pool.first_idle (heap w) (_pool w)) as [[a c]|] eqn:Hfirst;
    [|now apply sound_grow_or_wait].
  destruct (now - Conn.last_used c >? pool_recycle w);
    [|cbn [fst]; now apply sound_update].
  apply sound_grow_or_wait.
  destruct (first_idle_found _ _ _ _ Hfirst) as (Ha & Hc & _).
  destruct Hs as (Halloc & Hnd & Hcap & Hconn).
  destruct (remove_first_NoDup a (_pool w) Hnd) as [Hnd' Hnotin].
  pose proof (remove_first_length a (_pool w) Ha) as Hlen.
  unfold Run.sound, State.members_allocated, State.within_capacity in *.
  cbn [Pool.set_members Pool.update Pool.set_heap heap _pool pool_size].
  rewrite length_alter. repeat split.
  - intros b Hb. apply Halloc. eapply remove_first_subset, Hb.
  - exact Hnd'.
  - lia.
  - intros b Hb.
    destruct (Hconn b (remove_first_subset _ _ _ Hb)) as (cb & Hcb & Hcc).
    exists cb. split; [|exact Hcc].
    rewrite list_lookup_alter_ne; [exact Hcb | congruence].
Qed.

Lemma guarded_call_keeps_session (drv : driver) (now : Z) (call : Call)
    (c : Connection) :
  Conn.is_connected (Conn.state_of (Conn.guarded_call drv now call c))
  = Conn.is_connected c.
Proof. unfold Conn.guarded_call. now destruct (drv call). Qed.

Lemma execute_keeps_session (pr : option exn) (drv : driver) (now : Z)
    (q : string) (ps : params) (wct : bool) (qid : option string)
    (st : option pydict) (c : Connection) :
  Conn.is_connected c = true ->
  Conn.is_connected
    (Conn.state_of (Conn.execute pr drv now q ps wct qid st c)) = true.
Proof.
  intros Hc. unfold Conn.execute. rewrite Hc.
  pose proof (guarded_call_keeps_session drv now
                (mkCall q ps wct qid st) c) as Hg.
  destruct (Conn.guarded_call drv now (mkCall q ps wct qid st) c)
    as [[c1 s1] r1]. cbn in Hg |- *. congruence.
Qed.

Lemma execute_with_format_keeps_session (pr : option exn) (drv : driver)
    (now : Z) (q : string) (f : ResultFormat) (ps : params)
    (qid : option string) (st : option pydict) (c : Connection) :
  Conn.is_connected c = true ->
  Conn.is_connected
    (Conn.state_of (Conn.execute_with_format pr drv now q f ps qid st c))
  = true.
Proof.
  intros Hc. unfold Conn.execute_with_format. rewrite Hc.
  pose proof (guarded_call_keeps_session drv now
                (mkCall (Conn.with_format_clause q f) ps false qid st) c) as Hg.
  destruct (Conn.guarded_call drv now
              (mkCall (Conn.with_format_clause q f) ps false qid st) c)
    as [[c1 s1] r1]. cbn in Hg |- *. congruence.
Qed.

Lemma sound_on_connection {A : Type} (m : Connection -> Conn.effect A) w a :
  (forall c, Conn.is_connected c = true ->
             Conn.is_connected (Conn.state_of (m c)) = true) ->
  Run.sound w -> Run.sound (fst (Pool.on_connection a m w)).
Proof.
  intros Hm Hs. unfold Pool.on_connection.
  destruct (heap w !! a) as [c|] eqn:Hc; [|exact Hs].
  specialize (Hm c). destruct (m c) as [[c' sent] r]. cbn [fst].
  destruct Hs as (Halloc & Hnd & Hcap & Hconn).
  unfold Run.sound, State.members_allocated, State.within_capacity in *.
  cbn [Pool.send Pool.update Pool.set_heap heap _pool pool_size].
  rewrite length_alter. repeat split; auto.
  intros b Hb. destruct (Hconn b Hb) as (cb & Hcb & Hcc).
  destruct (decide (a = b)) as [->|Hne].
  - exists c'. rewrite list_lookup_alter_eq, Hcb. split; [reflexivity|].
    apply Hm. congruence.
  - exists cb. rewrite list_lookup_alter_ne by exact Hne. auto.
Qed.

Lemma sound_close w : Run.sound w -> Run.sound (fst (Pool.close w)).
Proof.
  intros Hs. unfold Pool.close. destruct (_lock w); [exact Hs|].
  destruct Hs as (Halloc & Hnd & Hcap & Hconn).
  unfold Run.sound, State.members_allocated, State.within_capacity.
  cbn [fst Pool.set_members _pool]. repeat split.
  - intros b Hb. now apply elem_of_nil in Hb.
  - constructor.
  - cbn. lia.
  - intros b Hb. now apply elem_of_nil in Hb.
Qed.

Lemma sound_step (o : Run.op) w : Run.sound w -> Run.sound (Run.step o w).
Proof.
  intros Hs. destruct o; cbn [Run.step].
  - now apply sound_get_connection.
  - now apply sound_update.
  - apply sound_on_connection; [|exact Hs].
    intros c. apply execute_keeps_session.
  - apply sound_on_connection; [|exact Hs].
    intros c. apply execute_with_format_keeps_session.
  - now apply sound_close.
Qed.

End Soundness.

(** X1.  Whatever the callers do (acquire, release, run queries on the
    connections they hold, close the pool), in whatever order and with
    whatever the backend answers, the pool that started empty keeps its
    bookkeeping sound: every member is an allocated object with a session, no
    object is listed twice, and there are never more than [pool_size]
    members. *)
Theorem pool_sound_along_runs (size recycle : Z) (ops : list Run.op) :
  let w := Run.run ops (Pool.init size recycle) in
  Run.sound w
  /\ NoDup (_pool w)
  /\ Z.of_nat (length (_pool w)) <= Z.max 0 size
  /\ (forall a, a ∈ _pool w ->
        exists c, heap w !! a = Some c /\ Conn.is_connected c = true).
Proof.
  intros w.
  assert (Hgen : forall ops w0, Run.sound w0 ->
            Run.sound (Run.run ops w0)
            /\ pool_size (Run.run ops w0) = pool_size w0).
  { clear. induction ops as [|o ops IH]; intros w0 Hs; [split; [exact Hs | reflexivity]|].
    cbn [Run.run fold_left]. fold (Run.run ops (Run.step o w0)).
    destruct (IH (Run.step o w0) (sound_step o w0 Hs)) as [IH1 IH2].
    split; [exact IH1|]. rewrite IH2. clear.
    destruct o; cbn [Run.step]; try reflexivity.
    - unfold Pool.get_connection, Pool.grow_or_wait.
      assert (Hwl : forall fuel w, pool_size (fst (Pool.wait_loop fuel w)) = pool_size w).
      { clear. induction fuel as [|fuel IH]; intros w; simpl; unfold Pool.poll;
          destruct (Pool.first_idle (heap w) (_pool w)) as [[a c]|]; auto. }
      destruct (_lock w0); [reflexivity|].
      destruct (Pool.first_idle (heap w0) (_pool w0)) as [[a c]|].
      + destruct (now - Conn.last_used c >? pool_recycle w0); [|reflexivity].
        cbn [Pool.set_members Pool.update Pool.set_heap heap _pool pool_size].
        destruct (_ <? _); [destruct pr; reflexivity | rewrite Hwl; reflexivity].
      + destruct (_ <? _); [destruct pr; reflexivity | apply Hwl].
    - unfold Pool.on_connection. destruct (heap w0 !! a); [|reflexivity].
      destruct (Conn.execute _ _ _ _ _ _ _ _ _) as [[c' s] r]. reflexivity.
    - unfold Pool.on_connection. destruct (heap w0 !! a); [|reflexivity].
      destruct (Conn.execute_with_format _ _ _ _ _ _ _ _ _) as [[c' s] r]. reflexivity.
    - unfold Pool.close. destruct (_lock w0); [reflexivity|].
      cbn [fst Pool.set_members pool_size].
      generalize (_pool w0) as ms. intros ms. revert w0.
      induction ms as [|a ms IHms]; intros w0; [reflexivity|].
      cbn [fold_left]. rewrite IHms. reflexivity. }
  destruct (Hgen ops (Pool.init size recycle)) as [Hs Hsize].
  { repeat split.
    - intros a Ha. now apply elem_of_nil in Ha.
    - constructor.
    - unfold State.within_capacity. cbn. lia.
    - intros a Ha. now apply elem_of_nil in Ha. }
  fold w in Hs, Hsize. split; [exact Hs|].
  destruct Hs as (_ & Hnd & Hcap & Hconn).
  unfold State.within_capacity in Hcap. rewrite Hsize in Hcap.
  repeat split; assumption.
Qed.

(** ** What [get_connection] hands out *)

Lemma wait_loop_hands_out_idle (fuel : nat) (w w' : World) (a : nat) :
  Pool.wait_loop fuel w = (w', Done (Ok a)) ->
  a ∈ _pool w
  /\ _pool w' = _pool w
  /\ exists c, heap w !! a = Some c /\ Conn.is_in_use c = false
               /\ heap w' !! a = Some (Conn.set_in_use true c).
Proof.
  revert w'. induction fuel as [|fuel IH]; intros w'; simpl; unfold Pool.poll;
    destruct (Pool.first_idle (heap w) (_pool w)) as [[b c]|] eqn:Hfirst;
    try discriminate; try (apply IH).
  all: intros [= <- <-];
    destruct (first_idle_found _ _ _ _ Hfirst) as (Hb & Hc & Hidle);
    split; [exact Hb|]; split; [reflexivity|];
    exists c; repeat split; auto;
    cbn [Pool.set_lock Pool.update Pool.set_heap heap];
    now rewrite list_lookup_alter_eq, Hc.
Qed.

(** ** [close] *)

Lemma disconnect_twice (c : Connection) :
  Conn.disconnect (Conn.disconnect c) = Conn.disconnect c.
Proof. destruct c as [[cl|] u t]; reflexivity. Qed.

Lemma disconnect_not_connected (c : Connection) :
  Conn.is_connected (Conn.disconnect c) = false.
Proof. destruct c as [[cl|] u t]; reflexivity. Qed.

Lemma disconnect_all_fields (ms : list nat) (w : World) :
  let w' := fold_left (fun w0 a => Pool.update a Conn.disconnect w0) ms w in
  _pool w' = _pool w /\ pool_size w' = pool_size w /\
  pool_recycle w' = pool_recycle w /\ _lock w' = _lock w /\ wire w' = wire w /\
  length (heap w') = length (heap w).
Proof.
  revert w. induction ms as [|a ms IH]; intros w; cbn [fold_left].
  - repeat split.
  - destruct (IH (Pool.update a Conn.disconnect w)) as (-> & -> & -> & -> & -> & ->).
    cbn. rewrite length_alter. repeat split.
Qed.

Lemma disconnect_all_lookup (ms : list nat) (w : World) (b : nat) (c : Connection) :
  heap w !! b = Some c ->
  heap (fold_left (fun w0 a => Pool.update a Conn.disconnect w0) ms w) !! b
  = Some (if decide (b ∈ ms) then Conn.disconnect c else c).
Proof.
  revert w c. induction ms as [|a ms IH]; intros w c Hc; cbn [fold_left].
  - rewrite decide_False by apply not_elem_of_nil. exact Hc.
  - destruct (decide (a = b)) as [->|Hne].
    + rewrite (IH _ (Conn.disconnect c))
        by (cbn; now rewrite list_lookup_alter_eq, Hc).
      rewrite (decide_True (P := b ∈ b :: ms)) by apply list_elem_of_here.
      destruct (decide (b ∈ ms)); [apply f_equal, disconnect_twice | reflexivity].
    + rewrite (IH _ c) by (cbn; now rewrite list_lookup_alter_ne).
      destruct (decide (b ∈ ms)) as [Hin|Hnin].
      * rewrite decide_True by (now apply list_elem_of_further). reflexivity.
      * rewrite decide_False; [reflexivity|].
        intros Hin. apply elem_of_cons in Hin as [Heq|Hin]; congruence.
Qed.

(** X3.  [close], when nobody holds the lock, empties the member list and
    discards the session of every member and of no other object; the [in_use]
    flag and [last_used] of the connections stay as they were, so a
    connection a caller still holds is left disconnected but marked.  Closing
    again changes nothing, and the next [get_connection] (there being room)
    creates a connection rather than reusing one. *)
Theorem close_disconnects_every_member (w : World) :
  _lock w = false ->
  let w' := fst (Pool.close w) in
  snd (Pool.close w) = Done (Ok tt)
  /\ _pool w' = []
  /\ (forall a c, heap w !! a = Some c ->
        heap w' !! a = Some (if decide (a ∈ _pool w) then Conn.disconnect c else c))
  /\ (forall a c, a ∈ _pool w -> heap w !! a = Some c ->
        exists c', heap w' !! a = Some c'
                   /\ Conn.is_connected c' = false
                   /\ Conn.is_in_use c' = Conn.is_in_use c
                   /\ Conn.last_used c' = Conn.last_used c)
  /\ Pool.close w' = (w', Done (Ok tt))
  /\ (forall fuel now, 0 < pool_size w ->
        snd (Pool.get_connection fuel now None w') = Done (Ok (length (heap w)))).
Proof.
  intros Hlock w'. subst w'. unfold Pool.close. rewrite Hlock. cbn [fst snd].
  destruct (disconnect_all_fields (_pool w) w) as (Hp & Hs & Hr & Hl & Hw & Hlen).
  split; [reflexivity|]. split; [reflexivity|].
  split; [intros a c Hc; now apply disconnect_all_lookup|].
  split.
  { intros a c Ha Hc. exists (Conn.disconnect c).
    cbn [Pool.set_members heap]. rewrite (disconnect_all_lookup _ _ _ _ Hc).
    rewrite decide_True by exact Ha.
    split; [reflexivity|]. split; [apply disconnect_not_connected|].
    split; [apply disconnect_in_use | apply disconnect_last_used]. }
  split.
  { cbn [Pool.set_members _lock _pool fold_left]. rewrite Hl, Hlock.
    reflexivity. }
  intros fuel now Hsize. unfold Pool.get_connection, Pool.grow_or_wait.
  cbn [Pool.set_members _lock _pool heap pool_size Pool.first_idle length].
  rewrite Hl, Hlock, Hs.
  destruct (Z.ltb_spec (Z.of_nat 0) (pool_size w)) as [_|Hbad]; [|cbn in Hbad; lia].
  cbn [Conn.connect snd Pool.send Pool.set_heap Pool.set_members heap].
  now rewrite Hlen.
Qed.

Lemma close_disconnects_every_member_witness :
  _lock Sample.two_idle = false
  /\ _pool (fst (Pool.close Sample.two_idle)) = []
  /\ snd (Pool.get_connection 0 6000 None (fst (Pool.close Sample.two_idle)))
     = Done (Ok (length (heap Sample.two_idle))).
Proof.
  assert (Hlock : _lock Sample.two_idle = false) by reflexivity.
  pose proof (close_disconnects_every_member Sample.two_idle Hlock)
    as (_ & Hempty & _ & _ & _ & Hnext).
  split; [exact Hlock|]. split; [exact Hempty|].
  apply Hnext. vm_compute. reflexivity.
Defined.

(** ** A pass through the pool, whatever its outcome *)

Section AnyPass.

Context {A : Type}.
Variables (fuel : nat) (E : Env) (m : Connection -> Conn.effect A).

(** Using the member at [a] and releasing it: the pool is ready, the method
    ran on the object as it was, and the only object that changed is the one
    at [a], which ends up idle. *)
Lemma use_and_release (a : nat) (c1 : Connection) (w1 : World) :
  _lock w1 = false ->
  State.members_allocated w1 ->
  Z.of_nat (length (_pool w1)) <= pool_size w1 ->
  a ∈ _pool w1 ->
  heap w1 !! a = Some c1 ->
  let w2 := Pool.release a (fst (Pool.on_connection a m w1)) in
  State.ready w2
  /\ snd (Pool.on_connection a m w1) = Conn.outcome_of (m c1)
  /\ _pool w2 = _pool w1
  /\ heap w2 !! a = Some (Conn.set_in_use false (Conn.state_of (m c1)))
  /\ (forall b, b <> a -> heap w2 !! b = heap w1 !! b).
Proof.
  intros Hlock Halloc Hcap Ha Hc1 w2.
  destruct (use_and_release_ready m a c1 w1 Hlock Halloc Hcap Ha Hc1)
    as [Hready Hout].
  split; [exact Hready|]. split; [exact Hout|].
  subst w2. unfold Pool.on_connection. rewrite Hc1.
  destruct (m c1) as [[c' sent] r].
  cbn [fst Pool.release Pool.update Pool.send Pool.set_heap heap _pool
       Conn.state_of].
  split; [reflexivity|]. split.
  - rewrite !list_lookup_alter_eq, Hc1. reflexivity.
  - intros b Hb. rewrite !list_lookup_alter_ne by congruence. reflexivity.
Qed.

(** On a pool that is ready the pass comes back, leaves the pool ready, and
    leaves no member checked out that was not checked out before. *)
Lemma with_connection_returns (w : World) :
  State.ready w ->
  exists w' r,
    Pool.with_connection fuel E m w = (w', Done r)
    /\ State.ready w'
    /\ (forall b cb', b ∈ _pool w' -> heap w' !! b = Some cb' ->
          Conn.is_in_use cb' = true ->
          b ∈ _pool w /\ exists cb, heap w !! b = Some cb
                                    /\ Conn.is_in_use cb = true)
    /\ ((exists e, probe E = Some e /\ r = Raise e)
        \/ (exists c, r = Conn.outcome_of (m c))).
Proof.
  intros (Hlock & Halloc & Hcap & Hfree).
  assert (Hgrow : forall w0,
    _lock w0 = false -> State.members_allocated w0 ->
    Z.of_nat (length (_pool w0)) < pool_size w0 ->
    exists w' r,
      match Pool.grow_or_wait fuel (probe E) w0 with
      | (w1, Done (Ok a)) =>
          let '(w2, r) := Pool.on_connection a m w1 in
          (Pool.release a w2, Done r)
      | (w1, Done (Raise e0)) => (w1, Done (Raise e0))
      | (w1, Waiting) => (w1, Waiting)
      end = (w', Done r)
      /\ State.ready w'
      /\ (forall b cb', b ∈ _pool w' -> heap w' !! b = Some cb' ->
            Conn.is_in_use cb' = true ->
            b ∈ _pool w0 /\ heap w0 !! b = Some cb')
      /\ ((exists e, probe E = Some e /\ r = Raise e)
          \/ (exists c, r = Conn.outcome_of (m c)))).
  { intros w0 Hl0 Ha0 Hroom. unfold Pool.grow_or_wait.
    destruct (Z.ltb_spec (Z.of_nat (length (_pool w0))) (pool_size w0)); [|lia].
    destruct (probe E) as [e|] eqn:Hpr; cbn [Conn.connect].
    - exists (Pool.send [probe_call] w0), (Raise e).
      split; [reflexivity|]. split; [|split; [intros b cb' Hb Hcb _; auto|]].
      + repeat split; auto. cbn. lia.
      + left. eauto.
    - set (c0 := Conn.set_in_use true (Conn.set_client (Some TheSyncClient) Conn.init)).
      set (w1 := Pool.set_members _ _).
      destruct (use_and_release (length (heap w0)) c0 w1)
        as (Hready & Hout & Hpool & Hcell & Hother).
      + exact Hl0.
      + intros b Hb. subst w1. cbn in Hb |- *. rewrite length_app. cbn.
        apply elem_of_app in Hb as [Hb|Hb].
        * specialize (Ha0 b Hb). lia.
        * apply list_elem_of_singleton in Hb. lia.
      + subst w1. cbn. rewrite length_app. cbn. lia.
      + subst w1. cbn. apply elem_of_app. right. apply list_elem_of_here.
      + subst w1. cbn. apply list_lookup_middle. reflexivity.
      + destruct (Pool.on_connection (length (heap w0)) m w1) as [w2 r].
        cbn [fst snd] in *.
        exists (Pool.release (length (heap w0)) w2), r.
        split; [reflexivity|]. split; [exact Hready|].
        split; [|right; exists c0; exact Hout].
        intros b cb' Hb Hcb Hbusy.
        destruct (decide (b = length (heap w0))) as [->|Hne].
        * rewrite Hcell in Hcb. injection Hcb as <-. discriminate Hbusy.
        * rewrite Hother in Hcb by exact Hne. rewrite Hpool in Hb.
          subst w1. cbn in Hb, Hcb.
          apply elem_of_app in Hb as [Hb|Hb];
            [|apply list_elem_of_singleton in Hb; congruence].
          split; [exact Hb|]. specialize (Ha0 b Hb).
          now rewrite lookup_app_l in Hcb. }
  unfold Pool.with_connection, Pool.get_connection. rewrite Hlock.
  destruct (Pool.first_idle (heap w) (_pool w)) as [[a c]|] eqn:Hfirst.
  - destruct (first_idle_found _ _ _ _ Hfirst) as (Ha & Hc & Hidle).
    destruct (clock_scan E - Conn.last_used c >? pool_recycle w).
    + destruct (Hgrow (Pool.set_members (Pool.remove_first a
                         (_pool (Pool.update a Conn.disconnect w)))
                         (Pool.update a Conn.disconnect w)))
        as (w' & r & Hrun & Hready & Hbusy & Horigin).
      * exact Hlock.
      * intros b Hb. cbn in Hb |- *. rewrite length_alter.
        apply Halloc. eapply remove_first_subset, Hb.
      * cbn. pose proof (remove_first_length a (_pool w) Ha). lia.
      * exists w', r. split; [exact Hrun|]. split; [exact Hready|].
        split; [|exact Horigin].
        intros b cb' Hb Hcb Hu. destruct (Hbusy b cb' Hb Hcb Hu) as [Hb0 Hcb0].
        cbn in Hb0, Hcb0.
        split; [eapply remove_first_subset, Hb0|].
        destruct (decide (a = b)) as [->|Hne].
        -- rewrite list_lookup_alter_eq, Hc in Hcb0. injection Hcb0 as <-.
           rewrite disconnect_in_use in Hu. congruence.
        -- rewrite list_lookup_alter_ne in Hcb0 by exact Hne. eauto.
    + set (w1 := Pool.update a (Conn.set_in_use true) w).
      destruct (use_and_release a (Conn.set_in_use true c) w1)
        as (Hready & Hout & Hpool & Hcell & Hother); try assumption.
      * intros b Hb. subst w1. cbn in Hb |- *. rewrite length_alter. now apply Halloc.
      * subst w1. cbn. now rewrite list_lookup_alter_eq, Hc.
      * destruct (Pool.on_connection a m w1) as [w2 r]. cbn [fst snd] in *.
        exists (Pool.release a w2), r.
        split; [reflexivity|]. split; [exact Hready|].
        split; [|right; exists (Conn.set_in_use true c); exact Hout].
        intros b cb' Hb Hcb Hu.
        destruct (decide (b = a)) as [->|Hne].
        -- rewrite Hcell in Hcb. injection Hcb as <-. discriminate Hu.
        -- rewrite Hother in Hcb by exact Hne. rewrite Hpool in Hb.
           subst w1. cbn in Hb, Hcb.
           rewrite list_lookup_alter_ne in Hcb by congruence.
           split; [exact Hb | eauto].
  - destruct (Hgrow w) as (w' & r & Hrun & Hready & Hbusy & Horigin); auto.
    + destruct Hfree as [Hfree|Hfree]; [congruence | exact Hfree].
    + exists w', r. split; [exact Hrun|]. split; [exact Hready|].
      split; [|exact Horigin].
      intros b cb' Hb Hcb Hu. destruct (Hbusy b cb' Hb Hcb Hu). eauto.
Qed.

End AnyPass.

(** X4.  On a pool that is ready (nobody polling, a member idle or room for
    one more) the pool's [execute] and [execute_with_format] come back at
    once, whatever the backend does; afterwards the pool is ready again and
    every member that is checked out was checked out before: the connection
    the call used is released on success and on failure alike. *)
Theorem pool_execute_returns_and_releases (fuel : nat) (E : Env) (q : string)
    (ps : params) (wct : bool) (qid : option string) (st : option pydict)
    (f : ResultFormat) (w : World) :
  State.ready w ->
  (exists w' r,
     Pool.execute fuel E q ps wct qid st w = (w', Done r)
     /\ State.ready w'
     /\ (forall b cb', b ∈ _pool w' -> heap w' !! b = Some cb' ->
           Conn.is_in_use cb' = true ->
           b ∈ _pool w /\ exists cb, heap w !! b = Some cb
                                     /\ Conn.is_in_use cb = true))
  /\ (exists w' r,
     Pool.execute_with_format fuel E q f ps qid st w = (w', Done r)
     /\ State.ready w'
     /\ (forall b cb', b ∈ _pool w' -> heap w' !! b = Some cb' ->
           Conn.is_in_use cb' = true ->
           b ∈ _pool w /\ exists cb, heap w !! b = Some cb
                                     /\ Conn.is_in_use cb = true)).
Proof.
  intros Hready. split.
  - destruct (with_connection_returns fuel E
                (Conn.execute (probe E) (answer E) (clock_done E) q ps wct qid st)
                w Hready) as (w' & r & H1 & H2 & H3 & _).
    exists w', r. auto.
  - destruct (with_connection_returns fuel E
                (Conn.execute_with_format (probe E) (answer E) (clock_done E) q f
                   ps qid st) w Hready) as (w' & r & H1 & H2 & H3 & _).
    exists w', r. auto.
Qed.

Lemma pool_execute_returns_and_releases_witness :
  State.ready (Pool.init 1 3600)
  /\ exists w' r,
       Pool.execute 0 (Sample.env Sample.rejecting 100) "SELEC 1" NoParams
                    false None None (Pool.init 1 3600) = (w', Done r)
       /\ State.ready w'.
Proof.
  assert (Hready : State.ready (Pool.init 1 3600)) by (apply new_pool_ready; lia).
  split; [exact Hready|].
  destruct (proj1 (pool_execute_returns_and_releases 0
                     (Sample.env Sample.rejecting 100) "SELEC 1" NoParams false
                     None None JSON (Pool.init 1 3600) Hready))
    as (w' & r & Hrun & Hr & _).
  exists w', r. split; assumption.
Defined.

(** ** The retry loop, whatever the decorated function does *)

(** X5.  A call of a function decorated with this [@retry] makes at least
    one and at most three attempts; it sleeps between attempts only, for
    [wait 1] = 1 second after the first and [wait 2] = 2 seconds after the
    second, so for 3 seconds at most; and the exception it ends with, if any,
    is never an instance of [ClickHouseError]: a driver error is retried and
    ends as tenacity's [RetryError]. *)
Theorem retry_makes_at_most_three_attempts {A : Type}
    (body : nat -> World -> World * progress A) (w : World) :
  let s := snd (Retry.call body w) in
  let r := snd (fst (Retry.call body w)) in
  (1 <= Retry.attempt_number s <= 3)%nat
  /\ Retry.sleeps s = map Retry.wait (seq 1 (Retry.attempt_number s - 1))
  /\ Forall (fun d => 1 <= d <= 10) (Retry.sleeps s)
  /\ Fixture.total (Retry.sleeps s) <= 3
  /\ (forall e, r = Done (Raise e) -> is_ClickHouseError e = false).
Proof.
  assert (Hw1 : Retry.wait 1 = 1) by reflexivity.
  assert (Hw2 : Retry.wait 2 = 2) by reflexivity.
  assert (Hdone : forall (w' : World) (p : progress A) (n : nat),
            (1 <= n <= 3)%nat ->
            (forall e, p = Done (Raise e) -> is_ClickHouseError e = false) ->
            let x := (w', p, Retry.mkStatistics n
                                (map Retry.wait (seq 1 (n - 1)))) in
            (1 <= Retry.attempt_number (snd x) <= 3)%nat
            /\ Retry.sleeps (snd x)
               = map Retry.wait (seq 1 (Retry.attempt_number (snd x) - 1))
            /\ Forall (fun d => 1 <= d <= 10) (Retry.sleeps (snd x))
            /\ Fixture.total (Retry.sleeps (snd x)) <= 3
            /\ (forall e, snd (fst x) = Done (Raise e) ->
                  is_ClickHouseError e = false)).
  { intros w' p n Hn Hp x. subst x. cbn [fst snd Retry.attempt_number Retry.sleeps].
    split; [exact Hn|]. split; [reflexivity|].
    destruct n as [|[|[|[|n]]]]; try lia; cbn [Nat.sub seq map];
      rewrite ?Hw1, ?Hw2; (split; [repeat constructor; lia|]);
      (split; [cbn; lia | exact Hp]). }
  unfold Retry.call, Retry.max_attempt_number. cbn [Retry.attempts].
  unfold Retry.retry_if_exception_type.
  destruct (body 1%nat w) as [w1 [[v1|e1]|]].
  1,3: apply (Hdone _ _ 1%nat); [lia | intros; congruence].
  destruct (is_ClickHouseError e1) eqn:H1; cbn [negb].
  2: { apply (Hdone _ _ 1%nat); [lia | intros e [= <-]; exact H1]. }
  cbn [Retry.stop_after_attempt Retry.max_attempt_number Nat.leb app].
  destruct (body 2%nat w1) as [w2 [[v2|e2]|]].
  1,3: apply (Hdone _ _ 2%nat); [lia | intros; congruence].
  destruct (is_ClickHouseError e2) eqn:H2; cbn [negb].
  2: { apply (Hdone _ _ 2%nat); [lia | intros e [= <-]; exact H2]. }
  cbn [Retry.stop_after_attempt Retry.max_attempt_number Nat.leb app].
  destruct (body 3%nat w2) as [w3 [[v3|e3]|]].
  1,3: apply (Hdone _ _ 3%nat); [lia | intros; congruence].
  destruct (is_ClickHouseError e3) eqn:H3; cbn [negb].
  - apply (Hdone _ _ 3%nat); [lia | intros e [= <-]; reflexivity].
  - apply (Hdone _ _ 3%nat); [lia | intros e [= <-]; exact H3].
Qed.

Lemma call_first_attempt_returns {A : Type}
    (body : nat -> World -> World * progress A) (w w1 : World) (v : A) :
  body 1%nat w = (w1, Done (Ok v)) ->
  Retry.call body w = (w1, Done (Ok v), Retry.mkStatistics 1 []).
Proof.
  intros H. unfold Retry.call, Retry.max_attempt_number.
  cbn [Retry.attempts]. now rewrite H.
Qed.

(** X6.  The loop stops at the first attempt that returns: a result at the
    first attempt is returned after one attempt and no sleep; a result after
    one or two failures of class [ClickHouseError] is returned after two or
    three attempts, and the earlier failures are not seen by the caller. *)
Theorem retry_returns_first_success {A : Type}
    (body : nat -> World -> World * progress A) (w w1 w2 w3 : World)
    (e1 e2 : exn) (v : A) :
  (body 1%nat w = (w1, Done (Ok v)) ->
     Retry.call body w = (w1, Done (Ok v), Retry.mkStatistics 1 []))
  /\ (body 1%nat w = (w1, Done (Raise e1)) -> is_ClickHouseError e1 = true ->
      body 2%nat w1 = (w2, Done (Ok v)) ->
      Retry.call body w = (w2, Done (Ok v), Retry.mkStatistics 2 [1]))
  /\ (body 1%nat w = (w1, Done (Raise e1)) -> is_ClickHouseError e1 = true ->
      body 2%nat w1 = (w2, Done (Raise e2)) -> is_ClickHouseError e2 = true ->
      body 3%nat w2 = (w3, Done (Ok v)) ->
      Retry.call body w = (w3, Done (Ok v), Retry.mkStatistics 3 [1; 2])).
Proof.
  unfold Retry.call, Retry.max_attempt_number. cbn [Retry.attempts].
  unfold Retry.retry_if_exception_type.
  split; [|split].
  - intros ->. reflexivity.
  - intros -> -> . cbn [negb Retry.stop_after_attempt Retry.max_attempt_number
                        Nat.leb app]. intros ->. reflexivity.
  - intros -> ->. cbn [negb Retry.stop_after_attempt Retry.max_attempt_number
                       Nat.leb app]. intros -> ->.
    cbn [negb Retry.stop_after_attempt Retry.max_attempt_number Nat.leb app].
    intros ->. reflexivity.
Qed.

Lemma retry_returns_first_success_witness :
  let body := fun n w' =>
    Pool.execute 0 (Fixture.flaky 1 n) "SELECT 1" NoParams false None
                 (Some (Client.with_timeout Sample.client None)) w' in
  let w := Pool.init 1 3600 in
  let w1 := fst (body 1%nat w) in
  let w2 := fst (body 2%nat w1) in
  body 1%nat w = (w1, Done (Raise Sample.syntax_error))
  /\ is_ClickHouseError Sample.syntax_error = true
  /\ body 2%nat w1 = (w2, Done (Ok (Rows [[PInt 1]])))
  /\ Client.execute 0 Sample.client (Fixture.flaky 1) "SELECT 1" NoParams false
                    None None w
     = (w2, Done (Ok (Rows [[PInt 1]])), Retry.mkStatistics 2 [1]).
Proof.
  intros body w w1 w2.
  assert (H1 : body 1%nat w = (w1, Done (Raise Sample.syntax_error)))
    by (vm_compute; reflexivity).
  assert (H2 : is_ClickHouseError Sample.syntax_error = true) by reflexivity.
  assert (H3 : body 2%nat w1 = (w2, Done (Ok (Rows [[PInt 1]]))))
    by (vm_compute; reflexivity).
  split; [exact H1|]. split; [exact H2|]. split; [exact H3|].
  exact (proj1 (proj2 (retry_returns_first_success body w w1 w2 w2
                         Sample.syntax_error Sample.syntax_error
                         (Rows [[PInt 1]]))) H1 H2 H3).
Defined.

(** ** What reaches the driver *)

Lemma execute_outcome_link_up (drv : driver) (now : Z) (q : string)
    (ps : params) (wct : bool) (qid : option string) (st : option pydict)
    (c : Connection) :
  Conn.outcome_of (Conn.execute None drv now q ps wct qid st c)
  = drv (mkCall q ps wct qid st).
Proof.
  unfold Conn.execute, Conn.connect, Conn.guarded_call.
  destruct (Conn.is_connected c);
    destruct (drv (mkCall q ps wct qid st)); reflexivity.
Qed.

Lemma execute_with_format_outcome_link_up (drv : driver) (now : Z)
    (q : string) (f : ResultFormat) (ps : params) (qid : option string)
    (st : option pydict) (c : Connection) :
  Conn.outcome_of (Conn.execute_with_format None drv now q f ps qid st c)
  = drv (mkCall (Conn.with_format_clause q f) ps false qid st).
Proof.
  unfold Conn.execute_with_format, Conn.connect, Conn.guarded_call.
  destruct (Conn.is_connected c);
    destruct (drv (mkCall (Conn.with_format_clause q f) ps false qid st));
    reflexivity.
Qed.

(** X7.  With the link up and the pool ready, what the pool's [execute]
    returns or raises is what the driver answers to the caller's query,
    parameters and settings, unchanged; [execute_with_format] asks the driver
    for the query with the format clause and without column types; and the
    client's [execute] hands the driver the caller's settings with the timeout
    added, and returns the driver's result after a single attempt. *)
Theorem query_reaches_driver_unchanged (fuel : nat) (cl : ClickHouseClient)
    (envs : nat -> Env) (E : Env) (q : string) (ps : params) (wct : bool)
    (qid : option string) (st : option pydict) (f : ResultFormat) (w : World) :
  State.ready w ->
  (probe E = None ->
     (exists w', Pool.execute fuel E q ps wct qid st w
                 = (w', Done (answer E (mkCall q ps wct qid st))))
     /\ (exists w', Pool.execute_with_format fuel E q f ps qid st w
                 = (w', Done (answer E
                      (mkCall (Conn.with_format_clause q f) ps false qid st)))))
  /\ (forall v, probe (envs 1%nat) = None ->
        answer (envs 1%nat)
          (mkCall q ps wct qid (Some (Client.with_timeout cl st))) = Ok v ->
        exists w', Client.execute fuel cl envs q ps wct qid st w
                   = (w', Done (Ok v), Retry.mkStatistics 1 [])).
Proof.
  intros Hready.
  assert (Hpass : forall E0 st0, probe E0 = None ->
            exists w', Pool.execute fuel E0 q ps wct qid st0 w
                       = (w', Done (answer E0 (mkCall q ps wct qid st0)))).
  { intros E0 st0 Hpr.
    destruct (with_connection_returns fuel E0
                (Conn.execute (probe E0) (answer E0) (clock_done E0) q ps wct
                              qid st0) w Hready)
      as (w' & r & Hrun & _ & _ & [(e & He & _) | (c & Hc)]); [congruence|].
    exists w'. unfold Pool.execute. rewrite Hrun, Hc, Hpr.
    now rewrite execute_outcome_link_up. }
  split.
  - intros Hpr. split; [now apply Hpass|].
    destruct (with_connection_returns fuel E
                (Conn.execute_with_format (probe E) (answer E) (clock_done E) q
                   f ps qid st) w Hready)
      as (w' & r & Hrun & _ & _ & [(e & He & _) | (c & Hc)]); [congruence|].
    exists w'. unfold Pool.execute_with_format. rewrite Hrun, Hc, Hpr.
    now rewrite execute_with_format_outcome_link_up.
  - intros v Hpr Hans.
    destruct (Hpass (envs 1%nat) (Some (Client.with_timeout cl st)) Hpr)
      as (w' & Hrun).
    exists w'. unfold Client.execute.
    apply call_first_attempt_returns.
    now rewrite Hrun, Hans.
Qed.

Lemma query_reaches_driver_unchanged_witness :
  State.ready (Pool.init 1 3600)
  /\ probe (Sample.envs Sample.one_row 1%nat) = None
  /\ exists w',
       Client.execute 0 Sample.client (Sample.envs Sample.one_row) "SELECT 1"
                      NoParams false None None (Pool.init 1 3600)
       = (w', Done (Ok (Rows [[PInt 1]])), Retry.mkStatistics 1 []).
Proof.
  assert (Hready : State.ready (Pool.init 1 3600)) by (apply new_pool_ready; lia).
  split; [exact Hready|]. split; [reflexivity|].
  exact (proj2 (query_reaches_driver_unchanged 0 Sample.client
                  (Sample.envs Sample.one_row) (Sample.env Sample.one_row 0)
                  "SELECT 1" NoParams false None None JSON (Pool.init 1 3600)
                  Hready)
               (Rows [[PInt 1]]) eq_refl eq_refl).
Defined.

(** ** Settings *)

Section DictFacts.

Implicit Types (d : pydict) (k : string) (v : pyval).

Lemma dict_get_set_same d k v : Dict.get (Dict.set k v d) k = v.
Proof.
  induction d as [|[k' v'] d IH]; simpl.
  - now rewrite String.eqb_refl.
  - destruct (String.eqb k' k) eqn:Hk; simpl; rewrite Hk; [reflexivity | exact IH].
Qed.

Lemma dict_get_set_other d k k' v :
  k' <> k -> Dict.get (Dict.set k v d) k' = Dict.get d k'.
Proof.
  intros Hne. induction d as [|[k0 v0] d IH]; simpl.
  - destruct (String.eqb_spec k k'); [congruence | reflexivity].
  - destruct (String.eqb_spec k0 k) as [->|Hk]; simpl.
    + destruct (String.eqb_spec k k'); [congruence | reflexivity].
    + destruct (String.eqb k0 k'); [reflexivity | exact IH].
Qed.

Lemma dict_mem_set d k v : Dict.mem k (Dict.set k v d) = true.
Proof.
  induction d as [|[k' v'] d IH]; simpl.
  - now rewrite String.eqb_refl.
  - destruct (String.eqb k' k) eqn:Hk; simpl; rewrite Hk; [reflexivity | exact IH].
Qed.

Lemma dict_keys_set_new d k v :
  Dict.mem k d = false -> Dict.set k v d = d ++ [(k, v)].
Proof.
  induction d as [|[k' v'] d IH]; simpl; [reflexivity|].
  destruct (String.eqb k' k); simpl; [discriminate|].
  intros H. now rewrite IH.
Qed.

End DictFacts.

Lemma with_timeout_has_key (cl : ClickHouseClient) (settings : option pydict) :
  Dict.mem "max_execution_time" (Client.with_timeout cl settings) = true.
Proof.
  unfold Client.with_timeout.
  destruct (Dict.mem "max_execution_time"
              match settings with Some st => st | None => [] end) eqn:Hmem;
    [exact Hmem | apply dict_mem_set].
Qed.

(** X8.  The settings a query is run with always carry
    [max_execution_time].  A value the caller gave under that key is kept,
    whatever it is, and then the settings are the caller's, unchanged;
    otherwise the client's [query_timeout] is added as the last key.  No other
    key is added, dropped or changed, and applying the rule twice is applying
    it once. *)
Theorem timeout_added_unless_given (cl : ClickHouseClient)
    (settings : option pydict) :
  let given := match settings with Some st => st | None => [] end in
  let used := Client.with_timeout cl settings in
  Dict.mem "max_execution_time" used = true
  /\ (Dict.mem "max_execution_time" given = true -> used = given)
  /\ (Dict.mem "max_execution_time" given = false ->
      used = given ++ [("max_execution_time"%string, PInt (query_timeout cl))]
      /\ Dict.get used "max_execution_time" = PInt (query_timeout cl))
  /\ (forall k, k <> "max_execution_time"%string ->
        Dict.get used k = Dict.get given k)
  /\ Client.with_timeout cl (Some used) = used.
Proof.
  intros given used. subst used. unfold Client.with_timeout. fold given.
  destruct (Dict.mem "max_execution_time" given) eqn:Hmem.
  - repeat split; auto; try discriminate. now rewrite Hmem.
  - split; [apply dict_mem_set|]. split; [discriminate|].
    split; [intros _; split; [now apply dict_keys_set_new | apply dict_get_set_same]|].
    split; [intros k Hk; now apply dict_get_set_other|].
    now rewrite dict_mem_set.
Qed.

(** ** The lazy connect and the calls of one [execute] *)

(** X9.  [execute] and [execute_with_format] connect only when there is no
    session.  On a connected connection the query is the only call sent.
    Without a session the probe [SELECT 1] goes first: if it succeeds the
    query follows and the connection stays connected; if it fails the query
    is never sent, the probe's exception is what the caller gets, and the
    connection is left without a session, its [last_used] untouched. *)
Theorem execute_connects_lazily (pr : option exn) (drv : driver) (now : Z)
    (q : string) (ps : params) (wct : bool) (qid : option string)
    (st : option pydict) (f : ResultFormat) (c : Connection) :
  let x := Conn.execute pr drv now q ps wct qid st c in
  let y := Conn.execute_with_format pr drv now q f ps qid st c in
  let call := mkCall q ps wct qid st in
  let fcall := mkCall (Conn.with_format_clause q f) ps false qid st in
  (Conn.is_connected c = true ->
     Conn.sent_of x = [call] /\ Conn.sent_of y = [fcall]
     /\ Conn.outcome_of x = drv call /\ Conn.outcome_of y = drv fcall
     /\ Conn.is_connected (Conn.state_of x) = true
     /\ Conn.is_connected (Conn.state_of y) = true)
  /\ (Conn.is_connected c = false -> pr = None ->
     Conn.sent_of x = [probe_call; call] /\ Conn.sent_of y = [probe_call; fcall]
     /\ Conn.outcome_of x = drv call /\ Conn.outcome_of y = drv fcall
     /\ Conn.is_connected (Conn.state_of x) = true
     /\ Conn.is_connected (Conn.state_of y) = true)
  /\ (forall e, Conn.is_connected c = false -> pr = Some e ->
     Conn.sent_of x = [probe_call] /\ Conn.sent_of y = [probe_call]
     /\ Conn.outcome_of x = Raise e /\ Conn.outcome_of y = Raise e
     /\ Conn.state_of x = Conn.set_client None c
     /\ Conn.state_of y = Conn.set_client None c).
Proof.
  intros x y call fcall. subst x y.
  unfold Conn.execute, Conn.execute_with_format, Conn.connect, Conn.guarded_call.
  fold call fcall.
  split; [|split].
  - intros Hc. rewrite Hc.
    destruct (drv call), (drv fcall); repeat split; exact Hc.
  - intros -> ->. destruct (drv call), (drv fcall); repeat split.
  - intros e -> ->. repeat split.
Qed.

Lemma execute_connects_lazily_witness :
  Conn.is_connected Conn.init = false
  /\ Conn.sent_of (Conn.execute (Some Sample.refused) Sample.one_row 5
                     "SELECT 1" NoParams false None None Conn.init)
     = [probe_call]
  /\ Conn.outcome_of (Conn.execute (Some Sample.refused) Sample.one_row 5
                        "SELECT 1" NoParams false None None Conn.init)
     = Raise Sample.refused.
Proof.
  split; [reflexivity|].
  pose proof (proj2 (proj2 (execute_connects_lazily (Some Sample.refused)
                Sample.one_row 5 "SELECT 1" NoParams false None None JSON
                Conn.init)) Sample.refused eq_refl eq_refl)
    as (H1 & _ & H3 & _).
  split; assumption.
Defined.

(** ** The rows of [execute_iter] *)

(** X10.  The rows the generator yields are an initial part of what the
    driver delivers, in the driver's order.  It ends exhausted only when the
    driver's stream ended without error, and then every row was yielded; a
    consumer that closes after [n] rows the stream still had gets exactly the
    first [n]; an exception from the driver comes out after the rows that
    preceded it; and a generator closed before its first row connects to
    nothing and sends nothing. *)
Theorem execute_iter_yields_prefix (pr : option exn) (src : Conn.stream)
    (now : Z) (q : string) (ps : params) (qid : option string)
    (st : option pydict) (who : Conn.consumer) (c : Connection) :
  let x := Conn.execute_iter pr src now q ps qid st who c in
  let yielded := snd (fst x) in
  yielded `prefix_of` fst src
  /\ (Conn.iter_end_of x = Conn.Exhausted ->
      yielded = fst src /\ snd src = None)
  /\ (forall n, who = Conn.CloseAfter n -> (n <= length (fst src))%nat ->
      Conn.is_connected c = true \/ pr = None \/ n = 0%nat ->
      Conn.iter_end_of x = Conn.Closed /\ yielded = take n (fst src))
  /\ (forall e, Conn.iter_end_of x = Conn.Failed e ->
      (yielded = [] /\ pr = Some e /\ Conn.is_connected c = false)
      \/ (yielded = fst src /\ snd src = Some e))
  /\ (who = Conn.CloseAfter 0 -> x = (c, [], [], Conn.Closed)).
Proof.
  intros x yielded. subst yielded x.
  unfold Conn.execute_iter, Conn.connect, Conn.iter_end_of.
  destruct src as [rows ending]. cbn [fst snd].
  destruct who as [|[|n]];
    [destruct (Conn.is_connected c) eqn:Hc; [|destruct pr as [e0|]]
    |
    |destruct (Conn.is_connected c) eqn:Hc; [|destruct pr as [e0|]]];
    cbv zeta; cbn [fst snd];
    try (destruct (Nat.leb_spec (S n) (length rows)) as [Hle|Hgt]);
    cbn [fst snd]; try destruct ending as [e1|]; cbn [fst snd];
    repeat split; intros;
    repeat match goal with
           | H : Conn.CloseAfter _ = Conn.CloseAfter _ |- _ =>
               injection H as H; subst
           | H : Conn.Failed _ = Conn.Failed _ |- _ =>
               injection H as H; subst
           | H : _ \/ _ |- _ => destruct H
           end;
    try discriminate; try congruence; try reflexivity; try lia;
    try (apply prefix_nil); try (apply prefix_take);
    try (left; repeat split; congruence);
    try (right; repeat split; congruence).
Qed.

Lemma execute_iter_yields_prefix_witness :
  let rows := [[PInt 1]; [PInt 2]; [PInt 3]] in
  let x := Conn.execute_iter None (rows, None) 9 "SELECT n FROM t" NoParams
             None None (Conn.CloseAfter 2) Conn.init in
  (2 <= length rows)%nat
  /\ Conn.iter_end_of x = Conn.Closed
  /\ snd (fst x) = [[PInt 1]; [PInt 2]].
Proof.
  intros rows x.
  assert (Hlen : (2 <= length rows)%nat) by (cbn; lia).
  split; [exact Hlen|].
  exact (proj1 (proj2 (proj2 (execute_iter_yields_prefix None (rows, None) 9
                  "SELECT n FROM t" NoParams None None (Conn.CloseAfter 2)
                  Conn.init)))
               2%nat eq_refl Hlen (or_intror (or_introl eq_refl))).
Defined.

(** ** What a call of the client puts on the wire *)

Section Wire.

Variable P : Call -> Prop.
Hypothesis P_probe : P probe_call.

Lemma wait_loop_wire (fuel : nat) (w : World) :
  wire (fst (Pool.wait_loop fuel w)) = wire w.
Proof.
  induction fuel as [|fuel IH]; simpl; unfold Pool.poll;
    destruct (Pool.first_idle (heap w) (_pool w)) as [[a c]|]; auto.
Qed.

Lemma get_connection_wire (fuel : nat) (now : Z) (pr : option exn) (w : World) :
  exists new,
    wire (fst (Pool.get_connection fuel now pr w)) = wire w ++ new
    /\ Forall P new.
Proof.
  assert (Hgrow : forall w0, exists new,
            wire (fst (Pool.grow_or_wait fuel pr w0)) = wire w0 ++ new
            /\ Forall P new).
  { intros w0. unfold Pool.grow_or_wait.
    destruct (Z.of_nat (length (_pool w0)) <? pool_size w0).
    - destruct pr; cbn; exists [probe_call]; split; auto.
    - exists []. rewrite wait_loop_wire, app_nil_r. auto. }
  unfold Pool.get_connection.
  destruct (_lock w); [exists []; rewrite app_nil_r; auto|].
  destruct (Pool.first_idle (heap w) (_pool w)) as [[a c]|]; [|apply Hgrow].
  destruct (now - Conn.last_used c >? pool_recycle w).
  - destruct (Hgrow (Pool.set_members (Pool.remove_first a
                       (_pool (Pool.update a Conn.disconnect w)))
                       (Pool.update a Conn.disconnect w))) as (new & Hw & HP).
    exists new. split; [exact Hw | exact HP].
  - exists []. cbn. rewrite app_nil_r. auto.
Qed.

Lemma with_connection_wire {A : Type} (fuel : nat) (E : Env)
    (m : Connection -> Conn.effect A) (w : World) :
  (forall c, Forall P (Conn.sent_of (m c))) ->
  exists new,
    wire (fst (Pool.with_connection fuel E m w)) = wire w ++ new
    /\ Forall P new.
Proof.
  intros Hm. unfold Pool.with_connection.
  destruct (get_connection_wire fuel (clock_scan E) (probe E) w)
    as (new1 & Hw1 & HP1).
  destruct (Pool.get_connection fuel (clock_scan E) (probe E) w)
    as [w1 [[a|e]|]]; cbn [fst] in Hw1; try (exists new1; split; assumption).
  unfold Pool.on_connection.
  destruct (heap w1 !! a) as [c|]; [|exists new1; split; assumption].
  specialize (Hm c). destruct (m c) as [[c' sent] r]. cbn in Hm |- *.
  exists (new1 ++ sent). rewrite Hw1, app_assoc.
  split; [reflexivity | now apply Forall_app].
Qed.

Lemma attempts_wire {A : Type} (body : nat -> World -> World * progress A) :
  (forall n w, exists new,
     wire (fst (body n w)) = wire w ++ new /\ Forall P new) ->
  forall left n slept w, exists new,
    wire (fst (fst (Retry.attempts left n slept body w))) = wire w ++ new
    /\ Forall P new.
Proof.
  intros Hbody left. induction left as [|left IH]; intros n slept w.
  - exists []. cbn. rewrite app_nil_r. auto.
  - cbn [Retry.attempts]. destruct (Hbody n w) as (new1 & Hw1 & HP1).
    destruct (body n w) as [w1 [[v|e]|]]; cbn [fst] in Hw1;
      try (exists new1; split; assumption).
    destruct (negb (Retry.retry_if_exception_type e));
      [exists new1; split; assumption|].
    destruct (Retry.stop_after_attempt n); [exists new1; split; assumption|].
    destruct (IH (S n) (slept ++ [Retry.wait n]) w1) as (new2 & Hw2 & HP2).
    exists (new1 ++ new2). rewrite Hw2, Hw1, app_assoc.
    split; [reflexivity | now apply Forall_app].
Qed.

End Wire.

Lemma execute_sends (pr : option exn) (drv : driver) (now : Z) (q : string)
    (ps : params) (wct : bool) (qid : option string) (st : option pydict)
    (c : Connection) :
  Forall (fun call => call = probe_call \/ call = mkCall q ps wct qid st)
         (Conn.sent_of (Conn.execute pr drv now q ps wct qid st c)).
Proof.
  unfold Conn.execute, Conn.guarded_call, Conn.connect.
  destruct (Conn.is_connected c); [|destruct pr as [e|]];
    try destruct (drv (mkCall q ps wct qid st));
    cbn; repeat (apply Forall_cons; split); try apply Forall_nil; auto.
Qed.

(** X11.  Whatever the state of the pool and however the attempts go, a call
    of the client's [execute] adds to what the driver has received only link
    probes and the caller's own query, with the caller's parameters and with
    settings that carry [max_execution_time]; [execute_with_format] likewise,
    the query carrying the format clause.  Nothing the driver had received
    before is changed. *)
Theorem client_sends_only_the_query (fuel : nat) (cl : ClickHouseClient)
    (envs : nat -> Env) (q : string) (ps : params) (wct : bool)
    (qid : option string) (st : option pydict) (f : ResultFormat) (w : World) :
  (exists new,
     wire (fst (fst (Client.execute fuel cl envs q ps wct qid st w)))
     = wire w ++ new
     /\ Forall (fun call =>
          call = probe_call \/
          (call = mkCall q ps wct qid (Some (Client.with_timeout cl st))
           /\ exists used, call_settings call = Some used
                /\ Dict.mem "max_execution_time" used = true)) new)
  /\ (exists new,
     wire (fst (fst (Client.execute_with_format fuel cl envs q f ps qid st w)))
     = wire w ++ new
     /\ Forall (fun call =>
          call = probe_call \/
          call = mkCall (Conn.with_format_clause q f) ps false qid
                        (Some (Client.with_timeout cl st))) new).
Proof.
  split.
  - unfold Client.execute, Retry.call. apply attempts_wire.
    intros n w0. unfold Pool.execute. apply with_connection_wire; [now left|].
    intros c. eapply Forall_impl; [apply execute_sends|].
    intros call [->| ->]; [now left|]. right. split; [reflexivity|].
    eexists. split; [reflexivity|].
    apply with_timeout_has_key.
  - unfold Client.execute_with_format, Retry.call. apply attempts_wire.
    intros n w0. unfold Pool.execute_with_format.
    apply with_connection_wire; [now left|].
    intros c. apply execute_with_format_sends.
Qed.

(** ** The client on a ready pool with the link up *)

Lemma client_execute_link_up (fuel : nat) (cl : ClickHouseClient)
    (envs : nat -> Env) (q : string) (ps : params) (wct : bool)
    (qid : option string) (st : option pydict) (w : World) (v : reply) :
  State.ready w ->
  probe (envs 1%nat) = None ->
  answer (envs 1%nat) (mkCall q ps wct qid (Some (Client.with_timeout cl st)))
    = Ok v ->
  exists w',
    Client.execute fuel cl envs q ps wct qid st w
    = (w', Done (Ok v), Retry.mkStatistics 1 [])
    /\ State.ready w'.
Proof.
  intros Hready Hpr Hans.
  destruct (with_connection_returns fuel (envs 1%nat)
              (Conn.execute (probe (envs 1%nat)) (answer (envs 1%nat))
                 (clock_done (envs 1%nat)) q ps wct qid
                 (Some (Client.with_timeout cl st))) w Hready)
    as (w' & r & Hrun & Hready' & _ & [(e & He & _) | (c & Hc)]); [congruence|].
  exists w'. split; [|exact Hready'].
  unfold Client.execute. apply call_first_attempt_returns.
  unfold Pool.execute. rewrite Hrun, Hc, Hpr.
  now rewrite execute_outcome_link_up, Hans.
Qed.

Lemma client_execute_wire (P : Call -> Prop) (fuel : nat)
    (cl : ClickHouseClient) (envs : nat -> Env) (q : string) (ps : params)
    (wct : bool) (qid : option string) (st : option pydict) (w : World) :
  P probe_call ->
  P (mkCall q ps wct qid (Some (Client.with_timeout cl st))) ->
  exists new,
    wire (fst (fst (Client.execute fuel cl envs q ps wct qid st w)))
    = wire w ++ new /\ Forall P new.
Proof.
  intros Hprobe Hq. unfold Client.execute, Retry.call.
  apply attempts_wire.
  intros n w0. unfold Pool.execute. apply with_connection_wire; [exact Hprobe|].
  intros c. eapply Forall_impl; [apply execute_sends|].
  intros call [->| ->]; assumption.
Qed.

(** ** The mappings of the [query] tool *)

Section Mappings.

Implicit Types (d pairs : pydict) (k : string).

Lemma dict_mem_app d1 d2 k :
  Dict.mem k (d1 ++ d2) = Dict.mem k d1 || Dict.mem k d2.
Proof.
  induction d1 as [|[k' v'] d1 IH]; simpl; [reflexivity|].
  rewrite IH. now rewrite orb_assoc.
Qed.

Lemma dict_get_app d1 d2 k :
  Dict.get (d1 ++ d2) k = if Dict.mem k d1 then Dict.get d1 k else Dict.get d2 k.
Proof.
  induction d1 as [|[k' v'] d1 IH]; simpl; [reflexivity|].
  destruct (String.eqb k' k); [reflexivity | exact IH].
Qed.

Lemma dict_mem_set_other d k k' v :
  k' <> k -> Dict.mem k' (Dict.set k v d) = Dict.mem k' d.
Proof.
  intros Hne. induction d as [|[k0 v0] d IH]; simpl.
  - destruct (String.eqb_spec k k'); [congruence | reflexivity].
  - destruct (String.eqb_spec k0 k) as [->|Hk]; simpl; [reflexivity|].
    now rewrite IH.
Qed.

Lemma dict_mem_false_iff d k :
  Dict.mem k d = false <-> k ∉ map fst d.
Proof.
  induction d as [|[k' v'] d IH]; simpl.
  - split; [intros _; apply not_elem_of_nil | reflexivity].
  - rewrite orb_false_iff, IH, not_elem_of_cons.
    destruct (String.eqb_spec k' k); split; intros [? ?]; split; auto;
      congruence.
Qed.

(** With distinct keys that the dictionary does not have yet, writing the
    pairs one after the other appends them. *)
Lemma fold_set_fresh pairs d :
  NoDup (map fst pairs) ->
  (forall k, k ∈ map fst pairs -> Dict.mem k d = false) ->
  fold_left (fun d0 kv => Dict.set (fst kv) (snd kv) d0) pairs d = d ++ pairs.
Proof.
  revert d. induction pairs as [|[k v] pairs IH]; intros d Hnd Hfresh; simpl.
  - now rewrite app_nil_r.
  - simpl in Hnd. apply NoDup_cons in Hnd as [Hk Hnd].
    rewrite dict_keys_set_new by (apply Hfresh; apply list_elem_of_here).
    rewrite IH; [now rewrite <- app_assoc | exact Hnd |].
    intros k' Hk'. rewrite dict_mem_app.
    rewrite Hfresh by (now apply list_elem_of_further). simpl.
    destruct (String.eqb_spec k k') as [->|_]; [contradiction | reflexivity].
Qed.

Lemma of_pairs_distinct pairs :
  NoDup (map fst pairs) -> Dict.of_pairs pairs = pairs.
Proof.
  intros Hnd. unfold Dict.of_pairs. now rewrite fold_set_fresh.
Qed.

Lemma dict_mem_rev pairs k : Dict.mem k (rev pairs) = Dict.mem k pairs.
Proof.
  induction pairs as [|[k1 v1] pairs IH]; simpl; [reflexivity|].
  rewrite dict_mem_app, IH. simpl. rewrite orb_false_r. apply orb_comm.
Qed.

(** In general the value under a key is the one written last. *)
Lemma fold_set_get pairs d k :
  Dict.get (fold_left (fun d0 kv => Dict.set (fst kv) (snd kv) d0) pairs d) k
  = if Dict.mem k pairs then Dict.get (rev pairs) k else Dict.get d k.
Proof.
  revert d. induction pairs as [|[k0 v0] pairs IH]; intros d; simpl;
    [reflexivity|].
  rewrite IH, dict_get_app.
  rewrite dict_mem_rev. destruct (Dict.mem k pairs); [now rewrite orb_true_r|].
  rewrite orb_false_r. simpl.
  destruct (String.eqb_spec k0 k) as [->|Hne].
  - apply dict_get_set_same.
  - apply dict_get_set_other. congruence.
Qed.

Lemma zip_keys_distinct (names : list string) (r : row) :
  NoDup names -> NoDup (map fst (zip names r)).
Proof.
  revert r. induction names as [|n names IH]; intros r Hnd; [constructor|].
  apply NoDup_cons in Hnd as [Hn Hnd].
  destruct r as [|v r]; simpl; [constructor|].
  apply NoDup_cons. split; [|now apply IH].
  intros Hin. apply Hn. clear -Hin. revert r Hin.
  induction names as [|m names IHn]; intros r Hin; destruct r as [|v r];
    simpl in Hin; try (now apply elem_of_nil in Hin).
  apply elem_of_cons in Hin as [->|Hin];
    [apply list_elem_of_here | apply list_elem_of_further; eauto].
Qed.

End Mappings.

Lemma lookup_map {A B : Type} (g : A -> B) (l : list A) (i : nat) :
  map g l !! i = g <$> l !! i.
Proof.
  revert i. induction l as [|x l IH]; intros [|i]; simpl; auto.
Qed.

(** X12.  When the backend answers the tool's query with rows and column
    metadata, the [query] tool returns one mapping per row, in the order of
    the rows, and reports their number, whatever format was asked for.  With
    distinct column names each mapping lists the columns in the order of the
    metadata with the values of the row (cut to the shorter of the two); with
    a name repeated, the value of the last column of that name is the one
    kept. *)
Theorem query_tool_maps_rows (fuel : nat) (cl : ClickHouseClient)
    (envs : nat -> Env) (sql format : string) (ps : option pydict)
    (w : World) (rows : list row) (columns : list (string * string)) :
  State.ready w ->
  probe (envs 1%nat) = None ->
  answer (envs 1%nat)
    (mkCall sql (QueryTool.tool_params ps) true None
            (Some (Client.with_timeout cl None)))
    = Ok (RowsWithTypes rows columns) ->
  (exists w',
     QueryTool.query fuel cl envs sql format ps w
     = (w', Done (Ok (mkQueryAnswer
                        (Mappings (QueryTool.reshape rows columns))
                        (length rows) sql format))))
  /\ length (QueryTool.reshape rows columns) = length rows
  /\ (forall i r, rows !! i = Some r ->
        exists d, QueryTool.reshape rows columns !! i = Some d
          /\ (NoDup (map fst columns) -> d = zip (map fst columns) r)
          /\ (forall k, Dict.get d k
                        = Dict.get (rev (zip (map fst columns) r)) k)).
Proof.
  intros Hready Hpr Hans. split; [|split].
  - destruct (client_execute_link_up fuel cl envs sql (QueryTool.tool_params ps)
                true None None w _ Hready Hpr Hans) as (w' & Hrun & _).
    exists w'. unfold QueryTool.query.
    rewrite result_format_is_json. cbn [Format.eqb]. now rewrite Hrun.
  - unfold QueryTool.reshape. apply length_map.
  - intros i r Hr. unfold QueryTool.reshape.
    exists (Dict.of_pairs (zip (map fst columns) r)).
    split; [rewrite lookup_map; unfold row in *; now rewrite Hr|]. split.
    + intros Hnd. apply of_pairs_distinct. now apply zip_keys_distinct.
    + intros k. unfold Dict.of_pairs. rewrite fold_set_get.
      destruct (Dict.mem k (zip (map fst columns) r)) eqn:Hmem; [reflexivity|].
      simpl. symmetry.
      assert (Hr' : Dict.mem k (rev (zip (map fst columns) r)) = false)
        by (now rewrite dict_mem_rev).
      clear -Hr'. induction (rev (zip (map fst columns) r)) as [|[k1 v1] l IH];
        [reflexivity|].
      simpl in Hr' |- *. apply orb_false_iff in Hr' as [-> Hl]. now apply IH.
Qed.

Lemma query_tool_maps_rows_witness :
  State.ready (Pool.init 1 3600)
  /\ exists w',
       QueryTool.query 0 Sample.client (Sample.envs Sample.one_row) "SELECT 1"
                       "TSV" None (Pool.init 1 3600)
       = (w', Done (Ok (mkQueryAnswer
                          (Mappings (QueryTool.reshape [[PInt 1]]
                                       [("x"%string, "UInt8"%string)]))
                          1 "SELECT 1" "TSV"))).
Proof.
  assert (Hready : State.ready (Pool.init 1 3600)) by (apply new_pool_ready; lia).
  split; [exact Hready|].
  exact (proj1 (query_tool_maps_rows 0 Sample.client
                  (Sample.envs Sample.one_row) "SELECT 1" "TSV" None
                  (Pool.init 1 3600) [[PInt 1]] [("x"%string, "UInt8"%string)]
                  Hready eq_refl eq_refl)).
Defined.

(** ** The [insert] tool *)

(** X13.  The [insert] tool never inserts.  With an empty list it raises
    [ValueError] for the empty data; with rows, [client.insert_data] raises the
    [TypeError] of the call on the [connection] property, which the tool raises
    again as a [ValueError] that quotes it.  In both cases no connection is
    taken from the pool and the driver receives nothing. *)
Theorem insert_tool_always_raises (fuel : nat) (cl : ClickHouseClient) (E : Env)
    (table : string) (data : list pydict) (db : option string) (w : World) :
  exists msg,
    QueryTool.insert fuel cl E table data db w
    = (w, Done (Raise (Exn ValueError (append "Data insertion failed: " msg))))
    /\ (data = [] -> msg = "Data cannot be empty"%string)
    /\ (data <> [] ->
        msg = "AsyncContextDecorator.__call__() missing 1 required positional argument: 'func'"%string).
Proof.
  destruct data as [|first rest]; eexists; (split; [reflexivity|]);
    split; intros H; try reflexivity; congruence.
Qed.

(** ** The catalog listings *)

Lemma first_fields_all (rows : list row) :
  Forall (fun r => r <> []) rows ->
  Client.first_fields rows = Ok (map Listing.first_field rows).
Proof.
  induction 1 as [|r rows Hr _ IH]; [reflexivity|].
  destruct r as [|v r]; [congruence|]. cbn. now rewrite IH.
Qed.

Lemma first_fields_short (rows : list row) :
  Exists (fun r => r = []) rows ->
  Client.first_fields rows = Raise (Exn IndexError "tuple index out of range").
Proof.
  induction 1 as [r rows -> | r rows _ IH]; [reflexivity|].
  destruct r as [|v r]; [reflexivity|]. cbn. now rewrite IH.
Qed.

(** X14.  [get_databases] and the [get_tables] tool return the first field
    of every row the backend lists, in the backend's order, and the tool's
    count is the number of rows.  A row without fields makes the listing fail
    with the index error (for the tool: as a [ValueError] quoting it).  An
    empty database name makes [get_tables] list the client's default database,
    while the tool's answer still names the database as it was given. *)
Theorem listings_return_first_fields (fuel : nat) (cl : ClickHouseClient)
    (envs : nat -> Env) (name : string) (w : World) (rows : list row) :
  State.ready w ->
  probe (envs 1%nat) = None ->
  (answer (envs 1%nat)
     (mkCall "SHOW DATABASES" NoParams false None
             (Some (Client.with_timeout cl None))) = Ok (Rows rows) ->
   exists w',
     Client.get_databases fuel cl envs w
     = (w', Done (if decide (Forall (fun r => r <> []) rows)
                  then Ok (map Listing.first_field rows)
                  else Raise (Exn IndexError "tuple index out of range"))))
  /\ (answer (envs 1%nat)
        (mkCall (Client.tables_query
                   (if String.eqb name "" then database cl else name))
                NoParams false None (Some (Client.with_timeout cl None)))
      = Ok (Rows rows) ->
      exists w',
        TablesTool.get_tables fuel cl envs name w
        = (w', Done (if decide (Forall (fun r => r <> []) rows)
                     then Ok (mkTablesAnswer name (map Listing.first_field rows)
                                             (length rows))
                     else Raise (Exn ValueError
                            "Get tables failed: tuple index out of range")))).
Proof.
  intros Hready Hpr.
  assert (Hcol : Client.first_column (Rows rows)
                 = if decide (Forall (fun r => r <> []) rows)
                   then Ok (map Listing.first_field rows)
                   else Raise (Exn IndexError "tuple index out of range")).
  { cbn. destruct (decide (Forall (fun r => r <> []) rows)) as [Hall|Hnot].
    - now apply first_fields_all.
    - apply first_fields_short. apply not_Forall_Exists in Hnot; [|intros r; apply _].
      eapply Exists_impl; [exact Hnot|]. intros r Hr.
      destruct r; [reflexivity|]. exfalso. apply Hr. discriminate. }
  split.
  - intros Hans.
    destruct (client_execute_link_up fuel cl envs "SHOW DATABASES" NoParams false
                None None w _ Hready Hpr Hans) as (w' & Hrun & _).
    exists w'. unfold Client.get_databases. now rewrite Hrun, Hcol.
  - intros Hans.
    destruct (client_execute_link_up fuel cl envs _ NoParams false
                None None w _ Hready Hpr Hans) as (w' & Hrun & _).
    exists w'. unfold TablesTool.get_tables, Client.get_tables.
    cbn [Client.database_or_default]. rewrite Hrun, Hcol.
    destruct (decide (Forall (fun r => r <> []) rows)); [|reflexivity].
    now rewrite length_map.
Qed.

Lemma listings_return_first_fields_witness :
  State.ready (Pool.init 1 3600)
  /\ exists w',
       TablesTool.get_tables 0 Sample.client (Sample.envs Sample.one_row) ""
                             (Pool.init 1 3600)
       = (w', Done (Ok (mkTablesAnswer "" [PInt 1] 1))).
Proof.
  assert (Hready : State.ready (Pool.init 1 3600)) by (apply new_pool_ready; lia).
  split; [exact Hready|].
  exact (proj2 (listings_return_first_fields 0 Sample.client
                  (Sample.envs Sample.one_row) "" (Pool.init 1 3600) [[PInt 1]]
                  Hready eq_refl) eq_refl).
Defined.

(** ** The schema tools *)

Section SchemaFacts.

Local Open Scope string_scope.

Lemma column_defs_length (columns : list pydict) (defs : list string) :
  SchemaTool.column_defs columns = Ok defs -> length defs = length columns.
Proof.
  revert defs. induction columns as [|col columns IH]; intros defs; cbn.
  - intros [= <-]. reflexivity.
  - destruct (SchemaTool.column_def col); [|discriminate].
    destruct (SchemaTool.column_defs columns); [|discriminate].
    intros [= <-]. cbn. f_equal. now apply IH.
Qed.

Lemma column_def_complete (col : pydict) :
  Dict.mem "name" col = true -> Dict.mem "type" col = true ->
  exists d, SchemaTool.column_def col = Ok d.
Proof.
  intros Hn Ht. unfold SchemaTool.column_def, Py.getitem. rewrite Hn, Ht. eauto.
Qed.

Lemma column_def_incomplete (col : pydict) :
  Dict.mem "name" col = false \/ Dict.mem "type" col = false ->
  exists key, (key = "name" \/ key = "type")
    /\ SchemaTool.column_def col
       = Raise (Exn KeyError (append "'" (append key "'"))).
Proof.
  intros H. unfold SchemaTool.column_def, Py.getitem.
  destruct (Dict.mem "name" col) eqn:Hn.
  - destruct H as [H|H]; [discriminate|]. rewrite H. exists "type". auto.
  - exists "name". auto.
Qed.

(** The definitions are built exactly when every column has a name and a
    type; otherwise the first column that lacks one decides the error. *)
Lemma column_defs_incomplete (columns : list pydict) :
  Exists (fun col => Dict.mem "name" col = false \/ Dict.mem "type" col = false)
         columns ->
  exists key, (key = "name" \/ key = "type")
    /\ SchemaTool.column_defs columns
       = Raise (Exn KeyError (append "'" (append key "'"))).
Proof.
  induction columns as [|col columns IH]; intros Hex; [inversion Hex|].
  cbn [SchemaTool.column_defs].
  destruct (Dict.mem "name" col) eqn:Hn; [destruct (Dict.mem "type" col) eqn:Ht|].
  - destruct (column_def_complete col Hn Ht) as (d & ->).
    apply Exists_cons in Hex as [[H|H]|Hex]; try congruence.
    destruct (IH Hex) as (key & Hkey & ->). eauto.
  - destruct (column_def_incomplete col (or_intror Ht)) as (key & Hkey & ->). eauto.
  - destruct (column_def_incomplete col (or_introl Hn)) as (key & Hkey & ->). eauto.
Qed.

Lemma column_defs_complete (columns : list pydict) :
  Forall (fun col => Dict.mem "name" col = true /\ Dict.mem "type" col = true)
         columns ->
  exists defs, SchemaTool.column_defs columns = Ok defs.
Proof.
  induction 1 as [|col columns [Hn Ht] _ (defs & IH)]; [cbn; eauto|].
  cbn [SchemaTool.column_defs].
  destruct (column_def_complete col Hn Ht) as (d & ->). rewrite IH. eauto.
Qed.

End SchemaFacts.

(** X15.  [create_table] looks at the columns before it talks to the
    backend.  An empty column list, or a column without ["name"] or without
    ["type"], ends the call with a [ValueError] (quoting, for a missing key,
    the key) and leaves the pool and the driver untouched.  In every case all
    that the driver can receive from the call, besides link probes, is the one
    [CREATE TABLE] statement built from one definition per column. *)
Theorem create_table_checks_columns_first (fuel : nat) (cl : ClickHouseClient)
    (envs : nat -> Env) (name : string) (columns : list pydict)
    (engine order_by : string)
    (db partition_by primary_key sample_by ttl : option string)
    (settings : option pydict) (if_not_exists : bool) (w : World) :
  let run := SchemaTool.create_table fuel cl envs name columns engine order_by
               db partition_by primary_key sample_by ttl settings
               if_not_exists w in
  (columns = [] ->
     run = (w, Done (Raise (Exn ValueError
                  "Table creation failed: Columns cannot be empty"))))
  /\ (Exists (fun col => Dict.mem "name" col = false
                         \/ Dict.mem "type" col = false) columns ->
      exists key, (key = "name"%string \/ key = "type"%string)
        /\ run = (w, Done (Raise (Exn ValueError
                   (append "Table creation failed: '" (append key "'"))))))
  /\ (exists new,
        wire (fst run) = wire w ++ new
        /\ Forall (fun call =>
             call = probe_call \/
             exists defs,
               SchemaTool.column_defs columns = Ok defs
               /\ length defs = length columns
               /\ call = mkCall
                    (SchemaTool.table_sql if_not_exists
                       (Client.database_or_default cl db) name defs engine
                       order_by partition_by primary_key sample_by ttl settings)
                    NoParams false None (Some (Client.with_timeout cl None)))
           new).
Proof.
  intros run. subst run. unfold SchemaTool.create_table. split; [|split].
  - intros ->. reflexivity.
  - intros Hex. destruct (column_defs_incomplete columns Hex) as (key & Hkey & Hdefs).
    exists key. split; [exact Hkey|].
    destruct columns as [|col columns]; [inversion Hex|]. now rewrite Hdefs.
  - destruct columns as [|col columns];
      [exists []; cbn; rewrite app_nil_r; auto|].
    destruct (SchemaTool.column_defs (col :: columns)) as [defs|e] eqn:Hdefs;
      [|exists []; cbn; rewrite app_nil_r; auto].
    set (sql := SchemaTool.table_sql _ _ _ _ _ _ _ _ _ _ _).
    destruct (client_execute_wire
                (fun call => call = probe_call \/
                   exists defs0, Ok defs = Ok defs0
                     /\ length defs0 = length (col :: columns)
                     /\ call = mkCall
                          (SchemaTool.table_sql if_not_exists
                             (Client.database_or_default cl db) name defs0
                             engine order_by partition_by primary_key sample_by
                             ttl settings)
                          NoParams false None (Some (Client.with_timeout cl None)))
                fuel cl envs sql NoParams false None None w)
      as (new & Hw & HP).
    + now left.
    + right. exists defs. split; [reflexivity|].
      split; [now apply column_defs_length | reflexivity].
    + exists new. split; [|exact HP].
      destruct (Client.execute fuel cl envs sql NoParams false None None w)
        as [[w1 [[v|e]|]] stats]; exact Hw.
Qed.

Lemma create_table_checks_columns_first_witness :
  Exists (fun col => Dict.mem "name" col = false \/ Dict.mem "type" col = false)
         Listing.columns
  /\ exists key,
       SchemaTool.create_table 0 Sample.client (Sample.envs Sample.one_row)
         "t" Listing.columns "MergeTree()" "id" None None None None None None
         true (Pool.init 1 3600)
       = (Pool.init 1 3600,
          Done (Raise (Exn ValueError
                  (append "Table creation failed: '" (append key "'"))))).
Proof.
  assert (Hex : Exists (fun col => Dict.mem "name" col = false
                                   \/ Dict.mem "type" col = false)
                       Listing.columns)
    by (apply Exists_cons_tl, Exists_cons_hd; right; reflexivity).
  split; [exact Hex|].
  destruct (proj1 (proj2 (create_table_checks_columns_first 0 Sample.client
                     (Sample.envs Sample.one_row) "t" Listing.columns
                     "MergeTree()" "id" None None None None None None true
                     (Pool.init 1 3600)))
                  Hex) as (key & _ & Hrun).
  exists key. exact Hrun.
Defined.

(** X16.  In the statement [create_table] builds, an optional clause given
    as the empty string is left out exactly as one that is not given; a
    primary key equal to the [ORDER BY] expression is left out too; and empty
    settings add no [SETTINGS] clause.  The statement always names the engine
    and the [ORDER BY] expression. *)
Theorem create_table_leaves_out_empty_clauses (if_not_exists : bool)
    (db name : string) (defs : list string) (engine order_by : string)
    (partition_by primary_key sample_by ttl : option string)
    (settings : option pydict) :
  let sql := SchemaTool.table_sql if_not_exists db name defs engine order_by in
  sql (Some ""%string) primary_key sample_by ttl settings
    = sql None primary_key sample_by ttl settings
  /\ sql partition_by (Some ""%string) sample_by ttl settings
    = sql partition_by None sample_by ttl settings
  /\ sql partition_by (Some order_by) sample_by ttl settings
    = sql partition_by None sample_by ttl settings
  /\ sql partition_by primary_key (Some ""%string) ttl settings
    = sql partition_by primary_key None ttl settings
  /\ sql partition_by primary_key sample_by (Some ""%string) settings
    = sql partition_by primary_key sample_by None settings
  /\ sql partition_by primary_key sample_by ttl (Some [])
    = sql partition_by primary_key sample_by ttl None
  /\ sql None None None None None
    = String.concat ""
        [ "CREATE TABLE "%string; SchemaTool.guard if_not_exists; db;
          ".`"%string; name; "` ("%string; SchemaTool.nl;
          Text.join (append "," SchemaTool.nl)
                    (map (fun d => append "    " d) defs);
          SchemaTool.nl; ") ENGINE = "%string; engine; ""%string;
          SchemaTool.nl; "ORDER BY "%string; order_by;
          ""%string; ""%string; ""%string; ""%string ].
Proof.
  intros sql. subst sql. unfold SchemaTool.table_sql.
  repeat split; try reflexivity.
  cbn [Py.given Py.text]. rewrite String.eqb_refl.
  destruct (String.eqb order_by ""); reflexivity.
Qed.

(** X17.  On a sound pool with the link up, a schema tool whose statement
    the backend accepts reports the creation: [create_database] under the
    name it was given, [create_table] under the database it resolved (the
    client's default when none or an empty one is given), with the number of
    columns it was given and the engine.  The pool is sound again after the
    call. *)
Theorem schema_tools_report_creation (fuel : nat) (cl : ClickHouseClient)
    (envs : nat -> Env) (name : string) (if_not_exists : bool) (w : World) :
  State.ready w ->
  probe (envs 1%nat) = None ->
  (forall v,
     answer (envs 1%nat)
       (Listing.sent cl (SchemaTool.database_sql name if_not_exists) false)
     = Ok v ->
     exists w',
       SchemaTool.create_database fuel cl envs name if_not_exists w
       = (w', Done (Ok (mkDatabaseCreated name true)))
       /\ State.ready w')
  /\ (forall columns defs engine order_by db partition_by primary_key
             sample_by ttl settings v,
        columns <> [] ->
        SchemaTool.column_defs columns = Ok defs ->
        answer (envs 1%nat)
          (Listing.sent cl
             (SchemaTool.table_sql if_not_exists
                (match db with
                 | Some d => if String.eqb d "" then database cl else d
                 | None => database cl
                 end)
                name defs engine order_by partition_by primary_key sample_by
                ttl settings) false)
        = Ok v ->
        exists w',
          SchemaTool.create_table fuel cl envs name columns engine order_by db
            partition_by primary_key sample_by ttl settings if_not_exists w
          = (w', Done (Ok (mkTableCreated
                             (match db with
                              | Some d =>
                                  if String.eqb d "" then database cl else d
                              | None => database cl
                              end)
                             name true (length defs) engine)))
          /\ State.ready w').
Proof.
  intros Hready Hpr. split.
  - intros v Hans.
    destruct (client_execute_link_up fuel cl envs _ NoParams false None None w v
                Hready Hpr Hans) as (w' & Hrun & Hready').
    exists w'. unfold SchemaTool.create_database. rewrite Hrun. auto.
  - intros columns defs engine order_by db partition_by primary_key sample_by
           ttl settings v Hne Hdefs Hans.
    destruct (client_execute_link_up fuel cl envs _ NoParams false None None w v
                Hready Hpr Hans) as (w' & Hrun & Hready').
    exists w'. unfold SchemaTool.create_table.
    destruct columns as [|col columns]; [congruence|].
    rewrite Hdefs. unfold Client.database_or_default. rewrite Hrun.
    now rewrite (column_defs_length _ _ Hdefs).
Qed.

Lemma schema_tools_report_creation_witness :
  State.ready (Pool.init 1 3600)
  /\ exists w',
       SchemaTool.create_database 0 Sample.client (Sample.envs Sample.one_row)
         "logs" true (Pool.init 1 3600)
       = (w', Done (Ok (mkDatabaseCreated "logs" true)))
       /\ State.ready w'.
Proof.
  assert (Hready : State.ready (Pool.init 1 3600)) by (apply new_pool_ready; lia).
  split; [exact Hready|].
  exact (proj1 (schema_tools_report_creation 0 Sample.client
                  (Sample.envs Sample.one_row) "logs" true (Pool.init 1 3600)
                  Hready eq_refl) _ eq_refl).
Defined.

(** ** The data resources *)

Section DataFacts.

Variables (fuel : nat) (cl : ClickHouseClient).

Lemma get_databases_wire (P : Call -> Prop) (envs : nat -> Env) (w : World) :
  P probe_call ->
  P (Listing.sent cl "SHOW DATABASES" false) ->
  exists new,
    wire (fst (Client.get_databases fuel cl envs w)) = wire w ++ new
    /\ Forall P new.
Proof.
  intros Hp Hq.
  destruct (client_execute_wire P fuel cl envs "SHOW DATABASES" NoParams false
              None None w Hp Hq) as (new & Hw & HP).
  exists new. split; [|exact HP]. unfold Client.get_databases.
  destruct (Client.execute fuel cl envs "SHOW DATABASES" NoParams false None
              None w) as [[w1 [[v|e]|]] stats]; exact Hw.
Qed.

Lemma get_tables_wire (P : Call -> Prop) (envs : nat -> Env)
    (db : option string) (w : World) :
  P probe_call ->
  P (Listing.sent cl (Client.tables_query (Client.database_or_default cl db))
                  false) ->
  exists new,
    wire (fst (Client.get_tables fuel cl envs db w)) = wire w ++ new
    /\ Forall P new.
Proof.
  intros Hp Hq.
  destruct (client_execute_wire P fuel cl envs
              (Client.tables_query (Client.database_or_default cl db))
              NoParams false None None w Hp Hq) as (new & Hw & HP).
  exists new. split; [|exact HP]. unfold Client.get_tables.
  destruct (Client.execute fuel cl envs _ NoParams false None None w)
    as [[w1 [[v|e]|]] stats]; exact Hw.
Qed.

Lemma check_exists_wire (P : Call -> Prop) (envs : nat -> nat -> Env)
    (database table : string) (w : World) :
  P probe_call ->
  P (Listing.sent cl "SHOW DATABASES" false) ->
  P (Listing.sent cl
       (Client.tables_query (Client.database_or_default cl (Some database)))
       false) ->
  exists new,
    wire (fst (DataResource.check_exists fuel cl envs database table w))
    = wire w ++ new
    /\ Forall P new.
Proof.
  intros Hp Hd Ht.
  destruct (get_databases_wire P (envs 1%nat) w Hp Hd) as (n1 & Hw1 & HP1).
  unfold DataResource.check_exists.
  destruct (Client.get_databases fuel cl (envs 1%nat) w) as [w1 [[dbs|e]|]];
    cbn [fst] in Hw1; try (exists n1; split; [exact Hw1|exact HP1]).
  destruct (negb (Py.mem (PStr database) dbs));
    [exists n1; split; [exact Hw1|exact HP1]|].
  destruct (get_tables_wire P (envs 2%nat) (Some database) w1 Hp Ht)
    as (n2 & Hw2 & HP2).
  exists (n1 ++ n2). split; [|now apply Forall_app].
  rewrite app_assoc, <- Hw1.
  destruct (Client.get_tables fuel cl (envs 2%nat) (Some database) w1)
    as [w2 [[tbls|e]|]]; cbn [fst] in Hw2; [|exact Hw2..].
  destruct (negb (Py.mem (PStr table) tbls)); exact Hw2.
Qed.

Lemma get_databases_link_up (envs : nat -> Env) (w : World) (rows : list row) :
  State.ready w ->
  probe (envs 1%nat) = None ->
  answer (envs 1%nat) (Listing.sent cl "SHOW DATABASES" false) = Ok (Rows rows) ->
  Forall (fun r => r <> []) rows ->
  exists w',
    Client.get_databases fuel cl envs w
    = (w', Done (Ok (map Listing.first_field rows)))
    /\ State.ready w'.
Proof.
  intros Hready Hpr Hans Hne.
  destruct (client_execute_link_up fuel cl envs _ NoParams false None None w _
              Hready Hpr Hans) as (w' & Hrun & Hready').
  exists w'. unfold Client.get_databases. rewrite Hrun. cbn.
  now rewrite (first_fields_all rows Hne).
Qed.

Lemma get_tables_link_up (envs : nat -> Env) (db : option string) (w : World)
    (rows : list row) :
  State.ready w ->
  probe (envs 1%nat) = None ->
  answer (envs 1%nat)
    (Listing.sent cl (Client.tables_query (Client.database_or_default cl db))
                  false) = Ok (Rows rows) ->
  Forall (fun r => r <> []) rows ->
  exists w',
    Client.get_tables fuel cl envs db w
    = (w', Done (Ok (map Listing.first_field rows)))
    /\ State.ready w'.
Proof.
  intros Hready Hpr Hans Hne.
  destruct (client_execute_link_up fuel cl envs _ NoParams false None None w _
              Hready Hpr Hans) as (w' & Hrun & Hready').
  exists w'. unfold Client.get_tables. cbn zeta. rewrite Hrun. cbn.
  now rewrite (first_fields_all rows Hne).
Qed.

(** The two checks on a sound pool with the link up: the outcome is decided
    by whether the names are among the first fields of the listings. *)
Lemma check_exists_link_up (envs : nat -> nat -> Env) (database table : string)
    (w : World) (dbs : list row) :
  State.ready w ->
  probe (envs 1%nat 1%nat) = None ->
  answer (envs 1%nat 1%nat) (Listing.sent cl "SHOW DATABASES" false)
    = Ok (Rows dbs) ->
  Forall (fun r => r <> []) dbs ->
  (Py.mem (PStr database) (map Listing.first_field dbs) = false ->
   exists w',
     DataResource.check_exists fuel cl envs database table w
     = (w', Done (Ok (Some (DataResource.not_found_database database))))
     /\ State.ready w')
  /\ (Py.mem (PStr database) (map Listing.first_field dbs) = true ->
      forall tbls,
        probe (envs 2%nat 1%nat) = None ->
        answer (envs 2%nat 1%nat)
          (Listing.sent cl
             (Client.tables_query
                (Client.database_or_default cl (Some database))) false)
          = Ok (Rows tbls) ->
        Forall (fun r => r <> []) tbls ->
        exists w',
          DataResource.check_exists fuel cl envs database table w
          = (w', Done (Ok (if Py.mem (PStr table)
                                (map Listing.first_field tbls)
                           then None
                           else Some (DataResource.not_found_table
                                        database table))))
          /\ State.ready w').
Proof.
  intros Hready Hp1 Ha1 Hne1.
  destruct (get_databases_link_up (envs 1%nat) w dbs Hready Hp1 Ha1 Hne1)
    as (w1 & Hdb & Hready1).
  split.
  - intros Hl. exists w1. unfold DataResource.check_exists.
    rewrite Hdb, Hl. auto.
  - intros Hl tbls Hp2 Ha2 Hne2.
    destruct (get_tables_link_up (envs 2%nat) (Some database) w1 tbls Hready1
                Hp2 Ha2 Hne2) as (w2 & Htb & Hready2).
    exists w2. unfold DataResource.check_exists.
    rewrite Hdb, Hl. cbn [negb]. rewrite Htb.
    destruct (Py.mem (PStr table) (map Listing.first_field tbls)); auto.
Qed.

End DataFacts.

(** X18.  The data resources only read.  Whatever the backend and the pool
    do, all that [table_sample] and [table_count] can send, besides link
    probes, is [SHOW DATABASES], [SHOW TABLES FROM] the database, and their
    one [SELECT]; and the [SELECT] is sent only when a time column was given
    (with a time column left out the resources ask the client for
    [get_columns], which it does not have) and, for the sample, only with a
    limit from 1 to 1000. *)
Theorem data_resources_only_read (fuel : nat) (cl : ClickHouseClient)
    (envs : nat -> nat -> Env) (database table : string) (limit : Z)
    (start_time end_time time_column : option string) (w : World) :
  (exists new,
     wire (fst (DataResource.table_sample fuel cl envs database table limit
                  start_time end_time time_column w)) = wire w ++ new
     /\ Forall (fun call =>
          call = probe_call
          \/ call = Listing.sent cl "SHOW DATABASES" false
          \/ call = Listing.sent cl
               (Client.tables_query
                  (Client.database_or_default cl (Some database))) false
          \/ (time_column <> None /\ 1 <= limit <= 1000
              /\ call = Listing.sent cl
                   (DataResource.sample_sql database table time_column
                      start_time end_time limit) true)) new)
  /\ (exists new,
        wire (fst (DataResource.table_count fuel cl envs database table
                     start_time end_time time_column w)) = wire w ++ new
        /\ Forall (fun call =>
             call = probe_call
             \/ call = Listing.sent cl "SHOW DATABASES" false
             \/ call = Listing.sent cl
                  (Client.tables_query
                     (Client.database_or_default cl (Some database))) false
             \/ (time_column <> None
                 /\ call = Listing.sent cl
                      (DataResource.count_sql database table time_column
                         start_time end_time) false)) new).
Proof.
  split.
  - match goal with |- exists new, _ /\ Forall ?P new => set (P0 := P) end.
    destruct (check_exists_wire fuel cl P0 envs database table w)
      as (n1 & Hw1 & HP1); [now left | now right; left | now right; right; left|].
    unfold DataResource.table_sample.
    destruct (DataResource.check_exists fuel cl envs database table w)
      as [w2 [[[text|]|e]|]]; cbn [fst] in Hw1;
      try (exists n1; split; [exact Hw1|exact HP1]).
    destruct (Z.ltb_spec limit 1) as [Hlo|Hlo]; cbn [orb];
      [exists n1; split; [exact Hw1|exact HP1]|].
    rewrite Z.gtb_ltb.
    destruct (Z.ltb_spec 1000 limit) as [Hhi|Hhi];
      [exists n1; split; [exact Hw1|exact HP1]|].
    destruct time_column as [tc|];
      [|exists n1; split; [exact Hw1|exact HP1]].
    destruct (client_execute_wire P0 fuel cl (envs 3%nat)
                (DataResource.sample_sql database table (Some tc) start_time
                   end_time limit) NoParams true None None w2)
      as (n2 & Hw2 & HP2).
    + now left.
    + right; right; right. split; [discriminate|]. split; [lia|reflexivity].
    + exists (n1 ++ n2). split; [|now apply Forall_app].
      rewrite app_assoc, <- Hw1.
      destruct (Client.execute fuel cl (envs 3%nat) _ NoParams true None None w2)
        as [[w3 [[[rows|rows cts|s]|e]|]] stats]; exact Hw2.
  - match goal with |- exists new, _ /\ Forall ?P new => set (P0 := P) end.
    destruct (check_exists_wire fuel cl P0 envs database table w)
      as (n1 & Hw1 & HP1); [now left | now right; left | now right; right; left|].
    unfold DataResource.table_count.
    destruct (DataResource.check_exists fuel cl envs database table w)
      as [w2 [[[text|]|e]|]]; cbn [fst] in Hw1;
      try (exists n1; split; [exact Hw1|exact HP1]).
    destruct time_column as [tc|];
      [|exists n1; split; [exact Hw1|exact HP1]].
    destruct (client_execute_wire P0 fuel cl (envs 3%nat)
                (DataResource.count_sql database table (Some tc) start_time
                   end_time) NoParams false None None w2)
      as (n2 & Hw2 & HP2).
    + now left.
    + right; right; right. split; [discriminate|reflexivity].
    + exists (n1 ++ n2). split; [|now apply Forall_app].
      rewrite app_assoc, <- Hw1.
      destruct (Client.execute fuel cl (envs 3%nat) _ NoParams false None None w2)
        as [[w3 [[[[|[|count r] rows]|rows cts|s]|e]|]] stats]; exact Hw2.
Qed.

(** X19.  [table_sample] on a sound pool with the link up.  A database that
    is not among the first fields of [SHOW DATABASES] is reported as not
    found, and so is a table that is not among those of [SHOW TABLES]; then a
    limit below 1 or above 1000 is refused; then a call without a time column
    ends with the text of the attribute error of [get_columns]; and with a
    time column the rows the backend returns are laid out under their column
    names.  Every outcome is a text, never an exception, and the pool is sound
    again. *)
Theorem table_sample_answers (fuel : nat) (cl : ClickHouseClient)
    (envs : nat -> nat -> Env) (database table : string) (limit : Z)
    (start_time end_time time_column : option string) (w : World)
    (dbs : list row) :
  State.ready w ->
  probe (envs 1%nat 1%nat) = None ->
  answer (envs 1%nat 1%nat) (Listing.sent cl "SHOW DATABASES" false)
    = Ok (Rows dbs) ->
  Forall (fun r => r <> []) dbs ->
  let answers := fun text =>
    exists w',
      DataResource.table_sample fuel cl envs database table limit start_time
        end_time time_column w = (w', Done (Ok text))
      /\ State.ready w' in
  (Py.mem (PStr database) (map Listing.first_field dbs) = false ->
   answers (DataResource.not_found_database database))
  /\ (Py.mem (PStr database) (map Listing.first_field dbs) = true ->
      forall tbls,
        probe (envs 2%nat 1%nat) = None ->
        answer (envs 2%nat 1%nat)
          (Listing.sent cl
             (Client.tables_query
                (Client.database_or_default cl (Some database))) false)
          = Ok (Rows tbls) ->
        Forall (fun r => r <> []) tbls ->
        (Py.mem (PStr table) (map Listing.first_field tbls) = false ->
         answers (DataResource.not_found_table database table))
        /\ (Py.mem (PStr table) (map Listing.first_field tbls) = true ->
            (limit < 1 \/ 1000 < limit ->
             answers (DataResource.invalid_limit limit))
            /\ (1 <= limit <= 1000 ->
                (time_column = None ->
                 answers (DataResource.sample_error database table
                            DataResource.no_get_columns))
                /\ (time_column <> None ->
                    forall rows column_types,
                      probe (envs 3%nat 1%nat) = None ->
                      answer (envs 3%nat 1%nat)
                        (Listing.sent cl
                           (DataResource.sample_sql database table time_column
                              start_time end_time limit) true)
                        = Ok (RowsWithTypes rows column_types) ->
                      answers (DataResource.sample_content database table
                                 time_column start_time end_time rows
                                 column_types))))).
Proof.
  intros Hready Hp1 Ha1 Hne1 answers. subst answers.
  destruct (check_exists_link_up fuel cl envs database table w dbs Hready Hp1
              Ha1 Hne1) as [Hmiss Hhit].
  split.
  - intros Hl. destruct (Hmiss Hl) as (w' & Hck & Hready').
    exists w'. unfold DataResource.table_sample. rewrite Hck. auto.
  - intros Hl tbls Hp2 Ha2 Hne2.
    destruct (Hhit Hl tbls Hp2 Ha2 Hne2) as (w2 & Hck & Hready2).
    split.
    + intros Ht. rewrite Ht in Hck.
      exists w2. unfold DataResource.table_sample. rewrite Hck. auto.
    + intros Ht. rewrite Ht in Hck. split.
      * intros Hlim.
        exists w2. unfold DataResource.table_sample. rewrite Hck.
        rewrite Z.gtb_ltb.
        destruct (Z.ltb_spec limit 1); destruct (Z.ltb_spec 1000 limit);
          cbn [orb]; auto; lia.
      * intros Hrange.
        assert (Hin : ((limit <? 1) || (limit >? 1000))%Z = false).
        { rewrite Z.gtb_ltb.
          destruct (Z.ltb_spec limit 1); [lia|].
          destruct (Z.ltb_spec 1000 limit); [lia|reflexivity]. }
        split.
        -- intros Hnone.
           exists w2. unfold DataResource.table_sample.
           rewrite Hck, Hin, Hnone. auto.
        -- intros Hsome rows column_types Hp3 Ha3.
           destruct (client_execute_link_up fuel cl (envs 3%nat) _ NoParams true
                       None None w2 _ Hready2 Hp3 Ha3) as (w3 & Hrun & Hready3).
           exists w3. unfold DataResource.table_sample. rewrite Hck, Hin.
           destruct time_column as [tc|]; [|congruence].
           rewrite Hrun. auto.
Qed.

Lemma table_sample_answers_witness :
  State.ready (Pool.init 1 3600)
  /\ exists w',
       DataResource.table_sample 0 Sample.client Listing.envs "logs" "events"
         0 None None (Some "ts"%string) (Pool.init 1 3600)
       = (w', Done (Ok (DataResource.invalid_limit 0)))
       /\ State.ready w'.
Proof.
  assert (Hready : State.ready (Pool.init 1 3600)) by (apply new_pool_ready; lia).
  split; [exact Hready|].
  refine (proj1 (proj2 (proj2 (table_sample_answers 0 Sample.client Listing.envs
            "logs" "events" 0 None None (Some "ts"%string) (Pool.init 1 3600)
            [[PStr "default"]; [PStr "logs"]] Hready eq_refl eq_refl _)
            eq_refl [[PStr "events"]] eq_refl eq_refl _) eq_refl) _).
  - repeat constructor; discriminate.
  - repeat constructor; discriminate.
  - left. lia.
Defined.

(** X20.  [table_count] on a sound pool with the link up.  The two checks
    are those of the sample; then a call without a time column ends with the
    text of the attribute error of [get_columns]; and with a time column the
    count reported is the first field of the first row the backend returns,
    while an answer without rows, or with an empty first row, ends as the text
    of the index error.  Every outcome is a text, and the pool is sound
    again. *)
Theorem table_count_answers (fuel : nat) (cl : ClickHouseClient)
    (envs : nat -> nat -> Env) (database table : string)
    (start_time end_time time_column : option string) (w : World)
    (dbs : list row) :
  State.ready w ->
  probe (envs 1%nat 1%nat) = None ->
  answer (envs 1%nat 1%nat) (Listing.sent cl "SHOW DATABASES" false)
    = Ok (Rows dbs) ->
  Forall (fun r => r <> []) dbs ->
  let answers := fun text =>
    exists w',
      DataResource.table_count fuel cl envs database table start_time end_time
        time_column w = (w', Done (Ok text))
      /\ State.ready w' in
  (Py.mem (PStr database) (map Listing.first_field dbs) = false ->
   answers (DataResource.not_found_database database))
  /\ (Py.mem (PStr database) (map Listing.first_field dbs) = true ->
      forall tbls,
        probe (envs 2%nat 1%nat) = None ->
        answer (envs 2%nat 1%nat)
          (Listing.sent cl
             (Client.tables_query
                (Client.database_or_default cl (Some database))) false)
          = Ok (Rows tbls) ->
        Forall (fun r => r <> []) tbls ->
        (Py.mem (PStr table) (map Listing.first_field tbls) = false ->
         answers (DataResource.not_found_table database table))
        /\ (Py.mem (PStr table) (map Listing.first_field tbls) = true ->
            (time_column = None ->
             answers (DataResource.count_error database table
                        DataResource.no_get_columns))
            /\ (time_column <> None ->
                forall rows,
                  probe (envs 3%nat 1%nat) = None ->
                  answer (envs 3%nat 1%nat)
                    (Listing.sent cl
                       (DataResource.count_sql database table time_column
                          start_time end_time) false)
                    = Ok (Rows rows) ->
                  answers
                    (match rows with
                     | (count :: _) :: _ =>
                         DataResource.count_content database table time_column
                           start_time end_time count
                     | [] :: _ =>
                         DataResource.count_error database table
                           "tuple index out of range"
                     | [] =>
                         DataResource.count_error database table
                           "list index out of range"
                     end)))).
Proof.
  intros Hready Hp1 Ha1 Hne1 answers. subst answers.
  destruct (check_exists_link_up fuel cl envs database table w dbs Hready Hp1
              Ha1 Hne1) as [Hmiss Hhit].
  split.
  - intros Hl. destruct (Hmiss Hl) as (w' & Hck & Hready').
    exists w'. unfold DataResource.table_count. rewrite Hck. auto.
  - intros Hl tbls Hp2 Ha2 Hne2.
    destruct (Hhit Hl tbls Hp2 Ha2 Hne2) as (w2 & Hck & Hready2).
    split.
    + intros Ht. rewrite Ht in Hck.
      exists w2. unfold DataResource.table_count. rewrite Hck. auto.
    + intros Ht. rewrite Ht in Hck. split.
      * intros Hnone.
        exists w2. unfold DataResource.table_count. rewrite Hck, Hnone. auto.
      * intros Hsome rows Hp3 Ha3.
        destruct (client_execute_link_up fuel cl (envs 3%nat) _ NoParams false
                    None None w2 _ Hready2 Hp3 Ha3) as (w3 & Hrun & Hready3).
        exists w3. unfold DataResource.table_count. rewrite Hck.
        destruct time_column as [tc|]; [|congruence].
        rewrite Hrun. destruct rows as [|[|count r] rows]; auto.
Qed.

Lemma table_count_answers_witness :
  State.ready (Pool.init 1 3600)
  /\ exists w',
       DataResource.table_count 0 Sample.client Listing.envs "logs" "events"
         None None (Some "ts"%string) (Pool.init 1 3600)
       = (w', Done (Ok (DataResource.count_content "logs" "events"
                          (Some "ts"%string) None None (PInt 1))))
       /\ State.ready w'.
Proof.
  assert (Hready : State.ready (Pool.init 1 3600)) by (apply new_pool_ready; lia).
  split; [exact Hready|].
  refine (proj2 (proj2 (proj2 (table_count_answers 0 Sample.client Listing.envs
            "logs" "events" None None (Some "ts"%string) (Pool.init 1 3600)
            [[PStr "default"]; [PStr "logs"]] Hready eq_refl eq_refl _)
            eq_refl [[PStr "events"]] eq_refl eq_refl _) eq_refl) _
            [[PInt 1]] eq_refl eq_refl).
  - repeat constructor; discriminate.
  - repeat constructor; discriminate.
  - discriminate.
Defined.

(** ** Recycling: where the scan stops and what the wait loop leaves out *)

Lemma remove_first_other (a b : nat) (ms : list nat) :
  b ∈ ms -> b <> a -> b ∈ Pool.remove_first a ms.
Proof.
  induction ms as [|x ms IH]; intros Hb Hne; [now apply elem_of_nil in Hb|].
  simpl. apply elem_of_cons in Hb as [->|Hb].
  - destruct (Nat.eqb_spec x a) as [->|_]; [congruence | apply list_elem_of_here].
  - destruct (Nat.eqb_spec x a) as [_|_]; [exact Hb|].
    apply list_elem_of_further. now apply IH.
Qed.

(** C3.  The code departs from what C3 states in two places.  First, the
    scan: when its first idle member is stale, [get_connection]
    disconnects and removes it and leaves the scan with [break].  Another idle
    member [b] is then not looked at: it is not what the call returns and it
    stays in the pool, idle, while the call goes on as if every member were in
    use and, the link being up, opens a new connection.  Second, the wait
    loop: it claims the first idle member whatever its age, so a member that
    is stale at that time is handed out, connected as it was and with its old
    [last_used]. *)
Theorem stale_member_ends_scan_and_wait_loop_skips_test :
  (forall (fuel : nat) (now : Z) (pr : option exn) (w : World) (a b : nat)
          (c cb : Connection),
     _lock w = false ->
     Pool.first_idle (heap w) (_pool w) = Some (a, c) ->
     State.stale w now c ->
     Z.of_nat (length (_pool w)) <= pool_size w ->
     b ∈ _pool w -> b <> a ->
     heap w !! b = Some cb -> Conn.is_in_use cb = false ->
     let w' := fst (Pool.get_connection fuel now pr w) in
     let r := snd (Pool.get_connection fuel now pr w) in
     r <> Done (Ok b)
     /\ b ∈ _pool w'
     /\ heap w' !! b = Some cb
     /\ (pr = None ->
         r = Done (Ok (length (heap w))) /\ heap w !! length (heap w) = None))
  /\ (forall (fuel : nat) (now : Z) (w : World) (a : nat) (c : Connection),
        Pool.first_idle (heap w) (_pool w) = Some (a, c) ->
        State.stale w now c ->
        exists w',
          Pool.wait_loop fuel w = (w', Done (Ok a))
          /\ heap w' !! a = Some (Conn.set_in_use true c)
          /\ Conn.is_connected (Conn.set_in_use true c) = Conn.is_connected c
          /\ Conn.last_used (Conn.set_in_use true c) = Conn.last_used c
          /\ State.stale w' now (Conn.set_in_use true c)).
Proof.
  split.
  - intros fuel now pr w a b c cb Hlock Hfirst Hstale Hcap Hb Hne Hcb Hidle.
    destruct (first_idle_found _ _ _ _ Hfirst) as (Ha & Hc & _).
    pose proof (lookup_lt_Some _ _ _ Hcb) as Hlt.
    pose proof (remove_first_length a (_pool w) Ha) as Hrm.
    pose proof (remove_first_other a b (_pool w) Hb Hne) as Hkept.
    unfold State.stale in Hstale.
    unfold Pool.get_connection. rewrite Hlock, Hfirst.
    destruct (Z.gtb_spec (now - Conn.last_used c) (pool_recycle w)) as [_|Hfresh];
      [|lia].
    unfold Pool.grow_or_wait.
    cbn [Pool.set_members Pool.update Pool.set_heap heap _pool pool_size].
    destruct (Z.ltb_spec (Z.of_nat (length (Pool.remove_first a (_pool w))))
                         (pool_size w)) as [_|Hfull]; [|lia].
    destruct pr as [e|]; cbn [Conn.connect fst snd Pool.set_members Pool.send
                              Pool.update Pool.set_heap heap _pool].
    + split; [discriminate|]. split; [exact Hkept|].
      split; [|discriminate].
      rewrite list_lookup_alter_ne by congruence. exact Hcb.
    + rewrite length_alter.
      split; [intros [= Heq]; lia|].
      split; [apply elem_of_app; left; exact Hkept|].
      split.
      * rewrite lookup_app_l by (rewrite length_alter; exact Hlt).
        rewrite list_lookup_alter_ne by congruence. exact Hcb.
      * intros _. split; [reflexivity|]. apply lookup_ge_None_2. lia.
  - intros fuel now w a c Hfirst Hstale.
    destruct (first_idle_found _ _ _ _ Hfirst) as (_ & Hc & _).
    eexists. split; [apply (wait_loop_claims fuel w a c Hfirst)|].
    cbn [Pool.set_lock Pool.update Pool.set_heap heap].
    split; [now rewrite list_lookup_alter_eq, Hc|].
    repeat split. exact Hstale.
Qed.

Lemma stale_member_ends_scan_and_wait_loop_skips_test_witness :
  (exists c1,
     heap Sample.two_idle !! 1%nat = Some c1
     /\ Conn.is_in_use c1 = false
     /\ ~ State.stale Sample.two_idle 5001 c1
     /\ snd (Pool.get_connection 0 5001 None Sample.two_idle) = Done (Ok 2%nat)
     /\ 1%nat ∈ _pool (fst (Pool.get_connection 0 5001 None Sample.two_idle))
     /\ heap (fst (Pool.get_connection 0 5001 None Sample.two_idle)) !! 1%nat
        = Some c1)
  /\ (exists c0 w',
        State.stale (Pool.release 0 Sample.one_held_one_waiting) 5000 c0
        /\ Pool.wait_loop 3 (Pool.release 0 Sample.one_held_one_waiting)
           = (w', Done (Ok 0%nat))
        /\ heap w' !! 0%nat = Some (Conn.set_in_use true c0)
        /\ State.stale w' 5000 (Conn.set_in_use true c0)).
Proof.
  split.
  - exists (mkConnection (Some TheSyncClient) false 5000).
    assert (H1 : heap Sample.two_idle !! 1%nat
                 = Some (mkConnection (Some TheSyncClient) false 5000))
      by (vm_compute; reflexivity).
    assert (Hstale : State.stale Sample.two_idle 5001
                       (mkConnection (Some TheSyncClient) false 10))
      by (vm_compute; reflexivity).
    assert (Hcap : Z.of_nat (length (_pool Sample.two_idle))
                   <= pool_size Sample.two_idle)
      by (vm_compute; intros Hgt; discriminate Hgt).
    assert (Hin : 1%nat ∈ _pool Sample.two_idle)
      by (apply list_elem_of_further, list_elem_of_here).
    destruct (proj1 stale_member_ends_scan_and_wait_loop_skips_test
                0%nat 5001 None Sample.two_idle 0%nat 1%nat
                (mkConnection (Some TheSyncClient) false 10)
                (mkConnection (Some TheSyncClient) false 5000)
                eq_refl eq_refl Hstale Hcap Hin ltac:(discriminate) H1 eq_refl)
      as (_ & Hkept & Hheap & Hnew).
    split; [exact H1|]. split; [reflexivity|].
    split; [vm_compute; discriminate|].
    split; [exact (proj1 (Hnew eq_refl))|].
    split; [exact Hkept | exact Hheap].
  - exists (mkConnection (Some TheSyncClient) false 0).
    assert (Hstale : State.stale (Pool.release 0 Sample.one_held_one_waiting)
                       5000 (mkConnection (Some TheSyncClient) false 0))
      by (vm_compute; reflexivity).
    destruct (proj2 stale_member_ends_scan_and_wait_loop_skips_test
                3%nat 5000 (Pool.release 0 Sample.one_held_one_waiting) 0%nat
                (mkConnection (Some TheSyncClient) false 0) eq_refl Hstale)
      as (w' & Hrun & Hheap & _ & _ & Hstale').
    exists w'. split; [exact Hstale|]. split; [exact Hrun|].
    split; [exact Hheap | exact Hstale'].
Defined.

(** ** [get_table_schema] and the table that is not there *)

(** A call under the decorator never ends with an error of the driver's
    classes: such an error is retried, and after the last attempt it is
    wrapped. *)
Lemma call_raises_no_driver_error {A : Type}
    (body : nat -> World -> World * progress A) (w w' : World) (e : exn)
    (s : Retry.statistics) :
  Retry.call body w = (w', Done (Raise e), s) -> is_ClickHouseError e = false.
Proof.
  unfold Retry.call, Retry.max_attempt_number. cbn [Retry.attempts].
  unfold Retry.retry_if_exception_type.
  destruct (body 1%nat w) as [w1 [[v1|e1]|]]; try discriminate.
  destruct (is_ClickHouseError e1) eqn:H1; cbn [negb];
    [|intros [= <- <- <-]; exact H1].
  cbn [Retry.stop_after_attempt Retry.max_attempt_number Nat.leb].
  destruct (body 2%nat w1) as [w2 [[v2|e2]|]]; try discriminate.
  destruct (is_ClickHouseError e2) eqn:H2; cbn [negb];
    [|intros [= <- <- <-]; exact H2].
  cbn [Retry.stop_after_attempt Retry.max_attempt_number Nat.leb].
  destruct (body 3%nat w2) as [w3 [[v3|e3]|]]; try discriminate.
  destruct (is_ClickHouseError e3) eqn:H3; cbn [negb];
    intros [= <- <- <-]; [reflexivity | exact H3].
Qed.

Lemma assemble_raises_no_driver_error (db table : string)
    (columns_result table_result : reply) (e : exn) :
  Client.assemble db table columns_result table_result = Raise e ->
  is_ClickHouseError e = false.
Proof.
  assert (Hinfo : forall r e0, Client.column_info r = Raise e0 ->
                    is_ClickHouseError e0 = false).
  { intros r e0. unfold Client.column_info, Client.item.
    repeat (match goal with
            | |- context [match ?l !! ?i with _ => _ end] => destruct (l !! i)
            end); intros [= <-]; reflexivity. }
  assert (Hinfos : forall rows e0, Client.column_infos rows = Raise e0 ->
                     is_ClickHouseError e0 = false).
  { induction rows as [|r rows IH]; intros e0; cbn [Client.column_infos];
      [discriminate|].
    destruct (Client.column_info r) as [ci|e1] eqn:Hci.
    - destruct (Client.column_infos rows) as [cis|e2]; [discriminate|].
      intros [= <-]. now apply IH.
    - intros [= <-]. exact (Hinfo _ _ Hci). }
  unfold Client.assemble.
  destruct columns_result as [rows|described types|text];
    try (intros [= <-]; reflexivity).
  destruct table_result as [[|info rest]|rows' types'|text'];
    try (intros [= <-]; reflexivity).
  destruct (Client.column_infos described) as [columns|e1] eqn:Hcols.
  - destruct info as [|v1 [|v2 [|v3 [|v4 [|v5 [|v6 info]]]]]];
      try discriminate; intros [= <-]; reflexivity.
  - intros [= <-]. exact (Hinfos _ _ Hcols).
Qed.

(** C7.  When the description query returns and the catalog query returns
    no row, [get_table_schema] raises [ClickHouseError] with the message
    [Table <db>.<table> does not exist].  This condition is apart from every
    failure of execution: an error of the driver's classes that leaves
    [get_table_schema] is this one and no other, raised after both queries
    returned and the catalog's answer was empty; a failure of either query
    leaves the method as it left the retried [execute], which is never as an
    error of the driver's classes (a driver error comes out wrapped in
    tenacity's [RetryError]). *)
Theorem get_table_schema_missing_table (fuel : nat) (cl : ClickHouseClient)
    (envs1 envs2 : nat -> Env) (table : string) (db : option string)
    (w : World) :
  let name := Client.database_or_default cl db in
  let describe := fun w0 =>
    Client.execute fuel cl envs1 (Client.describe_query name table) NoParams
                   true None None w0 in
  let catalog := fun w1 =>
    Client.execute fuel cl envs2 (Client.catalog_query name table) NoParams
                   false None None w1 in
  let not_found :=
    Exn ClickHouseError
      (append "Table " (append name (append "." (append table
         " does not exist")))) in
  (forall w1 w2 columns_result s1 s2,
     describe w = (w1, Done (Ok columns_result), s1) ->
     catalog w1 = (w2, Done (Ok (Rows [])), s2) ->
     Client.get_table_schema fuel cl envs1 envs2 table db w
     = (w2, Done (Raise not_found)))
  /\ (forall w' e,
        Client.get_table_schema fuel cl envs1 envs2 table db w
        = (w', Done (Raise e)) ->
        is_ClickHouseError e = true ->
        e = not_found
        /\ exists w1 columns_result s1 table_result s2,
             describe w = (w1, Done (Ok columns_result), s1)
             /\ catalog w1 = (w', Done (Ok table_result), s2)
             /\ Client.falsy table_result = true)
  /\ (forall w1 e s1,
        describe w = (w1, Done (Raise e), s1) ->
        Client.get_table_schema fuel cl envs1 envs2 table db w
        = (w1, Done (Raise e))
        /\ is_ClickHouseError e = false
        /\ e <> not_found)
  /\ (forall w1 w2 columns_result e s1 s2,
        describe w = (w1, Done (Ok columns_result), s1) ->
        catalog w1 = (w2, Done (Raise e), s2) ->
        Client.get_table_schema fuel cl envs1 envs2 table db w
        = (w2, Done (Raise e))
        /\ is_ClickHouseError e = false
        /\ e <> not_found).
Proof.
  intros name describe catalog not_found.
  split; [|split; [|split]].
  - intros w1 w2 columns_result s1 s2 H1 H2.
    unfold Client.get_table_schema. fold name.
    subst describe catalog. cbn beta in H1, H2. rewrite H1, H2. reflexivity.
  - intros w' e Hrun Hcls. unfold Client.get_table_schema in Hrun.
    fold name in Hrun.
    destruct (Client.execute fuel cl envs1 (Client.describe_query name table)
                NoParams true None None w) as [[w1 [[cols|e1]|]] s1] eqn:H1;
      [| |discriminate].
    + destruct (Client.execute fuel cl envs2 (Client.catalog_query name table)
                  NoParams false None None w1) as [[w2 [[tr|e2]|]] s2] eqn:H2;
        [| |discriminate].
      * destruct (Client.falsy tr) eqn:Hfalsy.
        -- injection Hrun as <- <-. split; [reflexivity|].
           exists w1, cols, s1, tr, s2. subst describe catalog. cbn beta.
           rewrite H2. repeat split; assumption.
        -- injection Hrun as <- Hasm.
           apply assemble_raises_no_driver_error in Hasm. congruence.
      * injection Hrun as <- <-.
        unfold Client.execute in H2.
        apply call_raises_no_driver_error in H2. congruence.
    + injection Hrun as <- <-.
      unfold Client.execute in H1.
      apply call_raises_no_driver_error in H1. congruence.
  - intros w1 e s1 H1. subst describe. cbn beta in H1.
    assert (Hcls : is_ClickHouseError e = false)
      by (unfold Client.execute in H1;
          exact (call_raises_no_driver_error _ _ _ _ _ H1)).
    split; [unfold Client.get_table_schema; fold name; now rewrite H1|].
    split; [exact Hcls|]. intros ->. discriminate Hcls.
  - intros w1 w2 columns_result e s1 s2 H1 H2. subst describe catalog.
    cbn beta in H1, H2.
    assert (Hcls : is_ClickHouseError e = false)
      by (unfold Client.execute in H2;
          exact (call_raises_no_driver_error _ _ _ _ _ H2)).
    split; [unfold Client.get_table_schema; fold name; now rewrite H1, H2|].
    split; [exact Hcls|]. intros ->. discriminate Hcls.
Qed.

(** A backend that knows no table gives the not-found error; a backend that
    rejects the queries gives the wrapped error of the third attempt, which
    is not an error of the driver's classes. *)
Lemma get_table_schema_missing_table_witness :
  snd (Client.get_table_schema 0 Sample.client (Sample.envs Sample.no_table)
         (Sample.envs Sample.no_table) "no_such_table" None (Pool.init 1 3600))
  = Done (Raise (Exn ClickHouseError
                   "Table default.no_such_table does not exist"))
  /\ snd (Client.get_table_schema 0 Sample.client
            (Sample.envs Sample.rejecting) (Sample.envs Sample.rejecting)
            "no_such_table" None (Pool.init 1 3600))
     = Done (Raise (RetryErr Sample.syntax_error))
  /\ is_ClickHouseError (RetryErr Sample.syntax_error) = false.
Proof.
  pose proof (get_table_schema_missing_table 0 Sample.client
                (Sample.envs Sample.no_table) (Sample.envs Sample.no_table)
                "no_such_table" None (Pool.init 1 3600)) as (Hmiss & _).
  pose proof (get_table_schema_missing_table 0 Sample.client
                (Sample.envs Sample.rejecting) (Sample.envs Sample.rejecting)
                "no_such_table" None (Pool.init 1 3600)) as (_ & _ & Hfail & _).
  split; [|split].
  - erewrite Hmiss; [reflexivity | vm_compute; reflexivity
                                 | vm_compute; reflexivity].
  - edestruct Hfail as (Hrun & _); [vm_compute; reflexivity|].
    rewrite Hrun. reflexivity.
  - edestruct Hfail as (_ & Hcls & _); [vm_compute; reflexivity|]. exact Hcls.
Defined.

(** ** What [get_connection] hands out, waiting included *)

Lemma wait_loop_unlocked (fuel : nat) (w w' : World) (r : result nat) :
  Pool.wait_loop fuel w = (w', Done r) -> _lock w' = false.
Proof.
  revert w'. induction fuel as [|fuel IH]; intros w'; simpl; unfold Pool.poll;
    destruct (Pool.first_idle (heap w) (_pool w)) as [[b c]|];
    try discriminate; try (intros [= <- _]; reflexivity). apply IH.
Qed.

Lemma get_connection_unlocked (fuel : nat) (now : Z) (pr : option exn)
    (w w' : World) (r : result nat) :
  Pool.get_connection fuel now pr w = (w', Done r) -> _lock w' = false.
Proof.
  assert (Hgrow : forall w0, _lock w0 = false ->
            Pool.grow_or_wait fuel pr w0 = (w', Done r) -> _lock w' = false).
  { intros w0 Hl. unfold Pool.grow_or_wait.
    destruct (Z.of_nat (length (_pool w0)) <? pool_size w0).
    - destruct pr as [e|]; cbn [Conn.connect]; intros [= <- _]; exact Hl.
    - apply wait_loop_unlocked. }
  unfold Pool.get_connection. destruct (_lock w) eqn:Hl; [discriminate|].
  destruct (Pool.first_idle (heap w) (_pool w)) as [[b c]|].
  - destruct (now - Conn.last_used c >? pool_recycle w).
    + apply Hgrow. exact Hl.
    + intros [= <- _]. exact Hl.
  - apply Hgrow. exact Hl.
Qed.

(** A call that comes back without sleeping hands out a member that was
    idle when it began, or a connection it has created. *)
Lemma get_connection_at_once (fuel : nat) (now : Z) (pr : option exn)
    (w w' : World) (a : nat) :
  Pool.get_connection fuel now pr w = (w', Done (Ok a)) ->
  a ∈ _pool w'
  /\ (exists c', heap w' !! a = Some c' /\ Conn.is_in_use c' = true)
  /\ ((a ∈ _pool w /\
       exists c, heap w !! a = Some c /\ Conn.is_in_use c = false)
      \/ (heap w !! a = None /\
          exists c', heap w' !! a = Some c' /\ Conn.is_connected c' = true
                     /\ Conn.last_used c' = 0)).
Proof.
  assert (Hgrow : forall w0 w1,
    Pool.grow_or_wait fuel pr w0 = (w1, Done (Ok a)) ->
    a ∈ _pool w1
    /\ (exists c', heap w1 !! a = Some c' /\ Conn.is_in_use c' = true)
    /\ ((a ∈ _pool w0 /\
         exists c, heap w0 !! a = Some c /\ Conn.is_in_use c = false)
        \/ (a = length (heap w0) /\
            exists c', heap w1 !! a = Some c' /\ Conn.is_connected c' = true
                       /\ Conn.last_used c' = 0))).
  { intros w0 w1. unfold Pool.grow_or_wait.
    destruct (Z.of_nat (length (_pool w0)) <? pool_size w0).
    - destruct pr as [e|]; cbn [Conn.connect]; [discriminate|].
      intros [= <- <-].
      cbn [Pool.set_members Pool.set_heap Pool.send heap _pool].
      assert (Hcell : (heap w0 ++ [Conn.set_in_use true
                         (Conn.set_client (Some TheSyncClient) Conn.init)])
                      !! length (heap w0)
                      = Some (Conn.set_in_use true
                                (Conn.set_client (Some TheSyncClient) Conn.init)))
        by (apply list_lookup_middle; reflexivity).
      split; [apply elem_of_app; right; apply list_elem_of_here|].
      split; [eexists; split; [exact Hcell | reflexivity]|].
      right. split; [reflexivity|].
      eexists. split; [exact Hcell|]. split; reflexivity.
    - intros Hw. destruct (wait_loop_hands_out_idle fuel w0 w1 a Hw)
        as (Ha & Hp & c & Hc & Hidle & Hc').
      split; [now rewrite Hp|]. split; [eexists; split; [exact Hc' | reflexivity]|].
      left. split; [exact Ha|]. eauto. }
  unfold Pool.get_connection. destruct (_lock w); [discriminate|].
  destruct (Pool.first_idle (heap w) (_pool w)) as [[b c]|] eqn:Hfirst.
  - destruct (first_idle_found _ _ _ _ Hfirst) as (Hb & Hc & Hidle).
    destruct (now - Conn.last_used c >? pool_recycle w).
    + intros Hg. destruct (Hgrow _ _ Hg) as (H1 & H2 & H3).
      split; [exact H1|]. split; [exact H2|].
      cbn [Pool.set_members Pool.update Pool.set_heap heap _pool] in H3.
      destruct H3 as [(Ha & c0 & Hc0 & Hidle0) | (Ha & Hnew)].
      * left. split; [eapply remove_first_subset, Ha|].
        destruct (decide (b = a)) as [->|Hne].
        -- exists c. split; [exact Hc | exact Hidle].
        -- rewrite list_lookup_alter_ne in Hc0 by exact Hne. eauto.
      * right. rewrite length_alter in Ha. split; [|exact Hnew].
        subst a. apply lookup_ge_None_2. lia.
    + intros [= <- <-]. cbn [Pool.update Pool.set_heap heap _pool].
      split; [exact Hb|].
      split; [exists (Conn.set_in_use true c);
              rewrite list_lookup_alter_eq, Hc; split; reflexivity|].
      left. split; [exact Hb|]. eauto.
  - intros Hg. destruct (Hgrow _ _ Hg) as (H1 & H2 & H3).
    split; [exact H1|]. split; [exact H2|].
    destruct H3 as [H3 | (Ha & Hnew)]; [left; exact H3|].
    right. split; [|exact Hnew]. subst a. apply lookup_ge_None_2. lia.
Qed.

Lemma sound_run (ops : list Run.op) (w : World) :
  Run.sound w -> Run.sound (Run.run ops w).
Proof.
  revert w. induction ops as [|o ops IH]; intros w Hs; [exact Hs|].
  cbn [Run.run fold_left]. apply IH, sound_step, Hs.
Qed.

Lemma sound_slept (sleeps : list (list Run.op)) (w : World) :
  Run.sound w -> Run.sound (Run.slept sleeps w).
Proof.
  revert w. induction sleeps as [|during rest IH]; intros w Hs;
    cbn [Run.slept]; destruct (Pool.poll w); try exact Hs.
  apply IH, sound_run.
  eapply sound_same; [| | |exact Hs]; reflexivity.
Qed.

(** The bookkeeping stays sound along a call that waits. *)
Lemma sound_waiting_call (sleeps : list (list Run.op)) (now : Z)
    (pr : option exn) (w : World) :
  Run.sound w -> Run.sound (fst (Run.get_connection sleeps now pr w)).
Proof.
  intros Hs. unfold Run.get_connection.
  pose proof (sound_get_connection 0 now pr w Hs) as Hs1.
  destruct (Pool.get_connection 0 now pr w) as [w1 [r|]]; [exact Hs1|].
  destruct (_lock w); [exact Hs1|].
  unfold Run.await. apply sound_wait_loop, sound_slept. exact Hs1.
Qed.

(** X2.  A connection that a call of [get_connection] returns is a member
    of the pool and is marked in use, and the lock is free again.  It was not
    in use at the scan that claimed it: it is a member that was idle when the
    call began, or an object that did not exist before (a connection created
    by this call, connected, with [last_used] still 0), or, for a caller that
    had to wait, a member that was idle at the scan after one of its sleeps,
    in the pool as the holders of connections had left it by then; such a
    member may well have been in use when the call began.  The bookkeeping of
    a sound pool is sound after the call. *)
Theorem get_connection_hands_out_idle_or_new (sleeps : list (list Run.op))
    (now : Z) (pr : option exn) (w w' : World) (a : nat) :
  Run.get_connection sleeps now pr w = (w', Done (Ok a)) ->
  a ∈ _pool w'
  /\ _lock w' = false
  /\ (exists c', heap w' !! a = Some c' /\ Conn.is_in_use c' = true)
  /\ ((a ∈ _pool w /\
       exists c, heap w !! a = Some c /\ Conn.is_in_use c = false)
      \/ (heap w !! a = None /\
          exists c', heap w' !! a = Some c' /\ Conn.is_connected c' = true
                     /\ Conn.last_used c' = 0)
      \/ (exists c,
            a ∈ _pool (Run.slept sleeps (fst (Pool.get_connection 0 now pr w)))
            /\ heap (Run.slept sleeps (fst (Pool.get_connection 0 now pr w)))
                 !! a = Some c
            /\ Conn.is_in_use c = false
            /\ heap w' !! a = Some (Conn.set_in_use true c)))
  /\ (Run.sound w -> Run.sound w').
Proof.
  intros Hrun.
  assert (Hsound : Run.sound w -> Run.sound w').
  { intros Hs. pose proof (sound_waiting_call sleeps now pr w Hs) as Hs'.
    now rewrite Hrun in Hs'. }
  cut (a ∈ _pool w'
       /\ _lock w' = false
       /\ (exists c', heap w' !! a = Some c' /\ Conn.is_in_use c' = true)
       /\ ((a ∈ _pool w /\
            exists c, heap w !! a = Some c /\ Conn.is_in_use c = false)
           \/ (heap w !! a = None /\
               exists c', heap w' !! a = Some c' /\ Conn.is_connected c' = true
                          /\ Conn.last_used c' = 0)
           \/ (exists c,
                 a ∈ _pool (Run.slept sleeps
                              (fst (Pool.get_connection 0 now pr w)))
                 /\ heap (Run.slept sleeps
                            (fst (Pool.get_connection 0 now pr w))) !! a
                    = Some c
                 /\ Conn.is_in_use c = false
                 /\ heap w' !! a = Some (Conn.set_in_use true c)))).
  { intros (H1 & H2 & H3 & H4).
    split; [exact H1|]. split; [exact H2|]. split; [exact H3|].
    split; [exact H4 | exact Hsound]. }
  clear Hsound. revert Hrun.
  unfold Run.get_connection.
  destruct (Pool.get_connection 0 now pr w) as [w1 [r|]] eqn:Hg.
  - intros [= <- ->].
    destruct (get_connection_at_once 0 now pr w w1 a Hg) as (H1 & H2 & H3).
    split; [exact H1|].
    split; [exact (get_connection_unlocked _ _ _ _ _ _ Hg)|].
    split; [exact H2|].
    destruct H3 as [H3|H3]; [left; exact H3 | right; left; exact H3].
  - destruct (_lock w); [discriminate|].
    unfold Run.await. intros Hw. cbn [fst].
    destruct (wait_loop_hands_out_idle 0 _ w' a Hw)
      as (Ha & Hp & c & Hc & Hidle & Hc').
    split; [now rewrite Hp|].
    split; [exact (wait_loop_unlocked _ _ _ _ Hw)|].
    split; [eexists; split; [exact Hc' | reflexivity]|].
    right; right. exists c. repeat split; assumption.
Qed.

(** The member of a pool of size 1 is held when the second caller asks; the
    holder leaves its block during the caller's first sleep, and the caller
    is handed the member. *)
Lemma get_connection_hands_out_idle_or_new_witness :
  (exists c, heap Sample.one_held !! 0%nat = Some c
             /\ Conn.is_in_use c = true)
  /\ exists w',
       Run.get_connection [[Run.Release 0]] 20 None Sample.one_held
       = (w', Done (Ok 0%nat))
       /\ 0%nat ∈ _pool w'
       /\ _lock w' = false
       /\ (exists c', heap w' !! 0%nat = Some c' /\ Conn.is_in_use c' = true).
Proof.
  split; [eexists; split; vm_compute; reflexivity|].
  eexists. split; [vm_compute; reflexivity|].
  destruct (get_connection_hands_out_idle_or_new [[Run.Release 0]] 20 None
              Sample.one_held _ 0%nat eq_refl) as (H1 & H2 & H3 & _ & _).
  split; [exact H1|]. split; [exact H2 | exact H3].
Defined.
